(** * id3-js: a shallow embedding of the ID3v2 tag codec

    The development follows the TypeScript sources:

    - [src/index.ts]            the facade [NodeID3] (create, read, write, remove)
    - [src/frameEncoder.ts]     [FrameEncoder]
    - [src/frameDecoder.ts]     [FrameDecoder]
    - [src/frameDefinitions.ts] [FrameDefinitions], the alias tables

    A Node [Buffer] is a list of bytes, a byte is a [Z] in [0, 256).  A
    JavaScript string is the list of its UTF-16 code units.  JavaScript
    exceptions and the one loop of the decoder that has no exit on some inputs
    are outcomes of the [Completion] type. *)

From Stdlib Require Import String Ascii ZArith List Bool Lia.
Import ListNotations.

Open Scope string_scope.
Open Scope list_scope.
Open Scope Z_scope.

(** ** Outcomes of a JavaScript call *)

Inductive JSError : Type :=
| RangeError   (* Buffer.alloc with a negative size, writeUInt32BE out of range *)
| TypeError.   (* property access on undefined, Buffer.concat on a non-buffer *)

(** [Untyped] marks a call that the TypeScript interface [IFrames] excludes
    (a text alias carrying a structured value, for instance). *)
Inductive Completion (A : Type) : Type :=
| Return (a : A)
| Throw (e : JSError)
| Diverges
| Untyped.

Arguments Return {A} a.
Arguments Throw {A} e.
Arguments Diverges {A}.
Arguments Untyped {A}.

Definition bind {A B : Type} (c : Completion A) (k : A -> Completion B) : Completion B :=
  match c with
  | Return a => k a
  | Throw e => Throw e
  | Diverges => Diverges
  | Untyped => Untyped
  end.

Declare Scope js_scope.
Delimit Scope js_scope with js.
Notation "x <- c ;; k" := (bind c (fun x => k))
  (at level 61, c at next level, right associativity) : js_scope.
Open Scope js_scope.

(** ** JavaScript numbers, strings and objects *)

(** A string value is the list of its UTF-16 code units. *)
Definition JSString := list Z.

Module JS.

(** ToInt32: the operand of a bit operation is reduced modulo 2^32 into
    [-2^31, 2^31). *)
Definition ToInt32 (x : Z) : Z := (x + 2 ^ 31) mod 2 ^ 32 - 2 ^ 31.

(** [a << k], [a >> k], [a & b] and [a | b] for [0 <= k < 32]. *)
Definition shl (a k : Z) : Z := ToInt32 (Z.shiftl (ToInt32 a) k).
Definition sar (a k : Z) : Z := Z.shiftr (ToInt32 a) k.
Definition and (a b : Z) : Z := Z.land (ToInt32 a) (ToInt32 b).
Definition or (a b : Z) : Z := Z.lor (ToInt32 a) (ToInt32 b).

Definition of_ascii (s : string) : JSString :=
  map (fun c => Z.of_nat (nat_of_ascii c)) (list_ascii_of_string s).

(** [s.substring(a, b)]: both indices are clamped to [0, length], and swapped
    when [a > b]. *)
Definition clamp (len i : Z) : Z := Z.max 0 (Z.min len i).

Definition substring (s : JSString) (a b : Z) : JSString :=
  let len := Z.of_nat (length s) in
  let a' := clamp len a in
  let b' := clamp len b in
  let lo := Z.min a' b' in
  let hi := Z.max a' b' in
  firstn (Z.to_nat (hi - lo)) (skipn (Z.to_nat lo) s).

(** [s.substring(a)]. *)
Definition substring_from (s : JSString) (a : Z) : JSString :=
  substring s a (Z.of_nat (length s)).

(** [s.replace(/\0/g, "")]. *)
Definition strip_nul (s : JSString) : JSString :=
  filter (fun c => negb (c =? 0)) s.

(** Truthiness of a string-valued property: [undefined] and the empty string
    are falsy. *)
Definition truthy (o : option JSString) : bool :=
  match o with
  | Some (_ :: _) => true
  | _ => false
  end.

(** [s || ""] for a string-valued property. *)
Definition or_empty (o : option JSString) : JSString :=
  match o with
  | Some s => s
  | None => []
  end.

(** An object with string keys, as the list of its own properties in
    insertion order. *)
Definition object (V : Type) := list (string * V).

Fixpoint get {V : Type} (o : object V) (key : string) : option V :=
  match o with
  | [] => None
  | (k, v) :: rest => if String.eqb k key then Some v else get rest key
  end.

(** [o[key] = v]: an existing property keeps its place. *)
Fixpoint set {V : Type} (o : object V) (key : string) (v : V) : object V :=
  match o with
  | [] => [(key, v)]
  | (k, w) :: rest =>
      if String.eqb k key then (k, v) :: rest else (k, w) :: set rest key v
  end.

(** [Object.fromEntries(l)]. *)
Definition fromEntries {V : Type} (l : list (string * V)) : object V :=
  fold_left (fun acc kv => set acc (fst kv) (snd kv)) l [].

(** [{...a, ...b}]. *)
Definition spread {V : Type} (a b : object V) : object V :=
  fold_left (fun acc kv => set acc (fst kv) (snd kv)) b a.

End JS.

(** ** Node buffers *)

Definition Buffer := list Z.

(** The bytes of an ASCII literal such as ["ID3"]. *)
Definition ascii_bytes (s : string) : list Z := JS.of_ascii s.

Definition is_byte (b : Z) : Prop := 0 <= b < 256.

Module NodeBuffer.

(** [buf[i]]; [None] is [undefined]. *)
Definition get (buf : Buffer) (i : Z) : option Z :=
  if i <? 0 then None else nth_error buf (Z.to_nat i).

(** An array entry stored by [Buffer.from([...])]: [undefined] becomes 0,
    a number is reduced modulo 256. *)
Definition entry (o : option Z) : Z :=
  match o with
  | Some v => Z.land v 255
  | None => 0
  end.

(** [Buffer.alloc(size, fill)] raises a RangeError on a negative size. *)
Definition alloc (size fill : Z) : Completion Buffer :=
  if size <? 0 then Throw RangeError
  else Return (repeat fill (Z.to_nat size)).

(** Overwrite [buf] from [offset] with [bytes], never growing [buf]. *)
Fixpoint overwrite (buf : Buffer) (offset : nat) (bytes : list Z) : Buffer :=
  match buf, offset with
  | [], _ => []
  | b :: rest, S n => b :: overwrite rest n bytes
  | b :: rest, O =>
      match bytes with
      | [] => buf
      | x :: xs => x :: overwrite rest O xs
      end
  end.

(** [buf.slice(start, end)] for [start >= 0]; indices past the end are
    clamped, an [end] before [start] gives the empty buffer. *)
Definition slice (buf : Buffer) (start stop : Z) : Buffer :=
  let len := Z.of_nat (length buf) in
  let s := JS.clamp len start in
  let e := JS.clamp len stop in
  firstn (Z.to_nat (e - s)) (skipn (Z.to_nat s) buf).

(** [buf.slice(start)]. *)
Definition slice_from (buf : Buffer) (start : Z) : Buffer :=
  slice buf start (Z.of_nat (length buf)).

(** [Buffer.concat(list)]. *)
Definition concat (l : list Buffer) : Buffer := List.concat l.

Fixpoint starts_with (needle buf : list Z) : bool :=
  match needle, buf with
  | [], _ => true
  | _ :: _, [] => false
  | x :: xs, b :: bs => (x =? b) && starts_with xs bs
  end.

(** Search of a non-empty byte sequence in the suffix [buf] of a buffer, the
    suffix starting at index [pos]; -1 when there is no occurrence. *)
Fixpoint indexOf_at (needle : list Z) (buf : Buffer) (pos : Z) : Z :=
  match buf with
  | [] => -1
  | _ :: rest =>
      if starts_with needle buf then pos
      else indexOf_at needle rest (pos + 1)
  end.

(** [buf.indexOf(needle)]. *)
Definition indexOf (buf : Buffer) (needle : list Z) : Z :=
  indexOf_at needle buf 0.

(** [buf.indexOf(needle, byteOffset)] for [byteOffset >= 0]. *)
Definition indexOf_from (buf : Buffer) (needle : list Z) (byteOffset : Z) : Z :=
  indexOf_at needle (skipn (Z.to_nat byteOffset) buf) byteOffset.

(** Big-endian bytes of [value], [width] of them. *)
Fixpoint be_bytes (width : nat) (value : Z) : list Z :=
  match width with
  | O => []
  | S w => (value / 256 ^ Z.of_nat w) mod 256 :: be_bytes w value
  end.

(** [buf.writeUInt8/16BE/32BE(value, offset)]: a RangeError when the value
    does not fit the width or the field does not fit the buffer. *)
Definition writeUIntBE (width : nat) (buf : Buffer) (value offset : Z) : Completion Buffer :=
  if (value <? 0) || (256 ^ Z.of_nat width <=? value) then Throw RangeError
  else if (offset <? 0) || (Z.of_nat (length buf) <? offset + Z.of_nat width) then Throw RangeError
  else Return (overwrite buf (Z.to_nat offset) (be_bytes width value)).

Definition writeUInt8 := writeUIntBE 1.
Definition writeUInt16BE := writeUIntBE 2.
Definition writeUInt32BE := writeUIntBE 4.

(** [buf.readUIntBE(0, byteLength)] on a buffer of exactly that length. *)
Definition readUIntBE (buf : Buffer) : Z :=
  fold_left (fun acc b => acc * 256 + b) buf 0.

(** [buf.readUInt32BE(offset)] where the four bytes exist. *)
Definition readUInt32BE (buf : Buffer) (offset : Z) : Z :=
  readUIntBE (slice buf offset (offset + 4)).

(** [source.copy(target, targetStart, sourceStart)], giving the new contents
    of [target].  A [sourceStart] beyond the end of [source] copies nothing in
    the older Node releases and raises a RangeError in the newer ones;
    [checked] says which of the two the runtime does. *)
Definition copy (checked : bool) (source target : Buffer) (targetStart sourceStart : Z)
  : Completion Buffer :=
  if checked && (Z.of_nat (length source) <? sourceStart) then Throw RangeError
  else Return (overwrite target (Z.to_nat targetStart) (skipn (Z.to_nat sourceStart) source)).

(** [buf.write(s, offset)] for an ASCII string: one byte per character, cut
    at the end of [buf]. *)
Definition write (buf : Buffer) (s : string) (offset : Z) : Buffer :=
  overwrite buf (Z.to_nat offset) (ascii_bytes s).

(** [buf[i] = v] for an index inside [buf]. *)
Definition put (buf : Buffer) (i : Z) (v : Z) : Buffer :=
  overwrite buf (Z.to_nat i) [Z.land v 255].

Definition is_high_surrogate (c : Z) : bool := (55296 <=? c) && (c <=? 56319).
Definition is_low_surrogate (c : Z) : bool := (56320 <=? c) && (c <=? 57343).

Definition utf8_of_code_point (cp : Z) : list Z :=
  if cp <? 128 then [cp]
  else if cp <? 2048 then [192 + cp / 64; 128 + cp mod 64]
  else if cp <? 65536 then [224 + cp / 4096; 128 + (cp / 64) mod 64; 128 + cp mod 64]
  else [240 + cp / 262144; 128 + (cp / 4096) mod 64; 128 + (cp / 64) mod 64; 128 + cp mod 64].

(** [Buffer.from(s)]: the UTF-8 bytes of a string; a surrogate pair is one
    code point, a lone surrogate is written as U+FFFD. *)
Fixpoint from_string (s : JSString) : Buffer :=
  match s with
  | [] => []
  | c :: rest =>
      if is_high_surrogate c then
        match rest with
        | d :: rest' =>
            if is_low_surrogate d
            then utf8_of_code_point (65536 + (c - 55296) * 1024 + (d - 56320)) ++ from_string rest'
            else utf8_of_code_point 65533 ++ from_string rest
        | [] => utf8_of_code_point 65533
        end
      else if is_low_surrogate c then utf8_of_code_point 65533 ++ from_string rest
      else utf8_of_code_point c ++ from_string rest
  end.

Definition between (lo hi b : Z) : bool := (lo <=? b) && (b <=? hi).

Definition code_units (cp : Z) : JSString :=
  if cp <? 65536 then [cp]
  else [55296 + (cp - 65536) / 1024; 56320 + (cp - 65536) mod 1024].

(** [buf.toString()]: UTF-8 decoding; every maximal ill-formed part is
    replaced by U+FFFD. *)
Fixpoint toString (bytes : Buffer) : JSString :=
  match bytes with
  | [] => []
  | b0 :: r0 =>
      if b0 <? 128 then b0 :: toString r0
      else if between 194 223 b0 then
        match r0 with
        | [] => [65533]
        | b1 :: r1 =>
            if between 128 191 b1
            then ((b0 - 192) * 64 + (b1 - 128)) :: toString r1
            else 65533 :: toString r0
        end
      else if between 224 239 b0 then
        match r0 with
        | [] => [65533]
        | b1 :: r1 =>
            if between (if b0 =? 224 then 160 else 128) (if b0 =? 237 then 159 else 191) b1 then
              match r1 with
              | [] => [65533]
              | b2 :: r2 =>
                  if between 128 191 b2
                  then ((b0 - 224) * 4096 + (b1 - 128) * 64 + (b2 - 128)) :: toString r2
                  else 65533 :: toString r1
              end
            else 65533 :: toString r0
        end
      else if between 240 244 b0 then
        match r0 with
        | [] => [65533]
        | b1 :: r1 =>
            if between (if b0 =? 240 then 144 else 128) (if b0 =? 244 then 143 else 191) b1 then
              match r1 with
              | [] => [65533]
              | b2 :: r2 =>
                  if between 128 191 b2 then
                    match r2 with
                    | [] => [65533]
                    | b3 :: r3 =>
                        if between 128 191 b3
                        then code_units ((b0 - 240) * 262144 + (b1 - 128) * 4096
                                         + (b2 - 128) * 64 + (b3 - 128)) ++ toString r3
                        else 65533 :: toString r2
                    end
                  else 65533 :: toString r1
              end
            else 65533 :: toString r0
        end
      else 65533 :: toString r0
  end.

(** The identifier read by [buf.toString("utf8", 0, n)], one character per
    byte.  The decoder only compares identifiers with ASCII literals and looks
    them up in tables of ASCII names; UTF-8 decoding gives an ASCII string
    exactly for the ASCII bytes of that string, and a first character ["T"]
    exactly for a first byte 0x54, so these tests agree with the ones made on
    the UTF-8 decoding. *)
Definition identifier (bytes : Buffer) : string :=
  string_of_list_ascii (map (fun b => ascii_of_nat (Z.to_nat b)) bytes).

End NodeBuffer.

(** ** iconv-lite, for the two encodings the codec uses

    [iconv.encode(s, "utf16")] writes the byte order mark FF FE and then each
    code unit low byte first.  [iconv.decode(b, "utf16")] chooses the byte
    order from the mark or, without one, from where the zero bytes stand in
    the first 64 bytes (little endian unless more pairs look big endian),
    drops a trailing odd byte and strips a leading U+FEFF.
    [iconv.decode(b, "ISO-8859-1")] maps each byte to the code unit of the
    same value. *)

Module Iconv.

Definition encode_utf16 (s : JSString) : Buffer :=
  [255; 254] ++ flat_map (fun c => [c mod 256; c / 256]) s.

Fixpoint units_le (bytes : Buffer) : JSString :=
  match bytes with
  | b0 :: b1 :: rest => (b0 + 256 * b1) :: units_le rest
  | _ => []
  end.

Fixpoint units_be (bytes : Buffer) : JSString :=
  match bytes with
  | b0 :: b1 :: rest => (256 * b0 + b1) :: units_be rest
  | _ => []
  end.

(** Counts, over at most [pairs] byte pairs, the pairs that are an ASCII
    character read little endian and those that are one read big endian. *)
Fixpoint count_ascii (pairs : nat) (bytes : Buffer) (le be : Z) : Z * Z :=
  match pairs, bytes with
  | S n, b0 :: b1 :: rest =>
      count_ascii n rest
        (if negb (b0 =? 0) && (b1 =? 0) then le + 1 else le)
        (if (b0 =? 0) && negb (b1 =? 0) then be + 1 else be)
  | _, _ => (le, be)
  end.

Inductive ByteOrder : Type := LittleEndian | BigEndian.

Definition detectEncoding (buf : Buffer) : ByteOrder :=
  match buf with
  | 254 :: 255 :: _ => BigEndian
  | 255 :: 254 :: _ => LittleEndian
  | _ =>
      let (le, be) := count_ascii 32 buf 0 0 in
      if le <? be then BigEndian else LittleEndian
  end.

Definition stripBOM (s : JSString) : JSString :=
  match s with
  | 65279 :: rest => rest
  | _ => s
  end.

Definition decode_utf16 (buf : Buffer) : JSString :=
  stripBOM (match detectEncoding buf with
            | LittleEndian => units_le buf
            | BigEndian => units_be buf
            end).

Definition decode_latin1 (buf : Buffer) : JSString := buf.

End Iconv.

(** ** Frame values and alias tables (src/frameDefinitions.ts) *)

(** The fields are optional: the decoder returns [{}] for a frame it cannot
    read, and the encoder tests its fields for [undefined] and for falsiness
    itself. *)
Record ISpecialTextFrame : Type := mkSpecialText {
  text : option JSString;
  language : option JSString;
  shortText : option JSString
}.

Record IUserDefinedTextFrame : Type := mkUserDefinedText {
  description : option JSString;
  value : option JSString
}.

(** The value of one property of [IFrames]. *)
Inductive FrameValue : Type :=
| VString (s : JSString)
| VSpecialText (data : ISpecialTextFrame)
| VBuffer (data : Buffer)
| VUserDefinedText (data : IUserDefinedTextFrame)
| VUserDefinedTexts (data : list IUserDefinedTextFrame).

Definition IFrames := JS.object FrameValue.

Module FrameDefinitions.

Definition textFrames : JS.object string :=
  [ ("album", "TALB"); ("bpm", "TBPM"); ("composer", "TCOM"); ("genre", "TCON");
    ("copyright", "TCOP"); ("date", "TDAT"); ("playlistDelay", "TDLY");
    ("encodedBy", "TENC"); ("textWriter", "TEXT"); ("fileType", "TFLT");
    ("time", "TIME"); ("contentGroup", "TIT1"); ("title", "TIT2");
    ("subtitle", "TIT3"); ("initialKey", "TKEY"); ("language", "TLAN");
    ("length", "TLEN"); ("mediaType", "TMED"); ("originalTitle", "TOAL");
    ("originalFilename", "TOFN"); ("originalTextwriter", "TOLY");
    ("originalArtist", "TOPE"); ("originalYear", "TORY"); ("fileOwner", "TOWN");
    ("artist", "TPE1"); ("performerInfo", "TPE2"); ("conductor", "TPE3");
    ("remixArtist", "TPE4"); ("partOfSet", "TPOS"); ("publisher", "TPUB");
    ("trackNumber", "TRCK"); ("recordingDates", "TRDA");
    ("internetRadioName", "TRSN"); ("internetRadioOwner", "TRSO");
    ("size", "TSIZ"); ("ISRC", "TSRC"); ("encodingTechnology", "TSSE");
    ("year", "TYER") ].

Definition textFramesV220 : JS.object string :=
  [ ("album", "TAL"); ("bpm", "TBP"); ("composer", "TCM"); ("genre", "TCO");
    ("copyright", "TCR"); ("date", "TDA"); ("playlistDelay", "TDY");
    ("encodedBy", "TEN"); ("textWriter", "TXT"); ("fileType", "TFT");
    ("time", "TIM"); ("contentGroup", "TT1"); ("title", "TT2");
    ("subtitle", "TT3"); ("initialKey", "TKE"); ("language", "TLA");
    ("length", "TLE"); ("mediaType", "TMT"); ("originalTitle", "TOT");
    ("originalFilename", "TOF"); ("originalTextwriter", "TOL");
    ("originalArtist", "TOA"); ("originalYear", "TOR"); ("artist", "TP1");
    ("performerInfo", "TP2"); ("conductor", "TP3"); ("remixArtist", "TP4");
    ("partOfSet", "TPA"); ("publisher", "TPB"); ("trackNumber", "TRK");
    ("recordingDates", "TRD"); ("size", "TSI"); ("ISRC", "TRC");
    ("encodingTechnology", "TSS"); ("year", "TYE") ].

Definition specialFrames : JS.object string :=
  [ ("comment", "COMM"); ("image", "APIC"); ("unsynchronisedLyrics", "USLT");
    ("userDefinedText", "TXXX") ].

Definition specialFramesV220 : JS.object string :=
  [ ("image", "PIC") ].

(** [flipObject], utils.ts. *)
Definition flipObject (obj : JS.object string) : JS.object string :=
  JS.fromEntries (map (fun kv => (snd kv, fst kv)) obj).

(** [convertNameToAlias]; [None] is [undefined]. *)
Definition convertNameToAlias (frameName : string) : option string :=
  JS.get
    (flipObject
       (JS.spread (JS.spread (JS.spread textFrames specialFrames) textFramesV220)
          specialFramesV220))
    frameName.

(** [convertAliasToName]; [None] is [undefined]. *)
Definition convertAliasToName (frameAlias : string) : option string :=
  JS.get (JS.spread textFrames specialFrames) frameAlias.

Definition canHaveMultipleEntries (frameName : string) : bool :=
  String.eqb frameName "TXXX".

(** [frameName[0] === "T"]. *)
Definition starts_with_T (frameName : string) : bool :=
  match frameName with
  | String c _ => Ascii.eqb c "T"
  | EmptyString => false
  end.

Definition isTextFrame (frameName : string) : bool :=
  starts_with_T frameName && negb (String.eqb frameName "TXXX").

End FrameDefinitions.

(** ** The encoder (src/frameEncoder.ts) *)

Module FrameEncoder.

(** Sum of the lengths of a list of buffers. *)
Definition total_length (buffers : list Buffer) : Z :=
  fold_left (fun acc cur => acc + Z.of_nat (length cur)) buffers 0.

(** [createTextFrame], frameEncoder.ts line 47. *)
Definition createTextFrame (frameName : string) (frameValue : JSString) : Completion Buffer :=
  let encoded := Iconv.encode_utf16 frameValue in
  buffer <- NodeBuffer.alloc 10 0 ;;
  let buffer := NodeBuffer.write buffer frameName 0 in
  buffer <- NodeBuffer.writeUInt32BE buffer (Z.of_nat (length encoded) + 1) 4 ;;
  filled <- NodeBuffer.alloc 1 1 ;;
  Return (NodeBuffer.concat [buffer; filled; encoded]).

(** The buffer pushed at line 97 of [createSpecialTextFrame]: the language
    field of a comment or lyrics frame. *)
Definition languageBuffer (data : ISpecialTextFrame) : Buffer :=
  NodeBuffer.from_string
    (match language data with
     | None => JS.of_ascii "eng"
     | Some l => JS.substring l 0 3
     end).

(** [createSpecialTextFrame], frameEncoder.ts line 88. *)
Definition createSpecialTextFrame (frameName : string) (data : ISpecialTextFrame)
  : Completion Buffer :=
  let encodingBuffer := [1] in
  let buffers := [encodingBuffer] in
  let buffers :=
    if negb (String.eqb frameName "TXXX") then buffers ++ [languageBuffer data]
    else buffers in
  let contentDescriptorBuffer :=
    if negb (JS.truthy (shortText data)) then Iconv.encode_utf16 [0]
    else NodeBuffer.concat [Iconv.encode_utf16 (JS.or_empty (shortText data)); [0; 0]] in
  let buffers := buffers ++ [contentDescriptorBuffer] in
  let buffers := buffers ++ [Iconv.encode_utf16 (JS.or_empty (text data))] in
  headerBuffer <- NodeBuffer.alloc 10 0 ;;
  let headerBuffer := NodeBuffer.write headerBuffer frameName 0 in
  headerBuffer <- NodeBuffer.writeUInt32BE headerBuffer (total_length buffers) 4 ;;
  Return (NodeBuffer.concat (headerBuffer :: buffers)).

(** The loop of [createUserDefinedTextFrame]; [None] is [undefined]. *)
Fixpoint userDefinedTextLoop (entries : list IUserDefinedTextFrame) (buffer : option Buffer)
  : Completion (option Buffer) :=
  match entries with
  | [] => Return buffer
  | entry :: rest =>
      singleBuffer <- createSpecialTextFrame "TXXX"
                        (mkSpecialText (value entry) None (description entry)) ;;
      userDefinedTextLoop rest
        (match buffer with
         | None => Some singleBuffer
         | Some b => Some (NodeBuffer.concat [b; singleBuffer])
         end)
  end.

(** [createUserDefinedTextFrame], frameEncoder.ts line 120. *)
Definition createUserDefinedTextFrame (data : FrameValue) : Completion (option Buffer) :=
  match data with
  | VUserDefinedTexts entries => userDefinedTextLoop entries None
  | VUserDefinedText entry => userDefinedTextLoop [entry] None
  | _ => Untyped
  end.

(** [createImageFrame], frameEncoder.ts line 142. *)
Definition createImageFrame (apicData : Buffer) : Completion Buffer :=
  bHeader <- NodeBuffer.alloc 10 0 ;;
  let bHeader := NodeBuffer.write bHeader "APIC" 0 in
  let mimeType :=
    match NodeBuffer.get apicData 0, NodeBuffer.get apicData 1, NodeBuffer.get apicData 2 with
    | Some 255, Some 216, Some 255 => "image/jpeg"
    | _, _, _ => "image/png"
    end in
  let mimeLength := Z.of_nat (String.length mimeType) in
  bContent <- NodeBuffer.alloc (mimeLength + 4) 0 ;;
  let bContent := NodeBuffer.put bContent (mimeLength + 2) 3 in
  let bContent := NodeBuffer.write bContent mimeType 1 in
  bHeader <- NodeBuffer.writeUInt32BE bHeader
               (Z.of_nat (length apicData) + Z.of_nat (length bContent)) 4 ;;
  Return (NodeBuffer.concat [bHeader; bContent; apicData]).

(** [createSpecialFrame], frameEncoder.ts line 64; [None] is [undefined]. *)
Definition createSpecialFrame (frameName : string) (frameValue : FrameValue)
  : Completion (option Buffer) :=
  if String.eqb frameName "COMM" || String.eqb frameName "USLT" then
    match frameValue with
    | VSpecialText data => frame <- createSpecialTextFrame frameName data ;; Return (Some frame)
    | _ => Untyped
    end
  else if String.eqb frameName "APIC" then
    match frameValue with
    | VBuffer data => frame <- createImageFrame data ;; Return (Some frame)
    | VString _ => Throw TypeError   (* [Buffer.concat] on a string *)
    | _ => Untyped
    end
  else if String.eqb frameName "TXXX" then createUserDefinedTextFrame frameValue
  else Return None.

(** [encodeFrames], frameEncoder.ts line 20.  An alias that is in no table
    makes [frameName] undefined, and [isTextFrame] raises a TypeError when it
    reads [frameName[0]]. *)
Fixpoint encodeFrames (frames : IFrames) : Completion (list Buffer) :=
  match frames with
  | [] => Return []
  | (frameAlias, frameValue) :: rest =>
      match FrameDefinitions.convertAliasToName frameAlias with
      | None => Throw TypeError
      | Some frameName =>
          pushed <-
            (if FrameDefinitions.isTextFrame frameName then
               match frameValue with
               | VString s => frame <- createTextFrame frameName s ;; Return [frame]
               | _ => Untyped
               end
             else
               frame <- createSpecialFrame frameName frameValue ;;
               Return (match frame with Some f => [f] | None => [] end)) ;;
          others <- encodeFrames rest ;;
          Return (pushed ++ others)
      end
  end.

End FrameEncoder.

(** ** The decoder (src/frameDecoder.ts) *)

(** A frame cut out of the tag body by [read]. *)
Record IDecodedFrame : Type := mkDecodedFrame {
  frameName : string;
  body : Buffer
}.

Module FrameDecoder.

(** [iconv.decode(b, ...).replace(/\0/g, "")]. *)
Definition decodeUtf16 (b : Buffer) : JSString := JS.strip_nul (Iconv.decode_utf16 b).

(** The condition of the [for] loops at lines 99 and 149, at index [i] where
    [data] is the rest of the buffer from [i] on:
    [data[i] !== undefined && data[i] !== 0x00 || data[i + 1] !== 0x00 || data[i + 2] === 0x00]. *)
Definition scanContinues (data : Buffer) : bool :=
  match NodeBuffer.get data 0 with
  | Some b => negb (b =? 0)
  | None => false
  end
  || match NodeBuffer.get data 1 with
     | Some 0 => false
     | _ => true
     end
  || match NodeBuffer.get data 2 with
     | Some 0 => true
     | _ => false
     end.

(** The loop itself, from index [i] with [data] the rest of the buffer.  The
    loop can only stop at an index that has a zero byte after it; from the
    last index on its condition holds for ever, which is [None]. *)
Fixpoint scanTerminator (data : Buffer) (i : Z) : option Z :=
  match data with
  | [] => None
  | _ :: rest => if scanContinues data then scanTerminator rest (i + 1) else Some i
  end.

Definition emptyObject : ISpecialTextFrame := mkSpecialText None None None.

(** [readSpecialTextFrame], frameDecoder.ts line 88. *)
Definition readSpecialTextFrame (data : Buffer) : Completion ISpecialTextFrame :=
  match NodeBuffer.get data 0 with
  | Some 0 =>
      let decoded := Iconv.decode_latin1 data in
      let zero := NodeBuffer.indexOf_from data [0] 1 in
      Return (mkSpecialText
                (Some (JS.strip_nul (JS.substring_from decoded (zero + 1))))
                (Some (JS.strip_nul (JS.substring decoded 1 4)))
                (Some (JS.strip_nul (JS.substring decoded 4 zero))))
  | Some 1 =>
      match scanTerminator data 0 with
      | None => Diverges
      | Some i =>
          match NodeBuffer.get data i with
          | None => Return emptyObject
          | Some _ =>
              Return (mkSpecialText
                        (Some (decodeUtf16 (NodeBuffer.slice_from data (i + 2))))
                        (Some (JS.strip_nul (JS.substring (NodeBuffer.toString data) 1 4)))
                        (Some (decodeUtf16 (NodeBuffer.slice data 4 i))))
          end
      end
  | _ => Return emptyObject
  end.

(** [readImageFrame], frameDecoder.ts line 122. *)
Definition readImageFrame (data : Buffer) (version : Z) : Buffer :=
  let descOffset := if version =? 2 then 5 else NodeBuffer.indexOf_from data [0] 1 + 2 in
  let descEnd :=
    match NodeBuffer.get data 0 with
    | Some 0 => NodeBuffer.indexOf_from data [0] descOffset
    | _ => descOffset + NodeBuffer.indexOf (NodeBuffer.slice_from data descOffset) [0; 0] + 2
    end in
  NodeBuffer.slice_from data (if descEnd =? 0 then descEnd + 1 else 5).

(** [readUserDefinedTextFrame], frameDecoder.ts line 137; [None] is
    [undefined].  The call of [printBuffer] only writes to the console. *)
Definition readUserDefinedTextFrame (data : Buffer) : Completion (option IUserDefinedTextFrame) :=
  match NodeBuffer.get data 0 with
  | Some 0 =>
      let decoded := Iconv.decode_latin1 data in
      let zero := NodeBuffer.indexOf_from data [0] 1 in
      Return (Some (mkUserDefinedText
                      (Some (JS.strip_nul (JS.substring decoded 1 zero)))
                      (Some (JS.strip_nul (JS.substring_from decoded (zero + 1))))))
  | Some 1 =>
      match scanTerminator data 0 with
      | None => Diverges
      | Some i =>
          match NodeBuffer.get data i with
          | None => Return (Some (mkUserDefinedText None None))
          | Some _ =>
              Return (Some (mkUserDefinedText
                              (Some (decodeUtf16 (NodeBuffer.slice data 1 i)))
                              (Some (decodeUtf16 (NodeBuffer.slice_from data (i + 2))))))
          end
      end
  | _ => Return None
  end.

(** [readSpecialFrame], frameDecoder.ts line 66; [None] is [undefined]. *)
Definition readSpecialFrame (frameName : string) (data : Buffer) (version : Z)
  : Completion (option FrameValue) :=
  if String.eqb frameName "COMM" || String.eqb frameName "USLT" then
    decoded <- readSpecialTextFrame data ;; Return (Some (VSpecialText decoded))
  else if String.eqb frameName "PIC" || String.eqb frameName "APIC" then
    Return (Some (VBuffer (readImageFrame data version)))
  else if String.eqb frameName "TXXX" then
    decoded <- readUserDefinedTextFrame data ;;
    Return (match decoded with
            | Some d => Some (VUserDefinedText d)
            | None => None
            end)
  else Return None.

(** The key under which [decodedFrames[alias] = ...] stores: an undefined
    alias is the property name ["undefined"]. *)
Definition propertyKey (alias : option string) : string :=
  match alias with
  | Some a => a
  | None => "undefined"
  end.

(** [decodeFrames], frameDecoder.ts line 24, from the frames already decoded
    into [decodedFrames]. *)
Fixpoint decodeFramesFrom (frames : list IDecodedFrame) (version : Z) (decodedFrames : IFrames)
  : Completion IFrames :=
  match frames with
  | [] => Return decodedFrames
  | frame :: rest =>
      let name := frameName frame in
      let data := body frame in
      if FrameDefinitions.starts_with_T name && negb (String.eqb name "TXXX") then
        let decoded :=
          JS.strip_nul
            (match NodeBuffer.get data 0 with
             | Some 1 => Iconv.decode_utf16 (NodeBuffer.slice_from data 1)
             | _ => Iconv.decode_latin1 (NodeBuffer.slice_from data 1)
             end) in
        let alias := FrameDefinitions.convertNameToAlias name in
        decodeFramesFrom rest version (JS.set decodedFrames (propertyKey alias) (VString decoded))
      else
        decoded <- readSpecialFrame name data version ;;
        match decoded with
        | None => decodeFramesFrom rest version decodedFrames
        | Some decoded =>
            let alias := propertyKey (FrameDefinitions.convertNameToAlias name) in
            if FrameDefinitions.canHaveMultipleEntries name then
              match decoded, JS.get decodedFrames alias with
              | VUserDefinedText d, None
              | VUserDefinedText d, Some (VString []) =>
                  decodeFramesFrom rest version (JS.set decodedFrames alias (VUserDefinedTexts [d]))
              | VUserDefinedText d, Some (VUserDefinedTexts l) =>
                  decodeFramesFrom rest version
                    (JS.set decodedFrames alias (VUserDefinedTexts (l ++ [d])))
              | _, _ => Throw TypeError
              end
            else decodeFramesFrom rest version (JS.set decodedFrames alias decoded)
        end
  end.

Definition decodeFrames (frames : list IDecodedFrame) (version : Z) : Completion IFrames :=
  decodeFramesFrom frames version [].

End FrameDecoder.

(** ** The facade (src/index.ts) *)

Module NodeID3.

(** [decodeSize], index.ts line 258: the four entries exist at every call. *)
Definition decodeSize (buffer : Buffer) : Z :=
  match buffer with
  | [b0; b1; b2; b3] => JS.shl b0 21 + JS.shl b1 14 + JS.shl b2 7 + b3
  | _ => 0
  end.

(** The size field written by [create], index.ts lines 80-85. *)
Definition encodeSize (totalSize : Z) : list Z :=
  [ JS.and (JS.sar totalSize 21) 127;
    JS.and (JS.sar totalSize 14) 127;
    JS.and (JS.sar totalSize 7) 127;
    JS.and totalSize 127 ].

(** [getFramePosition], index.ts line 247. *)
Definition getFramePosition (buffer : Buffer) : Z :=
  let framePosition := NodeBuffer.indexOf buffer (ascii_bytes "ID3") in
  if (framePosition =? -1) || (20 <? framePosition) then -1 else framePosition.

(** What the buffer variant of [remove] returns: a buffer, or [false]. *)
Inductive BufferOrFalse : Type :=
| IsBuffer (b : Buffer)
| IsFalse.

(** [remove] on a buffer, index.ts line 186. *)
Definition remove (data : Buffer) : BufferOrFalse :=
  let ID3Offset := getFramePosition data in
  if ID3Offset =? -1 then IsBuffer data
  else
    let hSize :=
      [ NodeBuffer.entry (NodeBuffer.get data (ID3Offset + 6));
        NodeBuffer.entry (NodeBuffer.get data (ID3Offset + 7));
        NodeBuffer.entry (NodeBuffer.get data (ID3Offset + 8));
        NodeBuffer.entry (NodeBuffer.get data (ID3Offset + 9)) ] in
    if negb (JS.and (JS.or (JS.or (JS.or (nth 0 hSize 0) (nth 1 hSize 0)) (nth 2 hSize 0)) (nth 3 hSize 0)) 128 =? 0)
    then IsFalse
    else IsBuffer (NodeBuffer.slice_from data (ID3Offset + decodeSize hSize + 10)).

(** [create], index.ts line 65. *)
Definition create (frames : IFrames) : Completion Buffer :=
  header <- NodeBuffer.alloc 10 0 ;;
  let header := NodeBuffer.write header "ID3" 0 in
  header <- NodeBuffer.writeUInt16BE header 768 3 ;;
  header <- NodeBuffer.writeUInt16BE header 0 5 ;;
  encoded <- FrameEncoder.encodeFrames frames ;;
  let frameBuffers := header :: encoded in
  let totalSize := FrameEncoder.total_length frameBuffers - 10 in
  let size := encodeSize totalSize in
  header <- NodeBuffer.writeUInt8 header (nth 0 size 0) 6 ;;
  header <- NodeBuffer.writeUInt8 header (nth 1 size 0) 7 ;;
  header <- NodeBuffer.writeUInt8 header (nth 2 size 0) 8 ;;
  header <- NodeBuffer.writeUInt8 header (nth 3 size 0) 9 ;;
  Return (NodeBuffer.concat (header :: encoded)).

(** [write] on a buffer, index.ts line 43: [Buffer.concat] raises a TypeError
    on the [false] that [remove] can return. *)
Definition write (fileBuffer : Buffer) (frames : IFrames) : Completion Buffer :=
  created <- create frames ;;
  match remove fileBuffer with
  | IsBuffer stripped => Return (NodeBuffer.concat [created; stripped])
  | IsFalse => Throw TypeError
  end.

Section Read.

(** Whether [Buffer.copy] checks [sourceStart] against the length of the
    source (see [NodeBuffer.copy]). *)
Variable checkedCopy : bool.

(** The [while] loop of [read], index.ts lines 135-169.  Every turn moves
    [currentPosition] forward by at least the size of a frame header, so
    [fuel] turns are enough once [fuel] reaches [frameSize]; [Diverges] is the
    answer of a loop that was given less. *)
Fixpoint readLoop (fuel : nat) (ID3FrameBody : Buffer) (frameSize ID3Version : Z)
  (currentPosition : Z) (frames : list IDecodedFrame) : Completion (list IDecodedFrame) :=
  let identifierSize := if ID3Version =? 2 then 3 else 4 in
  let textframeHeaderSize := if ID3Version =? 2 then 6 else 10 in
  if (currentPosition <? frameSize - 10)
     && negb (match NodeBuffer.get ID3FrameBody currentPosition with
              | Some 0 => true
              | _ => false
              end)
  then
    match fuel with
    | O => Diverges
    | S fuel' =>
        bodyFrameHeader <- NodeBuffer.alloc textframeHeaderSize 0 ;;
        bodyFrameHeader <- NodeBuffer.copy checkedCopy ID3FrameBody bodyFrameHeader 0
                             currentPosition ;;
        let frameSizeBuffer :=
          if 2 <? ID3Version then
            [ NodeBuffer.entry (NodeBuffer.get bodyFrameHeader 4);
              NodeBuffer.entry (NodeBuffer.get bodyFrameHeader 5);
              NodeBuffer.entry (NodeBuffer.get bodyFrameHeader 6);
              NodeBuffer.entry (NodeBuffer.get bodyFrameHeader 7) ]
          else
            [ NodeBuffer.entry (NodeBuffer.get bodyFrameHeader 3);
              NodeBuffer.entry (NodeBuffer.get bodyFrameHeader 4);
              NodeBuffer.entry (NodeBuffer.get bodyFrameHeader 5) ] in
        let bodyFrameSize :=
          if ID3Version =? 4 then decodeSize frameSizeBuffer
          else NodeBuffer.readUIntBE frameSizeBuffer in
        if frameSize - currentPosition <? bodyFrameSize then Return frames
        else
          bodyFrameBuffer <- NodeBuffer.alloc bodyFrameSize 0 ;;
          bodyFrameBuffer <- NodeBuffer.copy checkedCopy ID3FrameBody bodyFrameBuffer 0
                               (currentPosition + textframeHeaderSize) ;;
          readLoop fuel' ID3FrameBody frameSize ID3Version
            (currentPosition + (bodyFrameSize + textframeHeaderSize))
            (frames ++ [mkDecodedFrame
                          (NodeBuffer.identifier
                             (NodeBuffer.slice bodyFrameHeader 0 identifierSize))
                          bodyFrameBuffer])
    end
  else Return frames.

(** [read] on a buffer, index.ts line 109.  [ID3Frame] has at least ten bytes
    when the second [alloc] has not raised, so [ID3Frame[3]] is a byte. *)
Definition read (fileBuffer : Buffer) : Completion IFrames :=
  let framePosition := getFramePosition fileBuffer in
  if framePosition =? -1 then Return []
  else
    let sizeBuffer := NodeBuffer.slice fileBuffer framePosition (framePosition + 10) in
    let frameSize :=
      decodeSize [ NodeBuffer.entry (NodeBuffer.get sizeBuffer 6);
                   NodeBuffer.entry (NodeBuffer.get sizeBuffer 7);
                   NodeBuffer.entry (NodeBuffer.get sizeBuffer 8);
                   NodeBuffer.entry (NodeBuffer.get sizeBuffer 9) ] in
    ID3Frame <- NodeBuffer.alloc (frameSize + 1) 0 ;;
    ID3FrameBody <- NodeBuffer.alloc (frameSize - 10 + 1) 0 ;;
    ID3Frame <- NodeBuffer.copy checkedCopy fileBuffer ID3Frame 0 framePosition ;;
    ID3FrameBody <- NodeBuffer.copy checkedCopy fileBuffer ID3FrameBody 0 (framePosition + 10) ;;
    let ID3Version := nth 3 ID3Frame 0 in
    frames <- readLoop (Z.to_nat frameSize) ID3FrameBody frameSize ID3Version 0 [] ;;
    FrameDecoder.decodeFrames frames ID3Version.

(** [update] on a buffer, index.ts line 232: the arguments of [write] are
    evaluated first, so [read] runs before anything is written. *)
Definition update (frames : IFrames) (fileBuffer : Buffer) : Completion Buffer :=
  current <- read fileBuffer ;;
  write fileBuffer (JS.spread current frames).

End Read.

End NodeID3.

(** ** Vocabulary of the statements *)

(** The tag marker. *)
Definition marker : list Z := ascii_bytes "ID3".

(** The marker stands in [buf] from offset [i] on. *)
Definition markerAtb (buf : Buffer) (i : nat) : bool :=
  NodeBuffer.starts_with marker (skipn i buf).

Definition markerAt (buf : Buffer) (i : nat) : Prop := markerAtb buf i = true.

(** A marker starts at one of the offsets 0 to [n] of [buf]. *)
Definition markerWithin (buf : Buffer) (n : nat) : bool :=
  existsb (markerAtb buf) (seq 0 (S n)).

(** A version 2.3 tag that starts at offset 20, after twenty zero bytes: one
    Latin-1 text frame TOWN "AB", nine bytes of padding, and three bytes of
    audio after the tag. *)
Definition tagAtOffset20 : Buffer :=
  repeat 0 20
  ++ [73; 68; 51; 3; 0; 0; 0; 0; 0; 22]
  ++ [84; 79; 87; 78; 0; 0; 0; 3; 0; 0; 0; 65; 66]
  ++ repeat 0 9
  ++ [1; 2; 3].

(** A tag with an empty body, as [create] builds it from the empty mapping. *)
Definition emptyTag : Buffer := [73; 68; 51; 3; 0; 0; 0; 0; 0; 0].


(** The mapping [{ title: "Hello" }]. *)
Definition titleHello : IFrames := [("title", VString (JS.of_ascii "Hello"))].

(** The mapping [{ fileOwner: "Hello, world" }]. *)
Definition ownerHelloWorld : IFrames := [("fileOwner", VString (JS.of_ascii "Hello, world"))].

(** The mapping [{ userDefinedText: [{description: "a", value: "1"},
    {description: "b", value: "2"}] }]. *)
Definition twoUserDefinedTexts : IFrames :=
  [("userDefinedText",
    VUserDefinedTexts
      [ mkUserDefinedText (Some (JS.of_ascii "a")) (Some (JS.of_ascii "1"));
        mkUserDefinedText (Some (JS.of_ascii "b")) (Some (JS.of_ascii "2")) ])].

(** The TXXX frame of one entry, as [createUserDefinedTextFrame] asks for it. *)
Definition userDefinedTextFrame (entry : IUserDefinedTextFrame) : Completion Buffer :=
  FrameEncoder.createSpecialTextFrame "TXXX"
    (mkSpecialText (value entry) None (description entry)).

(** The TXXX frames of the entries "a" = "1" and "b" = "2". *)
Definition frameA1 : Buffer :=
  [84; 88; 88; 88; 0; 0; 0; 11; 0; 0; 1; 255; 254; 97; 0; 0; 0; 255; 254; 49; 0].

Definition frameB2 : Buffer :=
  [84; 88; 88; 88; 0; 0; 0; 11; 0; 0; 1; 255; 254; 98; 0; 0; 0; 255; 254; 50; 0].

(** A tag whose only frame is a TXXX frame with the payload 01 41 42, in which
    no pair of zero bytes ends the description; nine bytes of padding follow. *)
Definition unterminatedUserText : Buffer :=
  [73; 68; 51; 3; 0; 0; 0; 0; 0; 22]
  ++ [84; 88; 88; 88; 0; 0; 0; 3; 0; 0; 1; 65; 66]
  ++ repeat 0 9.

(** The comment [{ language: "\u65E5\u672C\u8A9E", shortText: "", text: "x" }],
    its language being three characters outside ASCII. *)
Definition commentInJapanese : ISpecialTextFrame :=
  mkSpecialText (Some (JS.of_ascii "x")) (Some [26085; 26412; 35486]) (Some []).

(** The frames of a mapping that are text aliases whose identifier
    [convertNameToAlias] maps back to the alias. *)
Definition aliasesReadBack : list string :=
  map fst
    (filter
       (fun kv =>
          match FrameDefinitions.convertNameToAlias (snd kv) with
          | Some a => String.eqb a (fst kv)
          | None => false
          end)
       FrameDefinitions.textFrames).

(** [remove(remove(x))]: the second call receives what the first returned;
    on [false] it raises a TypeError when it calls [indexOf]. *)
Definition removeAgain (r : NodeID3.BufferOrFalse) : Completion NodeID3.BufferOrFalse :=
  match r with
  | NodeID3.IsBuffer b => Return (NodeID3.remove b)
  | NodeID3.IsFalse => Throw TypeError
  end.

(** The image data starts with the JPEG signature FF D8 FF. *)
Definition isJpeg (apicData : Buffer) : bool :=
  NodeBuffer.starts_with [255; 216; 255] apicData.

(** The payload of the image frame of [apicData] as [createImageFrame] lays it
    out: encoding byte 0, MIME type, terminator, picture type 3, an empty
    description, the image. *)
Definition imagePayload (apicData : Buffer) : Buffer :=
  [0] ++ ascii_bytes (if isJpeg apicData then "image/jpeg" else "image/png")
  ++ [0; 3; 0] ++ apicData.

(** The bytes at [k] and [k + 1] of [data] are zero and the byte at [k + 2]
    is not a zero byte (it may be missing): the place where the scanning loop
    of the decoder stops. *)
Definition terminatorAt (data : Buffer) (k : nat) : Prop :=
  nth_error data k = Some 0 /\
  nth_error data (S k) = Some 0 /\
  nth_error data (S (S k)) <> Some 0.

(** The bytes of the code units of a string, low byte first, without a byte
    order mark. *)
Definition utf16le (s : JSString) : Buffer :=
  flat_map (fun c => [c mod 256; c / 256]) s.

(** The content descriptor that [createSpecialTextFrame] writes. *)
Definition contentDescriptor (data : ISpecialTextFrame) : Buffer :=
  if negb (JS.truthy (shortText data)) then Iconv.encode_utf16 [0]
  else Iconv.encode_utf16 (JS.or_empty (shortText data)) ++ [0; 0].

(** The payload that [createSpecialTextFrame] writes after the frame header:
    the encoding byte 1, the language unless the frame is TXXX, the content
    descriptor and the text. *)
Definition specialTextPayload (frameName : string) (data : ISpecialTextFrame) : Buffer :=
  [1]
  ++ (if String.eqb frameName "TXXX" then [] else FrameEncoder.languageBuffer data)
  ++ contentDescriptor data
  ++ Iconv.encode_utf16 (JS.or_empty (text data)).

(** An entry that the decoder can read back: a description of characters
    between U+0001 and U+00FF and a value without NUL characters. *)
Definition readableEntry (entry : IUserDefinedTextFrame) : Prop :=
  exists desc val,
    entry = mkUserDefinedText (Some desc) (Some val) /\
    Forall (fun c => 0 < c < 256) desc /\
    Forall (fun c => c <> 0) val.

(** The size that [read] takes from the header of the tag located at [off]. *)
Definition declaredSize (buf : Buffer) (off : Z) : Z :=
  NodeID3.decodeSize
    [ NodeBuffer.entry (NodeBuffer.get (NodeBuffer.slice buf off (off + 10)) 6);
      NodeBuffer.entry (NodeBuffer.get (NodeBuffer.slice buf off (off + 10)) 7);
      NodeBuffer.entry (NodeBuffer.get (NodeBuffer.slice buf off (off + 10)) 8);
      NodeBuffer.entry (NodeBuffer.get (NodeBuffer.slice buf off (off + 10)) 9) ].

(** A version 2.3 frame as it stands in a tag body: a four-byte identifier,
    the big-endian size of the payload, two flag bytes and the payload. *)
Record RawFrame : Type := mkRawFrame {
  rawName : Buffer;
  rawFlags : Buffer;
  rawPayload : Buffer
}.

Definition rawFrameBytes (f : RawFrame) : Buffer :=
  rawName f ++ NodeBuffer.be_bytes 4 (Z.of_nat (length (rawPayload f)))
  ++ rawFlags f ++ rawPayload f.

Definition wellFormedFrame (f : RawFrame) : Prop :=
  length (rawName f) = 4%nat /\ nth 0 (rawName f) 0 <> 0 /\
  length (rawFlags f) = 2%nat /\ Z.of_nat (length (rawPayload f)) < 2 ^ 32.

(** The frame that the loop of [read] cuts out for a raw frame. *)
Definition cutFrame (f : RawFrame) : IDecodedFrame :=
  mkDecodedFrame (NodeBuffer.identifier (rawName f)) (rawPayload f).

(** A version 2.3 tag: the header with revision and flags bytes, the size of
    the body, the frames and [padding] zero bytes. *)
Definition tagV23 (revision flags : Z) (frames : list RawFrame) (padding : nat) : Buffer :=
  [73; 68; 51; 3; revision; flags]
  ++ NodeID3.encodeSize (Z.of_nat (length (flat_map rawFrameBytes frames) + padding))
  ++ flat_map rawFrameBytes frames ++ repeat 0 padding.

(** * Properties *)

(** Closed statements about concrete buffers are settled by evaluation. *)
Ltac by_evaluation := repeat split; vm_compute; (reflexivity || discriminate).

(** ** Arithmetic of the size header *)

Lemma ToInt32_small (x : Z) : - 2 ^ 31 <= x < 2 ^ 31 -> JS.ToInt32 x = x.
Proof.
  intros H. unfold JS.ToInt32.
  rewrite Z.mod_small; lia.
Qed.

Lemma and_127 (x : Z) : - 2 ^ 31 <= x < 2 ^ 31 -> JS.and x 127 = x mod 128.
Proof.
  intros H. unfold JS.and.
  rewrite (ToInt32_small x H), (ToInt32_small 127) by lia.
  change 127 with (Z.ones 7). rewrite Z.land_ones by lia. reflexivity.
Qed.

Lemma sar_small (x k : Z) : - 2 ^ 31 <= x < 2 ^ 31 -> 0 <= k -> JS.sar x k = x / 2 ^ k.
Proof.
  intros H Hk. unfold JS.sar. rewrite (ToInt32_small x H).
  apply Z.shiftr_div_pow2; assumption.
Qed.

Lemma shl_byte (b k : Z) :
  is_byte b -> 0 <= k <= 21 -> JS.shl b k = b * 2 ^ k.
Proof.
  unfold is_byte. intros Hb Hk. unfold JS.shl.
  rewrite (ToInt32_small b) by lia.
  rewrite Z.shiftl_mul_pow2 by lia.
  apply ToInt32_small.
  assert (0 < 2 ^ k <= 2 ^ 21) by (split; [apply Z.pow_pos_nonneg; lia | apply Z.pow_le_mono_r; lia]).
  change (2 ^ 21) with 2097152 in *. nia.
Qed.

Lemma encodeSize_digits (n : Z) :
  0 <= n < 2 ^ 28 ->
  NodeID3.encodeSize n =
    [ (n / 2 ^ 21) mod 128; (n / 2 ^ 14) mod 128; (n / 2 ^ 7) mod 128; n mod 128 ].
Proof.
  intros Hn. unfold NodeID3.encodeSize.
  assert (Hr : - 2 ^ 31 <= n < 2 ^ 31) by lia.
  rewrite !sar_small by lia.
  rewrite !and_127; try reflexivity; try lia.
  all: split; [ transitivity 0; [lia | apply Z.div_pos; lia]
              | apply Z.div_lt_upper_bound; lia ].
Qed.

(** C2: for every n in [0, 2^28), decoding the synchsafe size field written by
    create gives n back, and each of the four bytes of the field has its high
    bit (0x80) clear. *)
Theorem decodeSize_encodeSize (n : Z) :
  0 <= n < 2 ^ 28 ->
  NodeID3.decodeSize (NodeID3.encodeSize n) = n /\
  length (NodeID3.encodeSize n) = 4%nat /\
  Forall (fun b => is_byte b /\ Z.land b 128 = 0) (NodeID3.encodeSize n).
Proof.
  intros Hn. rewrite (encodeSize_digits n Hn).
  pose proof (Z.mod_pos_bound (n / 2 ^ 21) 128 ltac:(lia)) as H0.
  pose proof (Z.mod_pos_bound (n / 2 ^ 14) 128 ltac:(lia)) as H1.
  pose proof (Z.mod_pos_bound (n / 2 ^ 7) 128 ltac:(lia)) as H2.
  pose proof (Z.mod_pos_bound n 128 ltac:(lia)) as H3.
  split; [| split; [reflexivity |]].
  - unfold NodeID3.decodeSize. rewrite !shl_byte by (unfold is_byte; lia).
    change (2 ^ 21) with 2097152. change (2 ^ 14) with 16384. change (2 ^ 7) with 128.
    assert (n / 2097152 < 128) by (apply Z.div_lt_upper_bound; lia).
    assert (0 <= n / 2097152) by (apply Z.div_pos; lia).
    rewrite (Z.mod_small (n / 2097152) 128) by lia.
    pose proof (Z.div_mod n 128 ltac:(lia)).
    pose proof (Z.div_mod (n / 128) 128 ltac:(lia)).
    pose proof (Z.div_mod (n / 128 / 128) 128 ltac:(lia)).
    replace (n / 16384) with (n / 128 / 128) by (rewrite Z.div_div by lia; reflexivity).
    replace (n / 2097152) with (n / 128 / 128 / 128) in * by (rewrite !Z.div_div by lia; reflexivity).
    lia.
  - assert (Hbit : forall b, 0 <= b < 128 -> is_byte b /\ Z.land b 128 = 0).
    { intros b Hb. split; [unfold is_byte; lia |].
      apply Z.bits_inj_0. intros k. rewrite Z.land_spec.
      destruct (Z.eq_dec k 7) as [-> | Hk].
      - rewrite (Z.bits_above_log2 b 7); [reflexivity | lia |].
        destruct (Z.eq_dec b 0) as [-> | Hnz]; [simpl; lia |].
        apply Z.log2_lt_pow2; lia.
      - change 128 with (2 ^ 7). rewrite Z.pow2_bits_eqb by lia.
        destruct (Z.eqb_spec 7 k); [lia |]. apply andb_false_r. }
    repeat constructor; apply Hbit; assumption.
Qed.

Lemma decodeSize_encodeSize_witness :
  NodeID3.decodeSize (NodeID3.encodeSize 257) = 257 /\
  length (NodeID3.encodeSize 257) = 4%nat /\
  Forall (fun b => is_byte b /\ Z.land b 128 = 0) (NodeID3.encodeSize 257).
Proof. apply (decodeSize_encodeSize 257). lia. Defined.

(** ** Searching a buffer *)

Lemma indexOf_at_found (needle buf : list Z) (pos r : Z) :
  NodeBuffer.indexOf_at needle buf pos = r -> r <> -1 -> 0 <= pos ->
  pos <= r < pos + Z.of_nat (length buf) /\
  NodeBuffer.starts_with needle (skipn (Z.to_nat (r - pos)) buf) = true.
Proof.
  revert pos. induction buf as [| b rest IH]; intros pos Hr Hne Hpos.
  - simpl in Hr. congruence.
  - cbn [NodeBuffer.indexOf_at] in Hr.
    destruct (NodeBuffer.starts_with needle (b :: rest)) eqn:Hs.
    + subst r. replace (pos - pos) with 0 by lia.
      split; [cbn [length]; lia | exact Hs].
    + destruct (IH (pos + 1) Hr Hne ltac:(lia)) as [Hb Hm].
      split; [cbn [length]; lia |].
      replace (Z.to_nat (r - pos)) with (S (Z.to_nat (r - (pos + 1)))) by lia.
      exact Hm.
Qed.

Lemma getFramePosition_found (buf : Buffer) (off : Z) :
  NodeID3.getFramePosition buf = off -> off <> -1 ->
  0 <= off <= 20 /\ off < Z.of_nat (length buf) /\ markerAt buf (Z.to_nat off).
Proof.
  unfold NodeID3.getFramePosition, NodeBuffer.indexOf. intros H Hne.
  remember (NodeBuffer.indexOf_at (ascii_bytes "ID3") buf 0) as r eqn:Hi.
  destruct ((r =? -1) || (20 <? r)) eqn:Hc; [congruence |].
  apply orb_false_elim in Hc. destruct Hc as [Hc1 Hc2].
  apply Z.eqb_neq in Hc1. apply Z.ltb_ge in Hc2. subst off.
  destruct (indexOf_at_found _ _ _ _ (eq_sym Hi) Hc1 ltac:(lia)) as [Hb Hm].
  rewrite Z.sub_0_r in Hm. repeat split; try lia. exact Hm.
Qed.

Lemma read_no_tag (checked : bool) (buf : Buffer) :
  NodeID3.getFramePosition buf = -1 -> NodeID3.read checked buf = Return [].
Proof. intros H. unfold NodeID3.read. rewrite H. reflexivity. Qed.

Lemma remove_no_tag (buf : Buffer) :
  NodeID3.getFramePosition buf = -1 -> NodeID3.remove buf = NodeID3.IsBuffer buf.
Proof. intros H. unfold NodeID3.remove. rewrite H. reflexivity. Qed.

(** ** The validity test of the size bytes *)

Lemma entry_byte (o : option Z) : is_byte (NodeBuffer.entry o).
Proof.
  unfold is_byte, NodeBuffer.entry. destruct o as [v |]; [| lia].
  change 255 with (Z.ones 8). rewrite Z.land_ones by lia.
  apply Z.mod_pos_bound. lia.
Qed.

Lemma entry_bit7 (v : Z) : Z.testbit (NodeBuffer.entry (Some v)) 7 = Z.testbit v 7.
Proof.
  unfold NodeBuffer.entry. rewrite Z.land_spec.
  change (Z.testbit 255 7) with true. apply andb_true_r.
Qed.

Lemma log2_byte (a : Z) : is_byte a -> Z.log2 a < 8.
Proof.
  unfold is_byte. intros H. destruct (Z.eq_dec a 0) as [-> | Hnz]; [simpl; lia |].
  apply Z.log2_lt_pow2; [lia |]. change (2 ^ 8) with 256. lia.
Qed.

Lemma lor_byte (a b : Z) : is_byte a -> is_byte b -> is_byte (Z.lor a b).
Proof.
  intros Ha Hb. pose proof (log2_byte a Ha). pose proof (log2_byte b Hb).
  unfold is_byte in *. split; [apply Z.lor_nonneg; lia |].
  destruct (Z.eq_dec (Z.lor a b) 0) as [-> | Hnz]; [lia |].
  assert (0 <= Z.lor a b) by (apply Z.lor_nonneg; lia).
  change 256 with (2 ^ 8). apply Z.log2_lt_pow2; [lia |]. rewrite Z.log2_lor by lia. lia.
Qed.

Lemma or_byte (a b : Z) : is_byte a -> is_byte b -> JS.or a b = Z.lor a b.
Proof.
  unfold is_byte, JS.or. intros Ha Hb. rewrite !ToInt32_small by lia. reflexivity.
Qed.

Lemma land_128 (x : Z) : (Z.land x 128 =? 0) = negb (Z.testbit x 7).
Proof.
  assert (H : Z.land x 128 = if Z.testbit x 7 then 128 else 0).
  { apply Z.bits_inj'. intros n Hn. rewrite Z.land_spec.
    change 128 with (2 ^ 7) at 1. rewrite Z.pow2_bits_eqb by lia.
    destruct (Z.eqb_spec 7 n) as [<- | Hne].
    - rewrite andb_true_r. destruct (Z.testbit x 7); reflexivity.
    - rewrite andb_false_r. destruct (Z.testbit x 7); [| symmetry; apply Z.bits_0].
      change 128 with (2 ^ 7). rewrite Z.pow2_bits_eqb by lia.
      symmetry. apply Z.eqb_neq. exact Hne. }
  rewrite H. destruct (Z.testbit x 7); reflexivity.
Qed.

Lemma size_test (e0 e1 e2 e3 : Z) :
  is_byte e0 -> is_byte e1 -> is_byte e2 -> is_byte e3 ->
  negb (JS.and (JS.or (JS.or (JS.or e0 e1) e2) e3) 128 =? 0)
  = Z.testbit e0 7 || Z.testbit e1 7 || Z.testbit e2 7 || Z.testbit e3 7.
Proof.
  intros H0 H1 H2 H3.
  pose proof (lor_byte _ _ H0 H1) as H01.
  pose proof (lor_byte _ _ H01 H2) as H012.
  pose proof (lor_byte _ _ H012 H3) as H0123.
  rewrite (or_byte e0 e1), (or_byte _ e2), (or_byte _ e3) by assumption.
  unfold JS.and. unfold is_byte in H0123. rewrite !ToInt32_small by lia.
  rewrite land_128, negb_involutive, !Z.lor_spec. reflexivity.
Qed.

Lemma decodeSize_nonneg (e0 e1 e2 e3 : Z) :
  is_byte e0 -> is_byte e1 -> is_byte e2 -> is_byte e3 ->
  0 <= NodeID3.decodeSize [e0; e1; e2; e3].
Proof.
  intros H0 H1 H2 H3. unfold NodeID3.decodeSize.
  rewrite !shl_byte by (assumption || lia).
  unfold is_byte in *. lia.
Qed.

(** ** Removal *)

(** C5: when a tag is located and one of the four bytes of its size field
    (offsets 6 to 9 from the marker) has bit 7 set, remove on a buffer returns
    the failure value [false], neither a buffer nor an exception; when no tag
    is located, remove returns its input unchanged. *)
Theorem remove_invalid_size_or_no_tag (data : Buffer) :
  (forall off i b,
      NodeID3.getFramePosition data = off -> off <> -1 ->
      6 <= i <= 9 -> NodeBuffer.get data (off + i) = Some b -> Z.testbit b 7 = true ->
      NodeID3.remove data = NodeID3.IsFalse) /\
  (NodeID3.getFramePosition data = -1 -> NodeID3.remove data = NodeID3.IsBuffer data).
Proof.
  split; [| apply remove_no_tag].
  intros off i b Hoff Hne Hi Hget Hbit. unfold NodeID3.remove. rewrite Hoff.
  destruct (Z.eqb_spec off (-1)) as [| _]; [contradiction |].
  cbn [nth]. rewrite size_test by apply entry_byte.
  assert (Hcases : i = 6 \/ i = 7 \/ i = 8 \/ i = 9) by lia.
  destruct Hcases as [-> | [-> | [-> | ->]]];
    rewrite Hget, entry_bit7, Hbit, ?orb_true_r; reflexivity.
Qed.

Lemma remove_invalid_size_or_no_tag_witness :
  NodeID3.remove [73; 68; 51; 3; 0; 0; 0; 0; 128; 0; 7; 7] = NodeID3.IsFalse /\
  NodeID3.remove [7; 7; 7] = NodeID3.IsBuffer [7; 7; 7].
Proof.
  split.
  - apply (proj1 (remove_invalid_size_or_no_tag [73; 68; 51; 3; 0; 0; 0; 0; 128; 0; 7; 7])
             0 8 128); [reflexivity | lia | lia | reflexivity | reflexivity].
  - apply (proj2 (remove_invalid_size_or_no_tag [7; 7; 7])). reflexivity.
Defined.

Lemma no_marker_no_tag (buf : Buffer) :
  markerWithin buf 20 = false -> NodeID3.getFramePosition buf = -1.
Proof.
  intros Hfree. destruct (Z.eq_dec (NodeID3.getFramePosition buf) (-1)) as [| Hne]; [assumption |].
  destruct (getFramePosition_found buf _ eq_refl Hne) as (Hoff & _ & Hm).
  assert (Hex : markerWithin buf 20 = true).
  { unfold markerWithin. apply existsb_exists.
    exists (Z.to_nat (NodeID3.getFramePosition buf)). split; [| exact Hm].
    apply in_seq. lia. }
  congruence.
Qed.

(** C6, amended: a buffer with no marker starting at any of the offsets 0 to
    20 reads as the empty mapping and is returned unchanged by remove; and a
    tag is only ever located at a marker that starts at one of the offsets 0 to
    20 (a marker at offset 18, 19 or 20 is located although it does not lie
    within the first 20 bytes). *)
Theorem tag_located_up_to_offset_20 (buf : Buffer) :
  (markerWithin buf 20 = false ->
   forall checked,
     NodeID3.read checked buf = Return [] /\ NodeID3.remove buf = NodeID3.IsBuffer buf) /\
  (forall off,
     NodeID3.getFramePosition buf = off -> off <> -1 ->
     0 <= off <= 20 /\ markerAt buf (Z.to_nat off)).
Proof.
  split.
  - intros Hfree checked. pose proof (no_marker_no_tag buf Hfree) as Hpos.
    split; [apply read_no_tag | apply remove_no_tag]; assumption.
  - intros off Hoff Hne. destruct (getFramePosition_found buf off Hoff Hne) as (Hb & _ & Hm).
    split; assumption.
Qed.

Lemma tag_located_up_to_offset_20_witness :
  (NodeID3.read true [7; 73; 68; 9] = Return [] /\
   NodeID3.remove [7; 73; 68; 9] = NodeID3.IsBuffer [7; 73; 68; 9]) /\
  (0 <= 20 <= 20 /\ markerAt tagAtOffset20 (Z.to_nat 20)).
Proof.
  split.
  - apply (proj1 (tag_located_up_to_offset_20 [7; 73; 68; 9])). reflexivity.
  - apply (proj2 (tag_located_up_to_offset_20 tagAtOffset20) 20); [reflexivity | lia].
Defined.

(** C6 as stated fails: the first 20 bytes of [tagAtOffset20] hold no marker,
    yet the tag that starts at offset 20 is located: read returns its frame
    and remove cuts the buffer down to the audio bytes. *)
Lemma marker_at_offset_20_is_located :
  NodeBuffer.indexOf (firstn 20 tagAtOffset20) marker = -1 /\
  NodeID3.getFramePosition tagAtOffset20 = 20 /\
  (forall checked,
     NodeID3.read checked tagAtOffset20 = Return [("fileOwner", VString [65; 66])]) /\
  NodeID3.remove tagAtOffset20 = NodeID3.IsBuffer [1; 2; 3] /\
  NodeID3.remove tagAtOffset20 <> NodeID3.IsBuffer tagAtOffset20.
Proof.
  repeat split; try reflexivity.
  - intros [|]; vm_compute; reflexivity.
  - vm_compute. discriminate.
Qed.

Lemma slice_from_shorter (buf : Buffer) (k : Z) :
  0 < k -> buf <> [] -> (length (NodeBuffer.slice_from buf k) < length buf)%nat.
Proof.
  intros Hk Hne. unfold NodeBuffer.slice_from, NodeBuffer.slice, JS.clamp.
  assert (0 < length buf)%nat by (destruct buf; [congruence | simpl; lia]).
  rewrite length_firstn, length_skipn. lia.
Qed.

Lemma remove_fixed_point (y : Buffer) :
  NodeID3.remove y = NodeID3.IsBuffer y -> NodeID3.getFramePosition y = -1.
Proof.
  intros H. destruct (Z.eq_dec (NodeID3.getFramePosition y) (-1)) as [| Hne]; [assumption |].
  exfalso. destruct (getFramePosition_found y _ eq_refl Hne) as (Hoff & Hlen & _).
  unfold NodeID3.remove in H.
  destruct (Z.eqb_spec (NodeID3.getFramePosition y) (-1)) as [| _]; [contradiction |].
  match type of H with (if ?c then _ else _) = _ => destruct c end; [discriminate |].
  match type of H with NodeID3.IsBuffer ?s = _ => assert (Hs : s = y) by congruence end.
  clear H. rename Hs into H.
  match type of H with NodeBuffer.slice_from _ (_ + NodeID3.decodeSize [?a; ?b; ?c; ?d] + _) = _ =>
    pose proof (decodeSize_nonneg a b c d (entry_byte _) (entry_byte _) (entry_byte _) (entry_byte _))
      as Hsize
  end.
  assert (Hy : y <> []) by (destruct y; [simpl in Hlen; lia | discriminate]).
  match type of H with NodeBuffer.slice_from _ ?k = _ =>
    pose proof (slice_from_shorter y k ltac:(lia) Hy) as Hshort
  end.
  rewrite H in Hshort. lia.
Qed.

(** C7, amended: a second remove gives what the first gave exactly when the
    first returned a buffer in which no tag is located. *)
Theorem remove_twice_iff (x : Buffer) :
  removeAgain (NodeID3.remove x) = Return (NodeID3.remove x) <->
  exists y, NodeID3.remove x = NodeID3.IsBuffer y /\ NodeID3.getFramePosition y = -1.
Proof.
  split.
  - destruct (NodeID3.remove x) as [y |] eqn:Hx; simpl; intros H; [| discriminate].
    exists y. split; [reflexivity |]. apply remove_fixed_point. congruence.
  - intros (y & Hx & Hy). rewrite Hx. simpl. rewrite (remove_no_tag y Hy). reflexivity.
Qed.

Lemma remove_twice_iff_witness :
  removeAgain (NodeID3.remove (emptyTag ++ [1; 2; 3])) = Return (NodeID3.remove (emptyTag ++ [1; 2; 3])).
Proof.
  apply (proj2 (remove_twice_iff (emptyTag ++ [1; 2; 3]))).
  exists [1; 2; 3]. split; reflexivity.
Defined.

(** C7 as stated fails on two tags in a row: the first remove leaves the
    second tag, the second remove takes that one away as well. *)
Lemma remove_not_idempotent :
  NodeID3.remove (emptyTag ++ emptyTag) = NodeID3.IsBuffer emptyTag /\
  removeAgain (NodeID3.remove (emptyTag ++ emptyTag)) = Return (NodeID3.IsBuffer []) /\
  removeAgain (NodeID3.remove (emptyTag ++ emptyTag)) <> Return (NodeID3.remove (emptyTag ++ emptyTag)).
Proof.
  repeat split; try reflexivity. vm_compute. discriminate.
Qed.

(** ** Writing *)

Lemma concat_pair (a b : Buffer) : NodeBuffer.concat [a; b] = a ++ b.
Proof. unfold NodeBuffer.concat. simpl. rewrite app_nil_r. reflexivity. Qed.




(** ** Reading back what was written *)

(** C1: the tag created from [{ title: "Hello" }] does not read back as that
    mapping.  The body handed to the frame loop is nine bytes short of the
    declared size, which costs the last text its final four characters, and
    the identifier TIT2 has no alias in the merged table of
    [convertNameToAlias], so the text is stored under the key "undefined". *)
Theorem read_create_title_Hello (checked : bool) :
  (tag <- NodeID3.create titleHello ;; NodeID3.read checked tag)
  = Return [("undefined", VString (JS.of_ascii "H"))] /\
  (tag <- NodeID3.create titleHello ;; NodeID3.read checked tag) <> Return titleHello.
Proof. destruct checked; by_evaluation. Qed.

(** The loss of the last characters alone, on an alias that does read back. *)
Lemma read_create_fileOwner (checked : bool) :
  (tag <- NodeID3.create ownerHelloWorld ;; NodeID3.read checked tag)
  = Return [("fileOwner", VString (JS.of_ascii "Hello, w"))].
Proof. destruct checked; by_evaluation. Qed.

(** Of the 38 text aliases only three have an identifier that
    [convertNameToAlias] maps back to them: the version 2.2 table overrides
    the version 2.3 identifier of every alias the two tables share. *)
Lemma aliases_that_read_back :
  aliasesReadBack = ["fileOwner"; "internetRadioName"; "internetRadioOwner"] /\
  FrameDefinitions.convertAliasToName "title" = Some "TIT2" /\
  FrameDefinitions.convertNameToAlias "TIT2" = None /\
  FrameDefinitions.convertNameToAlias "TT2" = Some "title".
Proof. by_evaluation. Qed.

(** C3: read raises a RangeError on a located tag whose body is empty, the
    tag that create builds from the empty mapping: [Buffer.alloc] is asked for
    [0 - 10 + 1] bytes. *)
Theorem read_empty_tag_raises (checked : bool) :
  NodeID3.create [] = Return emptyTag /\
  NodeID3.getFramePosition emptyTag = 0 /\
  NodeID3.read checked emptyTag = Throw RangeError.
Proof. destruct checked; by_evaluation. Qed.

(** Every located tag that declares fewer than nine bytes raises the same
    error. *)
Lemma read_raises_on_short_tag (checked : bool) (buf : Buffer) (off : Z) :
  NodeID3.getFramePosition buf = off -> off <> -1 ->
  NodeID3.decodeSize
    [ NodeBuffer.entry (NodeBuffer.get (NodeBuffer.slice buf off (off + 10)) 6);
      NodeBuffer.entry (NodeBuffer.get (NodeBuffer.slice buf off (off + 10)) 7);
      NodeBuffer.entry (NodeBuffer.get (NodeBuffer.slice buf off (off + 10)) 8);
      NodeBuffer.entry (NodeBuffer.get (NodeBuffer.slice buf off (off + 10)) 9) ] < 9 ->
  NodeID3.read checked buf = Throw RangeError.
Proof.
  intros Hoff Hne Hsize. unfold NodeID3.read. rewrite Hoff.
  destruct (Z.eqb_spec off (-1)) as [| _]; [contradiction |].
  cbv zeta.
  match goal with |- context [NodeID3.decodeSize [?a; ?b; ?c; ?d]] =>
    pose proof (decodeSize_nonneg a b c d (entry_byte _) (entry_byte _) (entry_byte _) (entry_byte _))
      as Hnn;
    set (frameSize := NodeID3.decodeSize [a; b; c; d]) in *
  end.
  unfold NodeBuffer.alloc.
  destruct (Z.ltb_spec (frameSize + 1) 0) as [| _]; [lia |].
  destruct (Z.ltb_spec (frameSize - 10 + 1) 0) as [_ |]; [| lia].
  reflexivity.
Qed.

(** A second way in which read fails to return: the description of a
    user-defined text frame that no pair of zero bytes ends makes the scanning
    loop of the decoder run for ever. *)
Lemma read_loops_on_unterminated_description (checked : bool) :
  NodeID3.read checked unterminatedUserText = Diverges.
Proof. destruct checked; by_evaluation. Qed.

(** ** The frame loop of read returns *)





(** ** Frames built by the encoder *)

Lemma overwrite_length (buf : Buffer) (offset : nat) (bytes : list Z) :
  length (NodeBuffer.overwrite buf offset bytes) = length buf.
Proof.
  revert offset bytes. induction buf as [| b rest IH]; intros offset bytes; [reflexivity |].
  destruct offset as [| n]; cbn [NodeBuffer.overwrite].
  - destruct bytes as [| x xs]; [reflexivity |]. cbn [length]. rewrite IH. reflexivity.
  - cbn [length]. rewrite IH. reflexivity.
Qed.

Lemma readUIntBE_be_bytes_4 (v : Z) :
  0 <= v < 2 ^ 32 -> NodeBuffer.readUIntBE (NodeBuffer.be_bytes 4 v) = v.
Proof.
  intros Hv. unfold NodeBuffer.readUIntBE. cbn [NodeBuffer.be_bytes fold_left].
  change (256 ^ Z.of_nat 3) with 16777216. change (256 ^ Z.of_nat 2) with 65536.
  change (256 ^ Z.of_nat 1) with 256. change (256 ^ Z.of_nat 0) with 1.
  rewrite Z.div_1_r.
  assert (H3 : 0 <= v / 16777216 < 256)
    by (split; [apply Z.div_pos; lia | apply Z.div_lt_upper_bound; lia]).
  rewrite (Z.mod_small (v / 16777216) 256) by lia.
  replace (v / 65536) with (v / 256 / 256) by (rewrite Z.div_div by lia; reflexivity).
  replace (v / 16777216) with (v / 256 / 256 / 256) in * by (rewrite !Z.div_div by lia; reflexivity).
  pose proof (Z.div_mod v 256 ltac:(lia)).
  pose proof (Z.div_mod (v / 256) 256 ltac:(lia)).
  pose proof (Z.div_mod (v / 256 / 256) 256 ltac:(lia)).
  lia.
Qed.

Lemma length_10 (buf : Buffer) :
  length buf = 10%nat ->
  exists x0 x1 x2 x3 x4 x5 x6 x7 x8 x9, buf = [x0; x1; x2; x3; x4; x5; x6; x7; x8; x9].
Proof.
  intros H.
  do 10 (destruct buf as [| ? buf]; [discriminate |]).
  destruct buf; [| discriminate].
  repeat eexists.
Qed.

(** Once the header is written, a frame is the header, then the payload, and
    the size field of the header can be read back. *)
Lemma frame_header_size (name : string) (size : Z) (payload : Buffer) :
  0 <= size < 2 ^ 32 ->
  exists header,
    NodeBuffer.writeUInt32BE (NodeBuffer.write (repeat 0 10) name 0) size 4 = Return header /\
    length header = 10%nat /\
    NodeBuffer.readUInt32BE (header ++ payload) 4 = size.
Proof.
  intros Hsize.
  set (named := NodeBuffer.write (repeat 0 10) name 0).
  assert (Hlen : length named = 10%nat) by (unfold named, NodeBuffer.write; apply overwrite_length).
  destruct (length_10 named Hlen) as (x0 & x1 & x2 & x3 & x4 & x5 & x6 & x7 & x8 & x9 & Hn).
  rewrite Hn. unfold NodeBuffer.writeUInt32BE, NodeBuffer.writeUIntBE.
  destruct (Z.ltb_spec size 0) as [| _]; [lia |].
  change (256 ^ Z.of_nat 4) with (2 ^ 32).
  destruct (Z.leb_spec (2 ^ 32) size) as [| _]; [lia |].
  cbn [orb length Z.of_nat]. 
  eexists. split; [reflexivity |]. split; [apply overwrite_length |].
  unfold NodeBuffer.readUInt32BE, NodeBuffer.slice, JS.clamp.
  rewrite length_app, overwrite_length. cbn [length].
  replace (Z.max 0 (Z.min (Z.of_nat (10 + length payload)) 4)) with 4 by lia.
  replace (Z.max 0 (Z.min (Z.of_nat (10 + length payload)) (4 + 4))) with 8 by lia.
  change (Z.to_nat (8 - 4)) with 4%nat. change (Z.to_nat 4) with 4%nat.
  remember (NodeBuffer.be_bytes 4 size) as bytes eqn:Hb.
  assert (Hbl : length bytes = 4%nat) by (subst bytes; reflexivity).
  destruct bytes as [| a [| b [| c [| d [| ? ?]]]]]; try discriminate.
  cbn [NodeBuffer.overwrite app skipn firstn].
  rewrite <- (readUIntBE_be_bytes_4 size Hsize), <- Hb. reflexivity.
Qed.

Lemma concat_three (a b c : Buffer) : NodeBuffer.concat [a; b; c] = a ++ b ++ c.
Proof. unfold NodeBuffer.concat. cbn [List.concat]. rewrite app_nil_r. reflexivity. Qed.

(** C10: a text frame built by createTextFrame is its ten-byte header, the
    encoding byte 0x01 and the UTF-16 bytes of the text; its length is 10 plus
    the big-endian number in its size field at offset 4, and that number is
    the length of the encoded text plus 1.  The frame is built whenever that
    number fits the 32 bits of the field. *)
Theorem createTextFrame_size_consistent (frameName : string) (frameValue : JSString) :
  (Z.of_nat (length (Iconv.encode_utf16 frameValue)) + 1 < 2 ^ 32 ->
   exists frame, FrameEncoder.createTextFrame frameName frameValue = Return frame) /\
  (forall frame,
     FrameEncoder.createTextFrame frameName frameValue = Return frame ->
     Z.of_nat (length frame) = 10 + NodeBuffer.readUInt32BE frame 4 /\
     NodeBuffer.readUInt32BE frame 4 = Z.of_nat (length (Iconv.encode_utf16 frameValue)) + 1 /\
     NodeBuffer.get frame 10 = Some 1 /\
     NodeBuffer.slice_from frame 11 = Iconv.encode_utf16 frameValue).
Proof.
  unfold FrameEncoder.createTextFrame.
  change (NodeBuffer.alloc 10 0) with (Return (repeat 0 10)).
  change (NodeBuffer.alloc 1 1) with (Return [1]).
  cbn [bind].
  set (encoded := Iconv.encode_utf16 frameValue).
  set (size := Z.of_nat (length encoded) + 1).
  destruct (Z.ltb_spec size (2 ^ 32)) as [Hfit | Hbig].
  - destruct (frame_header_size frameName size ([1] ++ encoded) ltac:(lia))
      as (header & Hw & Hlen & Hread).
    rewrite Hw. cbn [bind].
    rewrite concat_three. split; [intros _; eexists; reflexivity |].
    intros frame Hf.
    assert (Hframe : frame = header ++ [1] ++ encoded) by congruence.
    rewrite Hframe, Hread. clear Hf Hframe Hread Hw.
    destruct (length_10 header Hlen) as (x0 & x1 & x2 & x3 & x4 & x5 & x6 & x7 & x8 & x9 & ->).
    repeat split.
    + rewrite !length_app. cbn [length]. unfold size. lia.
    + unfold NodeBuffer.slice_from, NodeBuffer.slice, JS.clamp.
      rewrite !length_app. cbn [length].
      replace (Z.max 0 (Z.min (Z.of_nat (10 + (1 + length encoded))) 11)) with 11 by lia.
      replace (Z.max 0 (Z.min (Z.of_nat (10 + (1 + length encoded)))
                          (Z.of_nat (10 + (1 + length encoded)))))
        with (Z.of_nat (10 + (1 + length encoded))) by lia.
      change (Z.to_nat 11) with 11%nat. cbn [app skipn].
      apply firstn_all2. lia.
  - split; [intros; lia |].
    intros frame Hf. exfalso.
    unfold NodeBuffer.writeUInt32BE, NodeBuffer.writeUIntBE in Hf.
    change (256 ^ Z.of_nat 4) with (2 ^ 32) in Hf.
    destruct (Z.leb_spec (2 ^ 32) size) as [_ |]; [| lia].
    rewrite orb_true_r in Hf. discriminate.
Qed.

Lemma createTextFrame_size_consistent_witness :
  (exists frame, FrameEncoder.createTextFrame "TIT2" (JS.of_ascii "Hello") = Return frame) /\
  (let frame := [84; 73; 84; 50; 0; 0; 0; 13; 0; 0; 1; 255; 254; 72; 0; 101; 0; 108; 0; 108; 0; 111; 0] in
   Z.of_nat (length frame) = 10 + NodeBuffer.readUInt32BE frame 4 /\
   NodeBuffer.readUInt32BE frame 4
   = Z.of_nat (length (Iconv.encode_utf16 (JS.of_ascii "Hello"))) + 1 /\
   NodeBuffer.get frame 10 = Some 1 /\
   NodeBuffer.slice_from frame 11 = Iconv.encode_utf16 (JS.of_ascii "Hello")).
Proof.
  split.
  - apply (proj1 (createTextFrame_size_consistent "TIT2" (JS.of_ascii "Hello"))).
    vm_compute. reflexivity.
  - apply (proj2 (createTextFrame_size_consistent "TIT2" (JS.of_ascii "Hello"))).
    vm_compute. reflexivity.
Defined.

(** ** The language field of comment and lyrics frames *)

Lemma substring_0_3 (s : JSString) : JS.substring s 0 3 = firstn 3 s.
Proof.
  unfold JS.substring, JS.clamp.
  destruct (Z.le_gt_cases 3 (Z.of_nat (length s))) as [Hlong | Hshort].
  - replace (Z.to_nat _) with 3%nat by lia.
    replace (Z.to_nat _) with 0%nat by lia. reflexivity.
  - replace (Z.to_nat (Z.min _ _)) with 0%nat by lia.
    cbn [skipn]. rewrite !firstn_all2 by lia. reflexivity.
Qed.

Lemma from_string_ascii (s : JSString) :
  Forall (fun c => 0 <= c < 128) s -> NodeBuffer.from_string s = s.
Proof.
  induction 1 as [| c rest Hc _ IH]; [reflexivity |].
  cbn [NodeBuffer.from_string].
  unfold NodeBuffer.is_high_surrogate, NodeBuffer.is_low_surrogate, NodeBuffer.utf8_of_code_point.
  destruct (Z.leb_spec 55296 c); [lia |]. destruct (Z.leb_spec 56320 c); [lia |].
  destruct (Z.ltb_spec c 128); [| lia]. cbn [andb app]. rewrite IH. reflexivity.
Qed.

Lemma Forall_firstn_of {A : Type} (P : A -> Prop) (n : nat) (l : list A) :
  Forall P l -> Forall P (firstn n l).
Proof.
  intros H. revert n. induction H as [| x l Hx _ IH]; intros [| n]; cbn [firstn]; auto.
Qed.

(** What does hold of the language field: an absent language is written as
    "eng", a given one is cut to its first three characters, and three ASCII
    characters are three bytes. *)
Lemma languageBuffer_spec (data : ISpecialTextFrame) :
  (language data = None -> FrameEncoder.languageBuffer data = ascii_bytes "eng") /\
  (forall l, language data = Some l ->
             FrameEncoder.languageBuffer data = NodeBuffer.from_string (firstn 3 l)) /\
  (forall l, language data = Some l -> Forall (fun c => 0 <= c < 128) l ->
             FrameEncoder.languageBuffer data = firstn 3 l) /\
  (forall l, language data = Some l -> Forall (fun c => 0 <= c < 128) l ->
             (length (FrameEncoder.languageBuffer data) <= 3)%nat).
Proof.
  unfold FrameEncoder.languageBuffer. split; [| split; [| split]].
  - intros ->. reflexivity.
  - intros l ->. rewrite substring_0_3. reflexivity.
  - intros l -> Hascii. rewrite substring_0_3.
    apply from_string_ascii, Forall_firstn_of. assumption.
  - intros l -> Hascii.
    rewrite substring_0_3, from_string_ascii by (apply Forall_firstn_of; assumption).
    rewrite length_firstn. lia.
Qed.

(** C9: a language of three characters outside ASCII is written as the nine
    bytes of its UTF-8 encoding, so that the language field of the comment
    frame is longer than three bytes. *)
Theorem language_field_longer_than_3_bytes :
  FrameEncoder.languageBuffer commentInJapanese
  = [230; 151; 165; 230; 156; 172; 232; 170; 158] /\
  FrameEncoder.createSpecialTextFrame "COMM" commentInJapanese
  = Return ([67; 79; 77; 77; 0; 0; 0; 18; 0; 0]
            ++ [1]
            ++ [230; 151; 165; 230; 156; 172; 232; 170; 158]
            ++ [255; 254; 0; 0]
            ++ [255; 254; 120; 0]) /\
  (3 < length (FrameEncoder.languageBuffer commentInJapanese))%nat.
Proof. repeat split; vm_compute; try reflexivity. lia. Qed.

(** ** User-defined text frames *)

Lemma userDefinedTextLoop_from (entries : list IUserDefinedTextFrame) (frames : list Buffer) :
  Forall2 (fun entry frame => userDefinedTextFrame entry = Return frame) entries frames ->
  forall acc,
    FrameEncoder.userDefinedTextLoop entries (Some acc)
    = Return (Some (acc ++ List.concat frames)).
Proof.
  induction 1 as [| entry frame entries frames Hf _ IH]; intros acc.
  - cbn. rewrite app_nil_r. reflexivity.
  - cbn [FrameEncoder.userDefinedTextLoop]. unfold userDefinedTextFrame in Hf.
    rewrite Hf. cbn [bind]. rewrite concat_pair, IH.
    cbn [List.concat]. rewrite app_assoc. reflexivity.
Qed.

(** The encoder writes one TXXX frame per entry and joins the frames in the
    order of the entries; no entry gives no frame at all. *)
Lemma userDefinedTextLoop_joins (entries : list IUserDefinedTextFrame) (frames : list Buffer) :
  Forall2 (fun entry frame => userDefinedTextFrame entry = Return frame) entries frames ->
  FrameEncoder.createUserDefinedTextFrame (VUserDefinedTexts entries)
  = Return (match frames with [] => None | _ :: _ => Some (List.concat frames) end).
Proof.
  intros H. cbn [FrameEncoder.createUserDefinedTextFrame].
  destruct H as [| entry frame entries frames Hf Hrest]; [reflexivity |].
  cbn [FrameEncoder.userDefinedTextLoop]. unfold userDefinedTextFrame in Hf.
  rewrite Hf. cbn [bind]. rewrite (userDefinedTextLoop_from _ _ Hrest). reflexivity.
Qed.

(** C8: the two entries "a" = "1" and "b" = "2" are written as two TXXX
    frames in that order, but the tag does not read back as the two entries:
    the body handed to the frame loop is nine bytes short of the declared
    size, so the payload of the last frame is cut after its second byte and the
    second entry reads as the description U+00FF with an empty value. *)
Theorem userDefinedText_read_back (checked : bool) :
  FrameEncoder.encodeFrames twoUserDefinedTexts = Return [frameA1 ++ frameB2] /\
  NodeID3.write [] twoUserDefinedTexts
  = Return ([73; 68; 51; 3; 0; 0; 0; 0; 0; 42] ++ frameA1 ++ frameB2) /\
  (tag <- NodeID3.write [] twoUserDefinedTexts ;; NodeID3.read checked tag)
  = Return [("userDefinedText",
             VUserDefinedTexts
               [ mkUserDefinedText (Some (JS.of_ascii "a")) (Some (JS.of_ascii "1"));
                 mkUserDefinedText (Some [255]) (Some []) ])] /\
  (tag <- NodeID3.write [] twoUserDefinedTexts ;; NodeID3.read checked tag)
  <> Return twoUserDefinedTexts.
Proof. destruct checked; by_evaluation. Qed.

(** * Further properties of the codec *)

(** ** The tag that create builds *)

Lemma total_length_from (buffers : list Buffer) (start : Z) :
  fold_left (fun acc cur => acc + Z.of_nat (length cur)) buffers start
  = start + Z.of_nat (length (List.concat buffers)).
Proof.
  revert start. induction buffers as [| b rest IH]; intros start; cbn [fold_left List.concat].
  - cbn [length]. lia.
  - rewrite IH, length_app. lia.
Qed.

Lemma total_length_concat (buffers : list Buffer) :
  FrameEncoder.total_length buffers = Z.of_nat (length (List.concat buffers)).
Proof. unfold FrameEncoder.total_length. rewrite total_length_from. lia. Qed.

Lemma and_127_range (x : Z) : 0 <= JS.and x 127 < 128.
Proof.
  unfold JS.and. change (JS.ToInt32 127) with (Z.ones 7).
  rewrite Z.land_ones by lia. apply Z.mod_pos_bound. lia.
Qed.

Lemma writeUInt8_inside (buf : Buffer) (v offset : Z) :
  0 <= v < 256 -> 0 <= offset -> offset + 1 <= Z.of_nat (length buf) ->
  NodeBuffer.writeUInt8 buf v offset
  = Return (NodeBuffer.overwrite buf (Z.to_nat offset) [v]).
Proof.
  intros Hv Ho Hl. unfold NodeBuffer.writeUInt8, NodeBuffer.writeUIntBE.
  change (256 ^ Z.of_nat 1) with 256. change (Z.of_nat 1) with 1.
  destruct (Z.ltb_spec v 0); [lia |]. destruct (Z.leb_spec 256 v); [lia |].
  destruct (Z.ltb_spec offset 0); [lia |].
  destruct (Z.ltb_spec (Z.of_nat (length buf)) (offset + 1)); [lia |].
  cbn [orb NodeBuffer.be_bytes]. change (256 ^ Z.of_nat 0) with 1.
  rewrite Z.div_1_r, Z.mod_small by lia. reflexivity.
Qed.

(** The layout of every tag that create returns: the marker, version 2.3.0,
    a zero flags byte, the four size bytes written from the total length of
    the frames, and the frames in the order of the mapping. *)
Lemma create_layout (frames : IFrames) (tag : Buffer) :
  NodeID3.create frames = Return tag ->
  exists encoded,
    FrameEncoder.encodeFrames frames = Return encoded /\
    tag = [73; 68; 51; 3; 0; 0]
          ++ NodeID3.encodeSize (Z.of_nat (length (List.concat encoded)))
          ++ List.concat encoded.
Proof.
  unfold NodeID3.create.
  change (NodeBuffer.alloc 10 0) with (Return (repeat 0 10)). cbn [bind].
  change (NodeBuffer.writeUInt16BE (NodeBuffer.write (repeat 0 10) "ID3" 0) 768 3)
    with (Return [73; 68; 51; 3; 0; 0; 0; 0; 0; 0]).
  cbn [bind].
  change (NodeBuffer.writeUInt16BE [73; 68; 51; 3; 0; 0; 0; 0; 0; 0] 0 5)
    with (Return [73; 68; 51; 3; 0; 0; 0; 0; 0; 0]).
  cbn [bind].
  destruct (FrameEncoder.encodeFrames frames) as [encoded | e | |]; cbn [bind];
    try discriminate.
  cbv zeta.
  rewrite total_length_concat. cbn [List.concat]. rewrite length_app.
  replace (Z.of_nat (length [73; 68; 51; 3; 0; 0; 0; 0; 0; 0] + length (List.concat encoded)) - 10)
    with (Z.of_nat (length (List.concat encoded))) by (cbn [length]; lia).
  set (n := Z.of_nat (length (List.concat encoded))).
  unfold NodeID3.encodeSize. cbn [nth].
  pose proof (and_127_range (JS.sar n 21)) as H0.
  pose proof (and_127_range (JS.sar n 14)) as H1.
  pose proof (and_127_range (JS.sar n 7)) as H2.
  pose proof (and_127_range n) as H3.
  rewrite writeUInt8_inside by (cbn [length]; lia).
  change (Z.to_nat 6) with 6%nat. cbn [bind NodeBuffer.overwrite].
  rewrite writeUInt8_inside by (cbn [length]; lia).
  change (Z.to_nat 7) with 7%nat. cbn [bind NodeBuffer.overwrite].
  rewrite writeUInt8_inside by (cbn [length]; lia).
  change (Z.to_nat 8) with 8%nat. cbn [bind NodeBuffer.overwrite].
  rewrite writeUInt8_inside by (cbn [length]; lia).
  change (Z.to_nat 9) with 9%nat. cbn [bind NodeBuffer.overwrite].
  intros H. exists encoded. split; [reflexivity |].
  injection H as <-. reflexivity.
Qed.

Lemma testbit7_below_128 (b : Z) : 0 <= b < 128 -> Z.testbit b 7 = false.
Proof.
  intros Hb. destruct (Z.eq_dec b 0) as [-> | Hnz]; [reflexivity |].
  apply Z.bits_above_log2; [lia |]. apply Z.log2_lt_pow2; lia.
Qed.

Lemma entry_of_byte (b : Z) : is_byte b -> NodeBuffer.entry (Some b) = b.
Proof.
  unfold is_byte, NodeBuffer.entry. intros Hb.
  change 255 with (Z.ones 8). rewrite Z.land_ones by lia. apply Z.mod_small. lia.
Qed.

Lemma slice_from_skipn (buf : Buffer) (k : Z) :
  NodeBuffer.slice_from buf k
  = skipn (Z.to_nat (JS.clamp (Z.of_nat (length buf)) k)) buf.
Proof.
  unfold NodeBuffer.slice_from, NodeBuffer.slice.
  apply firstn_all2. rewrite length_skipn. unfold JS.clamp. lia.
Qed.

Lemma slice_from_app (a b : Buffer) :
  NodeBuffer.slice_from (a ++ b) (Z.of_nat (length a)) = b.
Proof.
  rewrite slice_from_skipn, length_app. unfold JS.clamp.
  replace (Z.to_nat _) with (length a) by lia.
  rewrite skipn_app, skipn_all, Nat.sub_diag. reflexivity.
Qed.

Lemma decodeSize_of_digits (n : Z) :
  0 <= n < 2 ^ 28 ->
  NodeID3.decodeSize
    [ (n / 2 ^ 21) mod 128; (n / 2 ^ 14) mod 128; (n / 2 ^ 7) mod 128; n mod 128 ] = n.
Proof.
  intros Hn.
  pose proof (Z.mod_pos_bound (n / 2 ^ 21) 128 ltac:(lia)) as H0.
  pose proof (Z.mod_pos_bound (n / 2 ^ 14) 128 ltac:(lia)) as H1.
  pose proof (Z.mod_pos_bound (n / 2 ^ 7) 128 ltac:(lia)) as H2.
  pose proof (Z.mod_pos_bound n 128 ltac:(lia)) as H3.
  unfold NodeID3.decodeSize. rewrite !shl_byte by (unfold is_byte; lia).
  change (2 ^ 21) with 2097152. change (2 ^ 14) with 16384. change (2 ^ 7) with 128.
  assert (n / 2097152 < 128) by (apply Z.div_lt_upper_bound; lia).
  assert (0 <= n / 2097152) by (apply Z.div_pos; lia).
  rewrite (Z.mod_small (n / 2097152) 128) by lia.
  pose proof (Z.div_mod n 128 ltac:(lia)).
  pose proof (Z.div_mod (n / 128) 128 ltac:(lia)).
  pose proof (Z.div_mod (n / 128 / 128) 128 ltac:(lia)).
  replace (n / 16384) with (n / 128 / 128) by (rewrite Z.div_div by lia; reflexivity).
  replace (n / 2097152) with (n / 128 / 128 / 128) in * by (rewrite !Z.div_div by lia; reflexivity).
  lia.
Qed.

(** remove on a buffer that starts with a tag header whose size bytes are
    below 128. *)
Lemma remove_header (v3 v4 v5 d0 d1 d2 d3 : Z) (rest : Buffer) :
  0 <= d0 < 128 -> 0 <= d1 < 128 -> 0 <= d2 < 128 -> 0 <= d3 < 128 ->
  NodeID3.remove (73 :: 68 :: 51 :: v3 :: v4 :: v5 :: d0 :: d1 :: d2 :: d3 :: rest)
  = NodeID3.IsBuffer
      (NodeBuffer.slice_from
         (73 :: 68 :: 51 :: v3 :: v4 :: v5 :: d0 :: d1 :: d2 :: d3 :: rest)
         (NodeID3.decodeSize [d0; d1; d2; d3] + 10)).
Proof.
  intros H0 H1 H2 H3. unfold NodeID3.remove.
  set (data := 73 :: 68 :: 51 :: v3 :: v4 :: v5 :: d0 :: d1 :: d2 :: d3 :: rest).
  change (NodeID3.getFramePosition data) with 0.
  change (0 =? -1) with false. cbv iota zeta.
  change (NodeBuffer.get data (0 + 6)) with (Some d0).
  change (NodeBuffer.get data (0 + 7)) with (Some d1).
  change (NodeBuffer.get data (0 + 8)) with (Some d2).
  change (NodeBuffer.get data (0 + 9)) with (Some d3).
  rewrite !entry_of_byte by (unfold is_byte; lia).
  cbn [nth]. rewrite size_test by (unfold is_byte; lia).
  rewrite !testbit7_below_128 by lia. cbn [orb].
  reflexivity.
Qed.

(** X1: a tag returned by create starts with the marker "ID3", version 2.3.0
    and a zero flags byte, each of its four size bytes is below 0x80, the tag
    is located at offset 0 of whatever it is put in front of, and remove never
    answers [false] on it. *)
Theorem create_header (frames : IFrames) (tag rest : Buffer) :
  NodeID3.create frames = Return tag ->
  firstn 6 tag = [73; 68; 51; 3; 0; 0] /\
  (forall i, 6 <= i <= 9 -> exists b, NodeBuffer.get tag i = Some b /\ 0 <= b < 128) /\
  NodeID3.getFramePosition (tag ++ rest) = 0 /\
  NodeID3.remove (tag ++ rest) <> NodeID3.IsFalse.
Proof.
  intros Hc. destruct (create_layout frames tag Hc) as (encoded & _ & ->).
  set (n := Z.of_nat (length (List.concat encoded))).
  unfold NodeID3.encodeSize.
  pose proof (and_127_range (JS.sar n 21)) as H0.
  pose proof (and_127_range (JS.sar n 14)) as H1.
  pose proof (and_127_range (JS.sar n 7)) as H2.
  pose proof (and_127_range n) as H3.
  cbn [app]. repeat split.
  - intros i Hi. assert (Hcases : i = 6 \/ i = 7 \/ i = 8 \/ i = 9) by lia.
    destruct Hcases as [-> | [-> | [-> | ->]]]; eexists; (split; [reflexivity | assumption]).
  - rewrite remove_header by assumption. discriminate.
Qed.

Lemma create_header_witness :
  firstn 6 [73; 68; 51; 3; 0; 0; 0; 0; 0; 0] = [73; 68; 51; 3; 0; 0] /\
  (forall i, 6 <= i <= 9 ->
     exists b, NodeBuffer.get [73; 68; 51; 3; 0; 0; 0; 0; 0; 0] i = Some b /\ 0 <= b < 128) /\
  NodeID3.getFramePosition ([73; 68; 51; 3; 0; 0; 0; 0; 0; 0] ++ [1; 2; 3]) = 0 /\
  NodeID3.remove ([73; 68; 51; 3; 0; 0; 0; 0; 0; 0] ++ [1; 2; 3]) <> NodeID3.IsFalse.
Proof. apply (create_header [] _ [1; 2; 3]). reflexivity. Defined.

(** X2: when create returns a tag whose body is shorter than 2^28 bytes,
    remove takes exactly that tag off the front of any buffer it was put in
    front of; so after write on a source that remove accepts, remove gives
    back what remove gives on the source. *)
Theorem remove_after_create (frames : IFrames) (tag : Buffer) :
  NodeID3.create frames = Return tag ->
  Z.of_nat (length tag) - 10 < 2 ^ 28 ->
  (forall rest, NodeID3.remove (tag ++ rest) = NodeID3.IsBuffer rest) /\
  (forall source stripped,
     NodeID3.remove source = NodeID3.IsBuffer stripped ->
     exists written,
       NodeID3.write source frames = Return written /\
       NodeID3.remove written = NodeID3.IsBuffer stripped).
Proof.
  intros Hc Hsmall.
  assert (Hrest : forall rest, NodeID3.remove (tag ++ rest) = NodeID3.IsBuffer rest).
  { intros rest. destruct (create_layout frames tag Hc) as (encoded & _ & Htag).
    set (body := List.concat encoded) in *.
    assert (Hn : 0 <= Z.of_nat (length body) < 2 ^ 28).
    { rewrite Htag in Hsmall. rewrite !length_app in Hsmall.
      change (length (NodeID3.encodeSize (Z.of_nat (length body)))) with 4%nat in Hsmall.
      cbn [length] in Hsmall. lia. }
    assert (Hlen : Z.of_nat (length tag) = Z.of_nat (length body) + 10).
    { rewrite Htag, !length_app.
      change (length (NodeID3.encodeSize (Z.of_nat (length body)))) with 4%nat.
      cbn [length]. lia. }
    rewrite (encodeSize_digits _ Hn) in Htag.
    pose proof (Z.mod_pos_bound (Z.of_nat (length body) / 2 ^ 21) 128 ltac:(lia)) as H0.
    pose proof (Z.mod_pos_bound (Z.of_nat (length body) / 2 ^ 14) 128 ltac:(lia)) as H1.
    pose proof (Z.mod_pos_bound (Z.of_nat (length body) / 2 ^ 7) 128 ltac:(lia)) as H2.
    pose proof (Z.mod_pos_bound (Z.of_nat (length body)) 128 ltac:(lia)) as H3.
    assert (Hshape : tag ++ rest
                     = 73 :: 68 :: 51 :: 3 :: 0 :: 0
                       :: (Z.of_nat (length body) / 2 ^ 21) mod 128
                       :: (Z.of_nat (length body) / 2 ^ 14) mod 128
                       :: (Z.of_nat (length body) / 2 ^ 7) mod 128
                       :: Z.of_nat (length body) mod 128 :: (body ++ rest)).
    { rewrite Htag. reflexivity. }
    rewrite Hshape, remove_header by assumption.
    rewrite (decodeSize_of_digits _ Hn), <- Hshape, <- Hlen, slice_from_app. reflexivity. }
  split; [exact Hrest |].
  intros source stripped Hs. exists (tag ++ stripped). split; [| apply Hrest].
  unfold NodeID3.write. rewrite Hc, Hs. cbn [bind]. rewrite concat_pair. reflexivity.
Qed.

Lemma remove_after_create_witness :
  (forall rest, NodeID3.remove ([73; 68; 51; 3; 0; 0; 0; 0; 0; 0] ++ rest) = NodeID3.IsBuffer rest) /\
  (forall source stripped,
     NodeID3.remove source = NodeID3.IsBuffer stripped ->
     exists written,
       NodeID3.write source [] = Return written /\
       NodeID3.remove written = NodeID3.IsBuffer stripped).
Proof. apply (remove_after_create [] _); [reflexivity | vm_compute; reflexivity]. Defined.

(** X3: whatever buffer remove returns is a suffix of its input: remove only
    ever drops bytes from the front. *)
Theorem remove_is_suffix (data stripped : Buffer) :
  NodeID3.remove data = NodeID3.IsBuffer stripped ->
  exists dropped, data = dropped ++ stripped.
Proof.
  unfold NodeID3.remove. intros H.
  destruct (NodeID3.getFramePosition data =? -1).
  - exists []. cbn [app]. congruence.
  - match type of H with (if ?c then _ else _) = _ => destruct c end; [discriminate |].
    match type of H with NodeID3.IsBuffer (NodeBuffer.slice_from _ ?k) = _ =>
      assert (Hs : stripped = NodeBuffer.slice_from data k) by congruence
    end.
    rewrite slice_from_skipn in Hs. rewrite Hs.
    eexists. symmetry. apply firstn_skipn.
Qed.

Lemma remove_is_suffix_witness :
  exists dropped, emptyTag ++ [1; 2; 3] = dropped ++ [1; 2; 3].
Proof. apply (remove_is_suffix (emptyTag ++ [1; 2; 3]) [1; 2; 3]). reflexivity. Defined.

(** ** Aliases that are in no table *)




(** ** Image frames *)

Lemma indexOf_at_lower (needle buf : list Z) (pos : Z) :
  0 <= pos ->
  NodeBuffer.indexOf_at needle buf pos = -1 \/ pos <= NodeBuffer.indexOf_at needle buf pos.
Proof.
  intros Hpos. destruct (Z.eq_dec (NodeBuffer.indexOf_at needle buf pos) (-1)) as [| Hne];
    [left; assumption | right].
  destruct (indexOf_at_found needle buf pos _ eq_refl Hne Hpos) as [Hb _]. lia.
Qed.

Lemma indexOf_from_lower (buf needle : list Z) (offset : Z) :
  0 <= offset ->
  NodeBuffer.indexOf_from buf needle offset = -1
  \/ offset <= NodeBuffer.indexOf_from buf needle offset.
Proof. intros H. unfold NodeBuffer.indexOf_from. apply indexOf_at_lower. exact H. Qed.

Lemma readImageFrame_drops_5_any (data : Buffer) (version : Z) :
  FrameDecoder.readImageFrame data version = NodeBuffer.slice_from data 5.
Proof.
  unfold FrameDecoder.readImageFrame.
  set (descOffset := if version =? 2 then 5 else NodeBuffer.indexOf_from data [0] 1 + 2).
  assert (Hoff : 1 <= descOffset).
  { unfold descOffset. destruct (version =? 2); [lia |].
    destruct (indexOf_from_lower data [0] 1 ltac:(lia)); lia. }
  match goal with |- NodeBuffer.slice_from data (if ?e =? 0 then _ else _) = _ =>
    assert (Hend : e <> 0)
  end.
  { destruct (NodeBuffer.get data 0) as [[| p | p] |].
    - destruct (indexOf_from_lower data [0] descOffset ltac:(lia)); lia.
    - pose proof (indexOf_at_lower [0; 0] (NodeBuffer.slice_from data descOffset) 0 ltac:(lia)).
      unfold NodeBuffer.indexOf. lia.
    - pose proof (indexOf_at_lower [0; 0] (NodeBuffer.slice_from data descOffset) 0 ltac:(lia)).
      unfold NodeBuffer.indexOf. lia.
    - pose proof (indexOf_at_lower [0; 0] (NodeBuffer.slice_from data descOffset) 0 ltac:(lia)).
      unfold NodeBuffer.indexOf. lia. }
  apply Z.eqb_neq in Hend. rewrite Hend. reflexivity.
Qed.

(** X5: readImageFrame returns its data without the first five bytes, whatever
    the encoding byte, the MIME type, the description and the version are: the
    end of the description it computes is never 0, so the branch that would
    use it is never taken.  In particular the result of a version 2.3 frame
    does not depend on where its MIME type ends. *)
Theorem readImageFrame_drops_5 (data : Buffer) (version : Z) :
  FrameDecoder.readImageFrame data version = NodeBuffer.slice_from data 5 /\
  (length (FrameDecoder.readImageFrame data version) = length data - 5)%nat.
Proof.
  rewrite readImageFrame_drops_5_any. split; [reflexivity |].
  rewrite slice_from_skipn, length_skipn. unfold JS.clamp. lia.
Qed.

Lemma mime_sniffing (apicData : Buffer) :
  match NodeBuffer.get apicData 0, NodeBuffer.get apicData 1, NodeBuffer.get apicData 2 with
  | Some 255, Some 216, Some 255 => "image/jpeg"
  | _, _, _ => "image/png"
  end
  = if isJpeg apicData then "image/jpeg" else "image/png".
Proof.
  unfold isJpeg.
  destruct apicData as [| a [| b [| c rest]]].
  - reflexivity.
  - cbn [NodeBuffer.starts_with]. rewrite andb_false_r.
    change (NodeBuffer.get [a] 0) with (Some a). change (NodeBuffer.get [a] 1) with (@None Z).
    destruct a as [| p | p]; try reflexivity.
    do 8 (destruct p as [p | p |]; try reflexivity).
  - change (NodeBuffer.get [a; b] 0) with (Some a). change (NodeBuffer.get [a; b] 1) with (Some b).
    change (NodeBuffer.get [a; b] 2) with (@None Z).
    cbn [NodeBuffer.starts_with]. rewrite !andb_false_r.
    destruct a as [| p | p]; try reflexivity.
    do 8 (destruct p as [p | p |]; try reflexivity).
    destruct b as [| q | q]; try reflexivity.
    do 8 (destruct q as [q | q |]; try reflexivity).
  - change (NodeBuffer.get (a :: b :: c :: rest) 0) with (Some a).
    change (NodeBuffer.get (a :: b :: c :: rest) 1) with (Some b).
    change (NodeBuffer.get (a :: b :: c :: rest) 2) with (Some c).
    cbn [NodeBuffer.starts_with].
    destruct a as [| p | p]; try reflexivity.
    do 8 (destruct p as [p | p |]; try reflexivity).
    destruct b as [| q | q]; try reflexivity.
    do 8 (destruct q as [q | q |]; try reflexivity).
    destruct c as [| r | r]; try reflexivity.
    do 8 (destruct r as [r | r |]; try reflexivity).
Qed.

Lemma length_4 (l : list Z) :
  length l = 4%nat -> exists a b c d, l = [a; b; c; d].
Proof.
  intros H. do 4 (destruct l as [| ? l]; [discriminate |]).
  destruct l; [| discriminate]. repeat eexists.
Qed.

Lemma createImageFrame_returns (apicData : Buffer) :
  Z.of_nat (length (imagePayload apicData)) < 2 ^ 32 ->
  FrameEncoder.createImageFrame apicData
  = Return (ascii_bytes "APIC"
            ++ NodeBuffer.be_bytes 4 (Z.of_nat (length (imagePayload apicData)))
            ++ [0; 0] ++ imagePayload apicData).
Proof.
  intros Hfit. unfold FrameEncoder.createImageFrame.
  change (NodeBuffer.alloc 10 0) with (Return (repeat 0 10)). cbn [bind]. cbv zeta.
  rewrite mime_sniffing. unfold imagePayload in *.
  destruct (isJpeg apicData).
  - change (NodeBuffer.alloc (Z.of_nat (String.length "image/jpeg") + 4) 0)
      with (Return (repeat 0 14)).
    cbn [bind].
    change (NodeBuffer.write
              (NodeBuffer.put (repeat 0 14) (Z.of_nat (String.length "image/jpeg") + 2) 3)
              "image/jpeg" 1)
      with ([0] ++ ascii_bytes "image/jpeg" ++ [0; 3; 0]).
    change (NodeBuffer.write (repeat 0 10) "APIC" 0) with [65; 80; 73; 67; 0; 0; 0; 0; 0; 0].
    rewrite !length_app in *. cbn [length] in *.
    change (length (ascii_bytes "image/jpeg")) with 10%nat in *.
    unfold NodeBuffer.writeUInt32BE, NodeBuffer.writeUIntBE.
    change (256 ^ Z.of_nat 4) with (2 ^ 32).
    replace (Z.of_nat (length apicData) + Z.of_nat (1 + (10 + 3)))
      with (Z.of_nat (1 + (10 + (3 + length apicData)))) by lia.
    set (size := Z.of_nat (1 + (10 + (3 + length apicData)))) in *.
    destruct (Z.ltb_spec size 0); [lia |]. destruct (Z.leb_spec (2 ^ 32) size); [lia |].
    cbn [orb length Z.of_nat]. change (Z.to_nat 4) with 4%nat.
    destruct (length_4 (NodeBuffer.be_bytes 4 size) eq_refl) as (a & b & c & d & Hb).
    rewrite Hb. cbn [bind NodeBuffer.overwrite]. unfold NodeBuffer.concat.
    cbn [List.concat app]. rewrite app_nil_r. reflexivity.
  - change (NodeBuffer.alloc (Z.of_nat (String.length "image/png") + 4) 0)
      with (Return (repeat 0 13)).
    cbn [bind].
    change (NodeBuffer.write
              (NodeBuffer.put (repeat 0 13) (Z.of_nat (String.length "image/png") + 2) 3)
              "image/png" 1)
      with ([0] ++ ascii_bytes "image/png" ++ [0; 3; 0]).
    change (NodeBuffer.write (repeat 0 10) "APIC" 0) with [65; 80; 73; 67; 0; 0; 0; 0; 0; 0].
    rewrite !length_app in *. cbn [length] in *.
    change (length (ascii_bytes "image/png")) with 9%nat in *.
    unfold NodeBuffer.writeUInt32BE, NodeBuffer.writeUIntBE.
    change (256 ^ Z.of_nat 4) with (2 ^ 32).
    replace (Z.of_nat (length apicData) + Z.of_nat (1 + (9 + 3)))
      with (Z.of_nat (1 + (9 + (3 + length apicData)))) by lia.
    set (size := Z.of_nat (1 + (9 + (3 + length apicData)))) in *.
    destruct (Z.ltb_spec size 0); [lia |]. destruct (Z.leb_spec (2 ^ 32) size); [lia |].
    cbn [orb length Z.of_nat]. change (Z.to_nat 4) with 4%nat.
    destruct (length_4 (NodeBuffer.be_bytes 4 size) eq_refl) as (a & b & c & d & Hb).
    rewrite Hb. cbn [bind NodeBuffer.overwrite]. unfold NodeBuffer.concat.
    cbn [List.concat app]. rewrite app_nil_r. reflexivity.
Qed.

Lemma readUInt32BE_after_identifier (n0 n1 n2 n3 v : Z) (rest : Buffer) :
  0 <= v < 2 ^ 32 ->
  NodeBuffer.readUInt32BE (n0 :: n1 :: n2 :: n3 :: NodeBuffer.be_bytes 4 v ++ rest) 4 = v.
Proof.
  intros Hv. rewrite <- (readUIntBE_be_bytes_4 v Hv) at 2.
  destruct (length_4 (NodeBuffer.be_bytes 4 v) eq_refl) as (a & b & c & d & ->).
  unfold NodeBuffer.readUInt32BE, NodeBuffer.slice, JS.clamp. cbn [app length].
  replace (Z.max 0 (Z.min (Z.of_nat (S (S (S (S (S (S (S (S (length rest)))))))))) 4))
    with 4 by lia.
  replace (Z.max 0 (Z.min (Z.of_nat (S (S (S (S (S (S (S (S (length rest)))))))))) (4 + 4)))
    with 8 by lia.
  reflexivity.
Qed.

Lemma image_frame_payload (apicData : Buffer) :
  NodeBuffer.slice_from
    (ascii_bytes "APIC"
     ++ NodeBuffer.be_bytes 4 (Z.of_nat (length (imagePayload apicData)))
     ++ [0; 0] ++ imagePayload apicData) 10
  = imagePayload apicData.
Proof.
  set (payload := imagePayload apicData).
  set (size := NodeBuffer.be_bytes 4 (Z.of_nat (length payload))).
  replace (ascii_bytes "APIC" ++ size ++ [0; 0] ++ payload)
    with ((ascii_bytes "APIC" ++ size ++ [0; 0]) ++ payload)
    by (rewrite <- !app_assoc; reflexivity).
  change 10 with (Z.of_nat (length (ascii_bytes "APIC" ++ size ++ [0; 0]))).
  apply slice_from_app.
Qed.

(** X6: createImageFrame returns, for image data whose frame fits a 32-bit
    size, the identifier APIC, the big-endian size of the payload, two zero
    flag bytes and the payload: encoding byte 0, the MIME type "image/jpeg"
    when the data starts with FF D8 FF and "image/png" otherwise, a zero byte,
    the picture type 3, an empty description and the data.  The frame is 10
    bytes longer than the number in its size field. *)
Theorem createImageFrame_layout (apicData : Buffer) :
  Z.of_nat (length (imagePayload apicData)) < 2 ^ 32 ->
  exists frame,
    FrameEncoder.createImageFrame apicData = Return frame /\
    firstn 4 frame = ascii_bytes "APIC" /\
    NodeBuffer.readUInt32BE frame 4 = Z.of_nat (length (imagePayload apicData)) /\
    Z.of_nat (length frame) = 10 + NodeBuffer.readUInt32BE frame 4 /\
    NodeBuffer.slice_from frame 10 = imagePayload apicData.
Proof.
  intros Hfit. eexists. split; [apply createImageFrame_returns; exact Hfit |].
  assert (Hread : NodeBuffer.readUInt32BE
                    (ascii_bytes "APIC"
                     ++ NodeBuffer.be_bytes 4 (Z.of_nat (length (imagePayload apicData)))
                     ++ [0; 0] ++ imagePayload apicData) 4
                  = Z.of_nat (length (imagePayload apicData))).
  { change (ascii_bytes "APIC") with [65; 80; 73; 67]. cbn [app].
    apply readUInt32BE_after_identifier. lia. }
  split; [reflexivity |]. split; [exact Hread |]. split; [| apply image_frame_payload].
  rewrite Hread, !length_app.
  change (length (ascii_bytes "APIC")) with 4%nat.
  change (length (NodeBuffer.be_bytes 4 (Z.of_nat (length (imagePayload apicData))))) with 4%nat.
  cbn [length]. lia.
Qed.

Lemma createImageFrame_layout_witness :
  exists frame,
    FrameEncoder.createImageFrame [255; 216; 255; 224] = Return frame /\
    firstn 4 frame = ascii_bytes "APIC" /\
    NodeBuffer.readUInt32BE frame 4 = Z.of_nat (length (imagePayload [255; 216; 255; 224])) /\
    Z.of_nat (length frame) = 10 + NodeBuffer.readUInt32BE frame 4 /\
    NodeBuffer.slice_from frame 10 = imagePayload [255; 216; 255; 224].
Proof. apply (createImageFrame_layout [255; 216; 255; 224]). vm_compute. reflexivity. Defined.

(** X7: an image does not read back: readImageFrame, given the payload that
    createImageFrame wrote, returns the image with the last characters of the
    MIME type ("e/jpeg" or "e/png"), a zero byte, the picture type and the
    description terminator in front of it. *)
Theorem image_reads_back_with_prefix (apicData : Buffer) (version : Z) :
  Z.of_nat (length (imagePayload apicData)) < 2 ^ 32 ->
  exists frame,
    FrameEncoder.createImageFrame apicData = Return frame /\
    FrameDecoder.readImageFrame (NodeBuffer.slice_from frame 10) version
    = ascii_bytes (if isJpeg apicData then "e/jpeg" else "e/png") ++ [0; 3; 0] ++ apicData /\
    FrameDecoder.readImageFrame (NodeBuffer.slice_from frame 10) version <> apicData.
Proof.
  intros Hfit. eexists. split; [apply createImageFrame_returns; exact Hfit |].
  rewrite image_frame_payload, readImageFrame_drops_5_any.
  assert (Hdrop : NodeBuffer.slice_from (imagePayload apicData) 5
                  = ascii_bytes (if isJpeg apicData then "e/jpeg" else "e/png")
                    ++ [0; 3; 0] ++ apicData).
  { unfold imagePayload. destruct (isJpeg apicData).
    - change ([0] ++ ascii_bytes "image/jpeg" ++ [0; 3; 0] ++ apicData)
        with ([0; 105; 109; 97; 103] ++ (ascii_bytes "e/jpeg" ++ [0; 3; 0] ++ apicData)).
      change 5 with (Z.of_nat (length [0; 105; 109; 97; 103])). apply slice_from_app.
    - change ([0] ++ ascii_bytes "image/png" ++ [0; 3; 0] ++ apicData)
        with ([0; 105; 109; 97; 103] ++ (ascii_bytes "e/png" ++ [0; 3; 0] ++ apicData)).
      change 5 with (Z.of_nat (length [0; 105; 109; 97; 103])). apply slice_from_app. }
  rewrite Hdrop. split; [reflexivity |].
  intros Heq. apply (f_equal (@length Z)) in Heq. rewrite !length_app in Heq.
  cbn [length] in Heq. lia.
Qed.

Lemma image_reads_back_with_prefix_witness :
  exists frame,
    FrameEncoder.createImageFrame [137; 80; 78; 71] = Return frame /\
    FrameDecoder.readImageFrame (NodeBuffer.slice_from frame 10) 3
    = ascii_bytes (if isJpeg [137; 80; 78; 71] then "e/jpeg" else "e/png")
      ++ [0; 3; 0] ++ [137; 80; 78; 71] /\
    FrameDecoder.readImageFrame (NodeBuffer.slice_from frame 10) 3 <> [137; 80; 78; 71].
Proof. apply (image_reads_back_with_prefix [137; 80; 78; 71] 3). vm_compute. reflexivity. Defined.

(** ** The scanning loop of the decoder *)

Lemma get_nat (data : Buffer) (k : nat) :
  NodeBuffer.get data (Z.of_nat k) = nth_error data k.
Proof.
  unfold NodeBuffer.get. destruct (Z.ltb_spec (Z.of_nat k) 0); [lia |].
  rewrite Nat2Z.id. reflexivity.
Qed.

Lemma scanContinues_false (data : Buffer) :
  FrameDecoder.scanContinues data = false <-> terminatorAt data 0.
Proof.
  unfold FrameDecoder.scanContinues, terminatorAt.
  change (NodeBuffer.get data 0) with (nth_error data 0).
  change (NodeBuffer.get data 1) with (nth_error data 1).
  change (NodeBuffer.get data 2) with (nth_error data 2).
  destruct data as [| a [| b [| c rest]]]; cbn [nth_error].
  - split; [discriminate | intros (H & _); discriminate].
  - rewrite orb_true_r. split; [discriminate | intros (_ & H & _); discriminate].
  - destruct a as [| p | p], b as [| q | q]; cbn;
      split; try discriminate; try (intros (H1 & H2 & _); discriminate);
      try reflexivity.
    intros _. repeat split. discriminate.
  - destruct a as [| p | p], b as [| q | q], c as [| r | r]; cbn;
      split; try discriminate; try (intros (H1 & H2 & H3); congruence);
      try reflexivity.
    all: intros _; repeat split; discriminate.
Qed.

Lemma terminatorAt_skipn (data : Buffer) (j k : nat) :
  terminatorAt (skipn j data) k <-> terminatorAt data (j + k).
Proof.
  unfold terminatorAt. rewrite !nth_error_skipn.
  replace (j + S k)%nat with (S (j + k)) by lia.
  replace (j + S (S k))%nat with (S (S (j + k))) by lia. reflexivity.
Qed.

(** The result of the loop: the first place where a terminator stands, or
    none when the data has no terminator. *)
Lemma scanTerminator_spec (data : Buffer) (i : Z) :
  match FrameDecoder.scanTerminator data i with
  | Some r =>
      exists k, r = i + Z.of_nat k /\ terminatorAt data k /\
                forall j, (j < k)%nat -> ~ terminatorAt data j
  | None => forall k, ~ terminatorAt data k
  end.
Proof.
  revert i. induction data as [| b rest IH]; intros i.
  - cbn. intros k (H & _). destruct k; discriminate.
  - cbn [FrameDecoder.scanTerminator].
    destruct (FrameDecoder.scanContinues (b :: rest)) eqn:Hc.
    + assert (Hnot : ~ terminatorAt (b :: rest) 0).
      { intros Ht. apply scanContinues_false in Ht. congruence. }
      specialize (IH (i + 1)).
      destruct (FrameDecoder.scanTerminator rest (i + 1)) as [r |].
      * destruct IH as (k & Hr & Hk & Hmin). exists (S k). split; [lia |]. split.
        -- apply (terminatorAt_skipn (b :: rest) 1 k). exact Hk.
        -- intros [| j] Hj; [exact Hnot |].
           intros Ht. apply (Hmin j ltac:(lia)).
           apply (terminatorAt_skipn (b :: rest) 1 j). exact Ht.
      * intros [| k]; [exact Hnot |].
        intros Ht. apply (IH k). apply (terminatorAt_skipn (b :: rest) 1 k). exact Ht.
    + exists 0%nat. split; [lia |]. split; [apply scanContinues_false; exact Hc |].
      intros j Hj. lia.
Qed.

(** X8: on a payload with encoding byte 1, readUserDefinedTextFrame takes the
    first place where two zero bytes are not followed by a third as the end
    of the description: the description is decoded from the bytes 1 .. k and
    the value from the bytes after k + 2.  It never returns the empty object
    of its [data[i] === undefined] test, and on a payload without such a place
    it does not return at all. *)
Theorem readUserDefinedTextFrame_utf16 (data : Buffer) :
  NodeBuffer.get data 0 = Some 1 ->
  (forall k,
     terminatorAt data k -> (forall j, (j < k)%nat -> ~ terminatorAt data j) ->
     FrameDecoder.readUserDefinedTextFrame data
     = Return (Some (mkUserDefinedText
                       (Some (FrameDecoder.decodeUtf16 (NodeBuffer.slice data 1 (Z.of_nat k))))
                       (Some (FrameDecoder.decodeUtf16
                                (NodeBuffer.slice_from data (Z.of_nat k + 2))))))) /\
  ((forall k, ~ terminatorAt data k) ->
   FrameDecoder.readUserDefinedTextFrame data = Diverges) /\
  FrameDecoder.readUserDefinedTextFrame data <> Return (Some (mkUserDefinedText None None)).
Proof.
  intros H0. unfold FrameDecoder.readUserDefinedTextFrame. rewrite H0.
  pose proof (scanTerminator_spec data 0) as Hscan.
  destruct (FrameDecoder.scanTerminator data 0) as [r |].
  - destruct Hscan as (k & -> & Hk & Hmin). rewrite Z.add_0_l, get_nat.
    destruct Hk as (Hk0 & Hk1 & Hk2). rewrite Hk0.
    split; [| split; [| discriminate]].
    + intros k' Hk' Hmin'.
      assert (k' = k).
      { destruct (Nat.lt_trichotomy k' k) as [Hlt | [Heq | Hgt]]; [| exact Heq |].
        - exfalso. exact (Hmin k' Hlt Hk').
        - exfalso. apply (Hmin' k Hgt). repeat split; assumption. }
      subst k'. reflexivity.
    + intros Hnone. exfalso. apply (Hnone k). repeat split; assumption.
  - split; [| split; [reflexivity | discriminate]].
    intros k Hk _. exfalso. exact (Hscan k Hk).
Qed.

Lemma readUserDefinedTextFrame_utf16_witness :
  FrameDecoder.readUserDefinedTextFrame [1; 255; 254; 97; 0; 0; 0; 255; 254; 49; 0]
  = Return (Some (mkUserDefinedText (Some [97]) (Some [49]))) /\
  FrameDecoder.readUserDefinedTextFrame [1; 65; 66] = Diverges.
Proof.
  split.
  - apply (proj1 (readUserDefinedTextFrame_utf16
                    [1; 255; 254; 97; 0; 0; 0; 255; 254; 49; 0] eq_refl) 5%nat).
    + repeat split; try reflexivity. discriminate.
    + intros j Hj (H1 & H2 & H3).
      do 5 (destruct j as [| j]; [cbn in H1, H2, H3; congruence |]). lia.
  - apply (proj1 (proj2 (readUserDefinedTextFrame_utf16 [1; 65; 66] eq_refl))).
    intros k (H1 & H2 & H3).
    do 3 (destruct k as [| k]; [cbn in H1, H2; congruence |]). destruct k; discriminate.
Defined.

(** ** Comment, lyrics and user-defined text frames *)

Lemma createSpecialTextFrame_returns (frameName : string) (data : ISpecialTextFrame) :
  Z.of_nat (length (specialTextPayload frameName data)) < 2 ^ 32 ->
  exists header,
    FrameEncoder.createSpecialTextFrame frameName data
    = Return (header ++ specialTextPayload frameName data) /\
    length header = 10%nat /\
    NodeBuffer.readUInt32BE (header ++ specialTextPayload frameName data) 4
    = Z.of_nat (length (specialTextPayload frameName data)).
Proof.
  intros Hfit. unfold FrameEncoder.createSpecialTextFrame.
  change (NodeBuffer.alloc 10 0) with (Return (repeat 0 10)). cbn [bind]. cbv zeta.
  match goal with |- context [FrameEncoder.total_length ?bs] =>
    assert (Hbs : List.concat bs = specialTextPayload frameName data);
    [| set (buffers := bs) in * ]
  end.
  { unfold specialTextPayload, contentDescriptor.
    destruct (String.eqb frameName "TXXX"), (JS.truthy (shortText data));
      cbn [negb app List.concat]; rewrite ?concat_pair, ?app_nil_r; reflexivity. }
  rewrite total_length_concat, Hbs.
  destruct (frame_header_size frameName (Z.of_nat (length (specialTextPayload frameName data)))
              (specialTextPayload frameName data) ltac:(lia)) as (header & Hw & Hlen & Hread).
  rewrite Hw. cbn [bind]. exists header. split; [| split; assumption].
  unfold NodeBuffer.concat. cbn [List.concat]. rewrite Hbs. reflexivity.
Qed.

(** X9: a comment, lyrics or user-defined text frame built by
    createSpecialTextFrame is its ten-byte header followed by the encoding
    byte 1, the language (no language for TXXX), the content descriptor and
    the text; its length is 10 plus the big-endian number in its size field. *)
Theorem createSpecialTextFrame_layout (frameName : string) (data : ISpecialTextFrame) :
  Z.of_nat (length (specialTextPayload frameName data)) < 2 ^ 32 ->
  exists frame,
    FrameEncoder.createSpecialTextFrame frameName data = Return frame /\
    Z.of_nat (length frame) = 10 + NodeBuffer.readUInt32BE frame 4 /\
    NodeBuffer.slice_from frame 10 = specialTextPayload frameName data.
Proof.
  intros Hfit.
  destruct (createSpecialTextFrame_returns frameName data Hfit) as (header & Hf & Hlen & Hread).
  eexists. split; [exact Hf |]. rewrite Hread. split.
  - rewrite length_app. lia.
  - replace 10 with (Z.of_nat (length header)) by lia. apply slice_from_app.
Qed.

Lemma createSpecialTextFrame_layout_witness :
  exists frame,
    FrameEncoder.createSpecialTextFrame "COMM" commentInJapanese = Return frame /\
    Z.of_nat (length frame) = 10 + NodeBuffer.readUInt32BE frame 4 /\
    NodeBuffer.slice_from frame 10 = specialTextPayload "COMM" commentInJapanese.
Proof. apply (createSpecialTextFrame_layout "COMM" commentInJapanese). vm_compute. reflexivity. Defined.

(** ** Reading back what the encoder wrote, frame by frame *)

Lemma utf16le_small (s : JSString) :
  Forall (fun c => 0 < c < 256) s -> utf16le s = flat_map (fun c => [c; 0]) s.
Proof.
  induction 1 as [| c rest Hc _ IH]; [reflexivity |].
  unfold utf16le in *. cbn [flat_map]. rewrite IH.
  rewrite Z.mod_small, Z.div_small by lia. reflexivity.
Qed.

Lemma utf16le_length (s : JSString) : length (utf16le s) = (2 * length s)%nat.
Proof.
  induction s as [| c rest IH]; [reflexivity |].
  unfold utf16le in *. cbn [flat_map length app]. rewrite IH. lia.
Qed.

Lemma encode_utf16_bytes (s : JSString) : Iconv.encode_utf16 s = 255 :: 254 :: utf16le s.
Proof. reflexivity. Qed.

Lemma contentDescriptor_bytes (data : ISpecialTextFrame) :
  contentDescriptor data = 255 :: 254 :: utf16le (JS.or_empty (shortText data)) ++ [0; 0].
Proof.
  unfold contentDescriptor.
  destruct (shortText data) as [[| c rest] |]; reflexivity.
Qed.

Lemma scan_step (b : Z) (rest : Buffer) (i : Z) :
  FrameDecoder.scanContinues (b :: rest) = true ->
  FrameDecoder.scanTerminator (b :: rest) i = FrameDecoder.scanTerminator rest (i + 1).
Proof. intros H. cbn [FrameDecoder.scanTerminator]. rewrite H. reflexivity. Qed.

Lemma scan_skips_nonzero (b : Z) (rest : Buffer) (i : Z) :
  b <> 0 ->
  FrameDecoder.scanTerminator (b :: rest) i = FrameDecoder.scanTerminator rest (i + 1).
Proof.
  intros Hb. cbn [FrameDecoder.scanTerminator].
  destruct (FrameDecoder.scanContinues (b :: rest)) eqn:Hc; [reflexivity |].
  apply scanContinues_false in Hc. destruct Hc as (H0 & _). cbn in H0. congruence.
Qed.

Lemma scan_skips_before_nonzero (b : Z) (rest : Buffer) (i : Z) :
  b <> 0 ->
  FrameDecoder.scanTerminator (0 :: b :: rest) i = FrameDecoder.scanTerminator (b :: rest) (i + 1).
Proof.
  intros Hb. cbn [FrameDecoder.scanTerminator].
  destruct (FrameDecoder.scanContinues (0 :: b :: rest)) eqn:Hc; [reflexivity |].
  apply scanContinues_false in Hc. destruct Hc as (_ & H1 & _). cbn in H1. congruence.
Qed.

(** The loop runs over the bytes of a text whose characters have a non-zero
    low byte and a zero high byte, and stops at the two zero bytes after it
    when a non-zero byte (or nothing) follows them. *)
Lemma scan_over_text (s : JSString) (tail : Buffer) (i : Z) :
  Forall (fun c => 0 < c < 256) s -> nth_error tail 0 <> Some 0 ->
  FrameDecoder.scanTerminator (utf16le s ++ 0 :: 0 :: tail) i
  = Some (i + 2 * Z.of_nat (length s)).
Proof.
  intros Hs Htail. rewrite (utf16le_small s Hs). revert i.
  induction Hs as [| c rest Hc Hrest IH]; intros i.
  - cbn [flat_map app length FrameDecoder.scanTerminator].
    assert (Hstop : FrameDecoder.scanContinues (0 :: 0 :: tail) = false).
    { apply scanContinues_false. repeat split. exact Htail. }
    rewrite Hstop. f_equal. lia.
  - cbn [flat_map app length].
    rewrite scan_skips_nonzero by lia.
    destruct rest as [| c' rest'].
    + cbn [flat_map app] in *.
      assert (Hgo : FrameDecoder.scanContinues (0 :: 0 :: 0 :: tail) = true).
      { destruct (FrameDecoder.scanContinues (0 :: 0 :: 0 :: tail)) eqn:Hc0; [reflexivity |].
        apply scanContinues_false in Hc0. destruct Hc0 as (_ & _ & H2). cbn in H2. congruence. }
      rewrite (scan_step 0 (0 :: 0 :: tail) (i + 1) Hgo).
      rewrite (IH (i + 1 + 1)). f_equal. cbn [length]. lia.
    + cbn [flat_map app] in *. inversion Hrest as [| ? ? Hc' _]; subst.
      rewrite scan_skips_before_nonzero by lia.
      rewrite (IH (i + 1 + 1)). f_equal. cbn [length]. lia.
Qed.

Lemma units_le_utf16le (s : JSString) : Iconv.units_le (utf16le s) = s.
Proof.
  induction s as [| c rest IH]; [reflexivity |].
  unfold utf16le in *. cbn [flat_map app Iconv.units_le]. rewrite IH. f_equal.
  pose proof (Z.div_mod c 256 ltac:(lia)). lia.
Qed.

Lemma strip_nul_nonzero (s : JSString) :
  Forall (fun c => c <> 0) s -> JS.strip_nul s = s.
Proof.
  induction 1 as [| c rest Hc _ IH]; [reflexivity |].
  unfold JS.strip_nul in *. cbn [filter].
  destruct (Z.eqb_spec c 0); [contradiction |]. cbn [negb]. rewrite IH. reflexivity.
Qed.

(** Decoding what [iconv.encode(s, "utf16")] wrote gives [s] back when [s]
    has no NUL character. *)
Lemma decodeUtf16_encoded (s : JSString) :
  Forall (fun c => c <> 0) s -> FrameDecoder.decodeUtf16 (255 :: 254 :: utf16le s) = s.
Proof.
  intros Hs. unfold FrameDecoder.decodeUtf16, Iconv.decode_utf16.
  change (Iconv.detectEncoding (255 :: 254 :: utf16le s)) with Iconv.LittleEndian.
  cbn [Iconv.units_le]. rewrite units_le_utf16le.
  change (255 + 256 * 254) with 65279. cbn [Iconv.stripBOM].
  apply strip_nul_nonzero. exact Hs.
Qed.

Lemma Forall_nonzero_of_small (s : JSString) :
  Forall (fun c => 0 < c < 256) s -> Forall (fun c => c <> 0) s.
Proof. apply Forall_impl. intros c Hc. lia. Qed.

Lemma slice_app_middle (a b c : Buffer) :
  NodeBuffer.slice (a ++ b ++ c) (Z.of_nat (length a)) (Z.of_nat (length a + length b)) = b.
Proof.
  unfold NodeBuffer.slice, JS.clamp. rewrite !length_app.
  replace (Z.to_nat (Z.max 0 (Z.min (Z.of_nat (length a + (length b + length c)))
                               (Z.of_nat (length a))))) with (length a) by lia.
  replace (Z.to_nat (_ - _)) with (length b) by lia.
  rewrite skipn_app, skipn_all, Nat.sub_diag. cbn [app skipn].
  rewrite firstn_app, firstn_all, Nat.sub_diag. cbn [firstn]. apply app_nil_r.
Qed.

(** The three places the decoders read in a payload made of a prefix, a
    short text, two zero bytes and a text. *)
Lemma payload_parts (pre b V : Buffer) (i : Z) :
  i = Z.of_nat (length pre + length b) ->
  NodeBuffer.get (pre ++ b ++ 0 :: 0 :: V) i = Some 0 /\
  NodeBuffer.slice (pre ++ b ++ 0 :: 0 :: V) (Z.of_nat (length pre)) i = b /\
  NodeBuffer.slice_from (pre ++ b ++ 0 :: 0 :: V) (i + 2) = V.
Proof.
  intros ->. repeat split.
  - rewrite get_nat, app_assoc, nth_error_app2 by (rewrite length_app; lia).
    rewrite length_app, Nat.sub_diag. reflexivity.
  - apply slice_app_middle.
  - replace (pre ++ b ++ 0 :: 0 :: V) with ((pre ++ b ++ [0; 0]) ++ V)
      by (rewrite <- !app_assoc; reflexivity).
    replace (Z.of_nat (length pre + length b) + 2)
      with (Z.of_nat (length (pre ++ b ++ [0; 0])))
      by (rewrite !length_app; cbn [length]; lia).
    apply slice_from_app.
Qed.

Lemma readUserDefinedTextFrame_encoded (desc : JSString) (V : Buffer) :
  Forall (fun c => 0 < c < 256) desc -> nth_error V 0 <> Some 0 ->
  FrameDecoder.readUserDefinedTextFrame (1 :: 255 :: 254 :: utf16le desc ++ 0 :: 0 :: V)
  = Return (Some (mkUserDefinedText (Some desc) (Some (FrameDecoder.decodeUtf16 V)))).
Proof.
  intros Hdesc HV. unfold FrameDecoder.readUserDefinedTextFrame.
  set (data := 1 :: 255 :: 254 :: utf16le desc ++ 0 :: 0 :: V).
  change (NodeBuffer.get data 0) with (Some 1).
  assert (Hscan : FrameDecoder.scanTerminator data 0
                  = Some (3 + 2 * Z.of_nat (length desc))).
  { unfold data. rewrite !scan_skips_nonzero by lia.
    rewrite (scan_over_text desc V _ Hdesc HV). f_equal. }
  rewrite Hscan.
  destruct (payload_parts [1] (255 :: 254 :: utf16le desc) V (3 + 2 * Z.of_nat (length desc)))
    as (Hget & Hslice & Hfrom).
  { cbn [length]. rewrite utf16le_length. lia. }
  change ([1] ++ (255 :: 254 :: utf16le desc) ++ 0 :: 0 :: V) with data in *.
  change (Z.of_nat (length [1])) with 1 in Hslice.
  rewrite Hget, Hslice, Hfrom.
  rewrite (decodeUtf16_encoded desc (Forall_nonzero_of_small desc Hdesc)). reflexivity.
Qed.

(** X10: a user-defined text entry reads back from the frame the encoder
    builds for it: for a description whose characters are between U+0001 and
    U+00FF and a value without NUL characters, readUserDefinedTextFrame on the
    payload written by createUserDefinedTextFrame returns the description and
    the value. *)
Theorem userDefinedText_frame_round_trip (desc val : JSString) :
  Forall (fun c => 0 < c < 256) desc -> Forall (fun c => c <> 0) val ->
  7 + 2 * Z.of_nat (length desc) + 2 * Z.of_nat (length val) < 2 ^ 32 ->
  exists frame,
    FrameEncoder.createUserDefinedTextFrame
      (VUserDefinedText (mkUserDefinedText (Some desc) (Some val)))
    = Return (Some frame) /\
    FrameDecoder.readUserDefinedTextFrame (NodeBuffer.slice_from frame 10)
    = Return (Some (mkUserDefinedText (Some desc) (Some val))).
Proof.
  intros Hdesc Hval Hfit.
  set (data := mkSpecialText (Some val) None (Some desc)).
  assert (Hpayload : specialTextPayload "TXXX" data
                     = 1 :: 255 :: 254 :: utf16le desc ++ 0 :: 0 :: 255 :: 254 :: utf16le val).
  { unfold specialTextPayload. rewrite contentDescriptor_bytes, encode_utf16_bytes.
    cbn [String.eqb Ascii.eqb Bool.eqb andb app shortText text data JS.or_empty].
    rewrite <- app_assoc. reflexivity. }
  destruct (createSpecialTextFrame_returns "TXXX" data) as (header & Hf & Hlen & _).
  { rewrite Hpayload. cbn [length]. rewrite length_app. cbn [length].
    rewrite !utf16le_length. lia. }
  exists (header ++ specialTextPayload "TXXX" data). split.
  - cbn [FrameEncoder.createUserDefinedTextFrame FrameEncoder.userDefinedTextLoop
         value description].
    fold data. rewrite Hf. reflexivity.
  - replace 10 with (Z.of_nat (length header)) by lia.
    rewrite slice_from_app, Hpayload.
    rewrite readUserDefinedTextFrame_encoded; [| exact Hdesc | discriminate].
    rewrite (decodeUtf16_encoded val Hval). reflexivity.
Qed.

Lemma userDefinedText_frame_round_trip_witness :
  exists frame,
    FrameEncoder.createUserDefinedTextFrame
      (VUserDefinedText (mkUserDefinedText (Some [97; 98]) (Some [49; 8364])))
    = Return (Some frame) /\
    FrameDecoder.readUserDefinedTextFrame (NodeBuffer.slice_from frame 10)
    = Return (Some (mkUserDefinedText (Some [97; 98]) (Some [49; 8364]))).
Proof.
  apply (userDefinedText_frame_round_trip [97; 98] [49; 8364]).
  - repeat constructor.
  - repeat constructor; discriminate.
  - vm_compute. reflexivity.
Defined.






Lemma createTextFrame_returns (frameName : string) (s : JSString) :
  3 + 2 * Z.of_nat (length s) < 2 ^ 32 ->
  exists header,
    FrameEncoder.createTextFrame frameName s
    = Return (header ++ 1 :: 255 :: 254 :: utf16le s) /\
    length header = 10%nat.
Proof.
  intros Hfit. unfold FrameEncoder.createTextFrame.
  change (NodeBuffer.alloc 10 0) with (Return (repeat 0 10)).
  change (NodeBuffer.alloc 1 1) with (Return [1]).
  cbn [bind]. rewrite encode_utf16_bytes.
  destruct (frame_header_size frameName
              (Z.of_nat (length (255 :: 254 :: utf16le s)) + 1) []) as (header & Hw & Hlen & _).
  { cbn [length]. rewrite utf16le_length. lia. }
  rewrite Hw. cbn [bind]. exists header. split; [| exact Hlen].
  rewrite concat_three. reflexivity.
Qed.

Lemma slice_from_1 (b : Z) (rest : Buffer) : NodeBuffer.slice_from (b :: rest) 1 = rest.
Proof. apply (slice_from_app [b] rest). Qed.

(** X12: a text frame reads back from the frame the encoder builds for it:
    decodeFrames, given the identifier and the payload written by
    createTextFrame for a text without NUL characters, returns that text,
    stored under the alias that convertNameToAlias gives the identifier (the
    key "undefined" when it gives none). *)
Theorem text_frame_round_trip (name : string) (s : JSString) (version : Z) :
  FrameDefinitions.isTextFrame name = true ->
  Forall (fun c => c <> 0) s ->
  3 + 2 * Z.of_nat (length s) < 2 ^ 32 ->
  exists frame,
    FrameEncoder.createTextFrame name s = Return frame /\
    FrameDecoder.decodeFrames [mkDecodedFrame name (NodeBuffer.slice_from frame 10)] version
    = Return [(FrameDecoder.propertyKey (FrameDefinitions.convertNameToAlias name),
               VString s)].
Proof.
  intros Htext Hs Hfit.
  destruct (createTextFrame_returns name s Hfit) as (header & Hf & Hlen).
  eexists. split; [exact Hf |].
  replace 10 with (Z.of_nat (length header)) by lia. rewrite slice_from_app.
  unfold FrameDecoder.decodeFrames. cbn [FrameDecoder.decodeFramesFrom frameName body].
  unfold FrameDefinitions.isTextFrame in Htext. rewrite Htext.
  change (NodeBuffer.get (1 :: 255 :: 254 :: utf16le s) 0) with (Some 1).
  cbv iota. rewrite slice_from_1.
  change (JS.strip_nul (Iconv.decode_utf16 (255 :: 254 :: utf16le s)))
    with (FrameDecoder.decodeUtf16 (255 :: 254 :: utf16le s)).
  rewrite (decodeUtf16_encoded s Hs). reflexivity.
Qed.

Lemma text_frame_round_trip_witness :
  exists frame,
    FrameEncoder.createTextFrame "TT2" (JS.of_ascii "Hello") = Return frame /\
    FrameDecoder.decodeFrames [mkDecodedFrame "TT2" (NodeBuffer.slice_from frame 10)] 2
    = Return [(FrameDecoder.propertyKey (FrameDefinitions.convertNameToAlias "TT2"),
               VString (JS.of_ascii "Hello"))].
Proof.
  apply (text_frame_round_trip "TT2" (JS.of_ascii "Hello") 2).
  - reflexivity.
  - repeat constructor; discriminate.
  - vm_compute. reflexivity.
Defined.

Lemma createSpecialTextFrame_payload (name : string) (data : ISpecialTextFrame) (frame : Buffer) :
  FrameEncoder.createSpecialTextFrame name data = Return frame ->
  NodeBuffer.slice_from frame 10 = specialTextPayload name data.
Proof.
  intros Hf.
  destruct (Z.lt_ge_cases (Z.of_nat (length (specialTextPayload name data))) (2 ^ 32))
    as [Hfit | Hbig].
  - destruct (createSpecialTextFrame_returns name data Hfit) as (header & Hr & Hlen & _).
    rewrite Hr in Hf. injection Hf as <-.
    replace 10 with (Z.of_nat (length header)) by lia. apply slice_from_app.
  - exfalso. revert Hf. unfold FrameEncoder.createSpecialTextFrame.
    change (NodeBuffer.alloc 10 0) with (Return (repeat 0 10)). cbn [bind]. cbv zeta.
    match goal with |- context [FrameEncoder.total_length ?bs] =>
      assert (Hbs : List.concat bs = specialTextPayload name data);
      [| set (buffers := bs) in * ]
    end.
    { unfold specialTextPayload, contentDescriptor.
      destruct (String.eqb name "TXXX"), (JS.truthy (shortText data));
        cbn [negb app List.concat]; rewrite ?concat_pair, ?app_nil_r; reflexivity. }
    rewrite total_length_concat, Hbs.
    unfold NodeBuffer.writeUInt32BE, NodeBuffer.writeUIntBE.
    change (256 ^ Z.of_nat 4) with (2 ^ 32).
    destruct (Z.leb_spec (2 ^ 32) (Z.of_nat (length (specialTextPayload name data))));
      [| lia].
    rewrite orb_true_r. cbn [bind]. discriminate.
Qed.

Lemma decode_userDefinedText_step (payload : Buffer) (rest : list IDecodedFrame) (version : Z)
  (decoded : IFrames) (d : IUserDefinedTextFrame) (l : list IUserDefinedTextFrame) :
  FrameDecoder.readUserDefinedTextFrame payload = Return (Some d) ->
  (JS.get decoded "userDefinedText" = None /\ l = []
   \/ JS.get decoded "userDefinedText" = Some (VUserDefinedTexts l)) ->
  FrameDecoder.decodeFramesFrom (mkDecodedFrame "TXXX" payload :: rest) version decoded
  = FrameDecoder.decodeFramesFrom rest version
      (JS.set decoded "userDefinedText" (VUserDefinedTexts (l ++ [d]))).
Proof.
  intros Hread Hget. cbn [FrameDecoder.decodeFramesFrom frameName body].
  change (FrameDefinitions.starts_with_T "TXXX" && negb (String.eqb "TXXX" "TXXX")) with false.
  cbv iota. unfold FrameDecoder.readSpecialFrame.
  change (String.eqb "TXXX" "COMM" || String.eqb "TXXX" "USLT") with false.
  change (String.eqb "TXXX" "PIC" || String.eqb "TXXX" "APIC") with false.
  change (String.eqb "TXXX" "TXXX") with true. cbv iota.
  rewrite Hread. cbn [bind].
  change (FrameDecoder.propertyKey (FrameDefinitions.convertNameToAlias "TXXX"))
    with "userDefinedText".
  change (FrameDefinitions.canHaveMultipleEntries "TXXX") with true. cbv iota.
  destruct Hget as [[-> ->] | ->]; reflexivity.
Qed.

Lemma readable_entry_reads_back (entry : IUserDefinedTextFrame) (frame : Buffer) :
  readableEntry entry -> userDefinedTextFrame entry = Return frame ->
  FrameDecoder.readUserDefinedTextFrame (NodeBuffer.slice_from frame 10) = Return (Some entry).
Proof.
  intros (desc & val & -> & Hdesc & Hval) Hf. unfold userDefinedTextFrame in Hf.
  rewrite (createSpecialTextFrame_payload _ _ _ Hf).
  unfold specialTextPayload. rewrite contentDescriptor_bytes, encode_utf16_bytes.
  cbn [String.eqb Ascii.eqb Bool.eqb andb app shortText text value description JS.or_empty].
  rewrite <- app_assoc. cbn [app].
  rewrite readUserDefinedTextFrame_encoded; [| exact Hdesc | discriminate].
  rewrite (decodeUtf16_encoded val Hval). reflexivity.
Qed.

Lemma decode_userDefinedText_frames (entries : list IUserDefinedTextFrame)
  (frames : list Buffer) (version : Z) :
  Forall2 (fun entry frame => readableEntry entry /\ userDefinedTextFrame entry = Return frame)
    entries frames ->
  forall acc,
    FrameDecoder.decodeFramesFrom
      (map (fun frame => mkDecodedFrame "TXXX" (NodeBuffer.slice_from frame 10)) frames)
      version [("userDefinedText", VUserDefinedTexts acc)]
    = Return [("userDefinedText", VUserDefinedTexts (acc ++ entries))].
Proof.
  induction 1 as [| entry frame entries frames [Hr Hf] _ IH]; intros acc.
  - cbn. rewrite app_nil_r. reflexivity.
  - cbn [map].
    rewrite (decode_userDefinedText_step _ _ _ _ entry acc
               (readable_entry_reads_back entry frame Hr Hf))
      by (right; reflexivity).
    change (JS.set [("userDefinedText", VUserDefinedTexts acc)] "userDefinedText"
              (VUserDefinedTexts (acc ++ [entry])))
      with [("userDefinedText", VUserDefinedTexts (acc ++ [entry]))].
    rewrite IH, <- app_assoc. reflexivity.
Qed.

(** X13: decodeFrames gathers the user-defined text frames of a tag into one
    sequence under the alias userDefinedText, in the order of the frames: the
    TXXX frames that the encoder builds for a non-empty sequence of readable
    entries decode to that sequence. *)
Theorem userDefinedText_frames_accumulate (entries : list IUserDefinedTextFrame)
  (frames : list Buffer) (version : Z) :
  entries <> [] ->
  Forall2 (fun entry frame => readableEntry entry /\ userDefinedTextFrame entry = Return frame)
    entries frames ->
  FrameDecoder.decodeFrames
    (map (fun frame => mkDecodedFrame "TXXX" (NodeBuffer.slice_from frame 10)) frames) version
  = Return [("userDefinedText", VUserDefinedTexts entries)].
Proof.
  intros Hne H. destruct H as [| entry frame entries frames [Hr Hf] Hrest]; [congruence |].
  unfold FrameDecoder.decodeFrames. cbn [map].
  rewrite (decode_userDefinedText_step _ _ _ _ entry []
             (readable_entry_reads_back entry frame Hr Hf))
    by (left; split; reflexivity).
  change (JS.set [] "userDefinedText" (VUserDefinedTexts ([] ++ [entry])))
    with [("userDefinedText", VUserDefinedTexts [entry])].
  rewrite (decode_userDefinedText_frames entries frames version Hrest). reflexivity.
Qed.

Lemma userDefinedText_frames_accumulate_witness :
  FrameDecoder.decodeFrames
    (map (fun frame => mkDecodedFrame "TXXX" (NodeBuffer.slice_from frame 10))
       [frameA1; frameB2]) 3
  = Return [("userDefinedText",
             VUserDefinedTexts
               [ mkUserDefinedText (Some (JS.of_ascii "a")) (Some (JS.of_ascii "1"));
                 mkUserDefinedText (Some (JS.of_ascii "b")) (Some (JS.of_ascii "2")) ])].
Proof.
  apply (userDefinedText_frames_accumulate
           [ mkUserDefinedText (Some (JS.of_ascii "a")) (Some (JS.of_ascii "1"));
             mkUserDefinedText (Some (JS.of_ascii "b")) (Some (JS.of_ascii "2")) ]
           [frameA1; frameB2] 3).
  - discriminate.
  - repeat constructor.
    + exists (JS.of_ascii "a"), (JS.of_ascii "1").
      split; [reflexivity |]. split; repeat constructor; discriminate.
    + exists (JS.of_ascii "b"), (JS.of_ascii "2").
      split; [reflexivity |]. split; repeat constructor; discriminate.
Defined.

(** ** Latin-1 user-defined text *)

Lemma indexOf_at_zero_found (desc rest : Buffer) (pos : Z) :
  Forall (fun c => c <> 0) desc ->
  NodeBuffer.indexOf_at [0] (desc ++ 0 :: rest) pos = pos + Z.of_nat (length desc).
Proof.
  intros H. revert pos. induction H as [| c desc Hc _ IH]; intros pos.
  - cbn. lia.
  - cbn [app NodeBuffer.indexOf_at NodeBuffer.starts_with length].
    destruct (Z.eqb_spec 0 c); [congruence |]. cbn [andb]. rewrite IH. lia.
Qed.

Lemma indexOf_at_zero_none (body : Buffer) (pos : Z) :
  Forall (fun c => c <> 0) body -> NodeBuffer.indexOf_at [0] body pos = -1.
Proof.
  intros H. revert pos. induction H as [| c body Hc _ IH]; intros pos; [reflexivity |].
  cbn [NodeBuffer.indexOf_at NodeBuffer.starts_with].
  destruct (Z.eqb_spec 0 c); [congruence |]. cbn [andb]. apply IH.
Qed.

Lemma substring_app_middle (a b c : JSString) :
  JS.substring (a ++ b ++ c) (Z.of_nat (length a)) (Z.of_nat (length a + length b)) = b.
Proof.
  unfold JS.substring, JS.clamp. rewrite !length_app.
  replace (Z.to_nat (Z.min _ _)) with (length a) by lia.
  replace (Z.to_nat (_ - _)) with (length b) by lia.
  rewrite skipn_app, skipn_all, Nat.sub_diag. cbn [app skipn].
  rewrite firstn_app, firstn_all, Nat.sub_diag. cbn [firstn]. apply app_nil_r.
Qed.

Lemma substring_from_app (a b : JSString) :
  JS.substring_from (a ++ b) (Z.of_nat (length a)) = b.
Proof.
  unfold JS.substring_from, JS.substring, JS.clamp. rewrite !length_app.
  replace (Z.to_nat (Z.min _ _)) with (length a) by lia.
  replace (Z.to_nat (_ - _)) with (length b) by lia.
  rewrite skipn_app, skipn_all, Nat.sub_diag. cbn [app skipn]. apply firstn_all.
Qed.

(** X14: on a payload with encoding byte 0, readUserDefinedTextFrame takes the
    bytes up to the first zero byte as the description and what follows it,
    without its NUL characters, as the value.  When no zero byte ends the
    description, the description is read as the empty string and all the bytes
    as the value. *)
Theorem readUserDefinedTextFrame_latin1 (desc val : Buffer) :
  Forall (fun c => c <> 0) desc ->
  FrameDecoder.readUserDefinedTextFrame (0 :: desc ++ 0 :: val)
  = Return (Some (mkUserDefinedText (Some desc) (Some (JS.strip_nul val)))) /\
  FrameDecoder.readUserDefinedTextFrame (0 :: desc)
  = Return (Some (mkUserDefinedText (Some []) (Some desc))).
Proof.
  intros Hdesc. unfold FrameDecoder.readUserDefinedTextFrame, Iconv.decode_latin1. split.
  - change (NodeBuffer.get (0 :: desc ++ 0 :: val) 0) with (Some 0). cbv iota zeta.
    unfold NodeBuffer.indexOf_from. change (Z.to_nat 1) with 1%nat. cbn [skipn].
    rewrite (indexOf_at_zero_found desc val 1 Hdesc).
    pose proof (substring_app_middle [0] desc (0 :: val)) as Hd.
    cbn [length app] in Hd. replace (Z.of_nat (1 + length desc)) with (1 + Z.of_nat (length desc)) in Hd by lia.
    change (Z.of_nat 1) with 1 in Hd. rewrite Hd.
    pose proof (substring_from_app (0 :: desc ++ [0]) val) as Hv.
    rewrite <- app_comm_cons, <- app_assoc in Hv. cbn [app] in Hv.
    replace (Z.of_nat (length (0 :: desc ++ [0]))) with (1 + Z.of_nat (length desc) + 1) in Hv
      by (cbn [length]; rewrite length_app; cbn [length]; lia).
    rewrite Hv, (strip_nul_nonzero desc Hdesc). reflexivity.
  - change (NodeBuffer.get (0 :: desc) 0) with (Some 0). cbv iota zeta.
    unfold NodeBuffer.indexOf_from. change (Z.to_nat 1) with 1%nat. cbn [skipn].
    rewrite (indexOf_at_zero_none desc 1 Hdesc).
    assert (Hd : JS.substring (0 :: desc) 1 (-1) = [0]).
    { unfold JS.substring, JS.clamp. cbn [length].
      replace (Z.to_nat (Z.min _ _)) with 0%nat by lia.
      replace (Z.to_nat (_ - _)) with 1%nat by lia. reflexivity. }
    assert (Hv : JS.substring_from (0 :: desc) (-1 + 1) = 0 :: desc).
    { apply (substring_from_app [] (0 :: desc)). }
    rewrite Hd, Hv. unfold JS.strip_nul at 1. cbn [filter Z.eqb negb].
    unfold JS.strip_nul. cbn [filter Z.eqb negb].
    fold (JS.strip_nul desc). rewrite (strip_nul_nonzero desc Hdesc). reflexivity.
Qed.

Lemma readUserDefinedTextFrame_latin1_witness :
  FrameDecoder.readUserDefinedTextFrame (0 :: [97; 98] ++ 0 :: [49; 0; 50])
  = Return (Some (mkUserDefinedText (Some [97; 98]) (Some (JS.strip_nul [49; 0; 50])))) /\
  FrameDecoder.readUserDefinedTextFrame (0 :: [97; 98])
  = Return (Some (mkUserDefinedText (Some []) (Some [97; 98]))).
Proof.
  apply (readUserDefinedTextFrame_latin1 [97; 98] [49; 0; 50]).
  repeat constructor; discriminate.
Defined.

(** ** Objects: flipObject and the spread of update *)

Lemma get_app {V : Type} (a b : JS.object V) (k : string) :
  JS.get (a ++ b) k = match JS.get a k with Some v => Some v | None => JS.get b k end.
Proof.
  induction a as [| [k' v'] a IH]; [reflexivity |].
  cbn [app JS.get]. destruct (String.eqb k' k); [reflexivity | exact IH].
Qed.

Lemma get_absent {V : Type} (o : JS.object V) (k : string) :
  ~ In k (map fst o) -> JS.get o k = None.
Proof.
  induction o as [| [k' v'] o IH]; intros Hnot; [reflexivity |].
  cbn [JS.get]. destruct (String.eqb_spec k' k) as [-> | Hne].
  - exfalso. apply Hnot. left. reflexivity.
  - apply IH. intros Hin. apply Hnot. right. exact Hin.
Qed.


Lemma set_absent {V : Type} (o : JS.object V) (k : string) (v : V) :
  JS.get o k = None -> JS.set o k v = o ++ [(k, v)].
Proof.
  induction o as [| [k' v'] o IH]; intros Hget; [reflexivity |].
  cbn [JS.get] in Hget. cbn [JS.set app].
  destruct (String.eqb k' k); [discriminate |]. rewrite (IH Hget). reflexivity.
Qed.

Lemma fold_set_fresh {V : Type} (l acc : JS.object V) :
  NoDup (map fst l) -> (forall k, In k (map fst l) -> JS.get acc k = None) ->
  fold_left (fun o kv => JS.set o (fst kv) (snd kv)) l acc = acc ++ l.
Proof.
  revert acc. induction l as [| [k v] l IH]; intros acc Hnd Hfresh.
  - cbn. rewrite app_nil_r. reflexivity.
  - cbn [map fst] in Hnd. inversion Hnd as [| ? ? Hnot Hnd']; subst.
    cbn [fold_left fst snd].
    rewrite (set_absent acc k v) by (apply Hfresh; left; reflexivity).
    rewrite IH; [rewrite <- app_assoc; reflexivity | exact Hnd' |].
    intros k' Hin. rewrite get_app, (Hfresh k') by (right; exact Hin).
    cbn [JS.get]. destruct (String.eqb_spec k k') as [-> | _]; [contradiction | reflexivity].
Qed.




(** X16: on a buffer in which no tag is located, update does what write does:
    the mapping read is empty, and spreading the given properties over it
    gives them back (their aliases being pairwise distinct, as the keys of an
    object are). *)
Theorem update_without_tag (checked : bool) (frames : IFrames) (fileBuffer : Buffer) :
  NodeID3.getFramePosition fileBuffer = -1 -> NoDup (map fst frames) ->
  NodeID3.update checked frames fileBuffer = NodeID3.write fileBuffer frames /\
  NodeID3.update checked frames fileBuffer
  = (created <- NodeID3.create frames ;; Return (created ++ fileBuffer)).
Proof.
  intros Hpos Hnd.
  assert (Hu : NodeID3.update checked frames fileBuffer = NodeID3.write fileBuffer frames).
  { unfold NodeID3.update. rewrite (read_no_tag checked fileBuffer Hpos). cbn [bind].
    unfold JS.spread. rewrite fold_set_fresh; [reflexivity | exact Hnd |].
    intros k _. reflexivity. }
  split; [exact Hu |]. rewrite Hu. unfold NodeID3.write.
  rewrite (remove_no_tag fileBuffer Hpos).
  destruct (NodeID3.create frames) as [created | e | |]; cbn [bind]; try reflexivity.
  rewrite concat_pair. reflexivity.
Qed.

Lemma update_without_tag_witness :
  NodeID3.update true titleHello [1; 2; 3] = NodeID3.write [1; 2; 3] titleHello /\
  NodeID3.update true titleHello [1; 2; 3]
  = (created <- NodeID3.create titleHello ;; Return (created ++ [1; 2; 3])).
Proof.
  apply (update_without_tag true titleHello [1; 2; 3]).
  - reflexivity.
  - repeat constructor. cbn. intuition.
Defined.

(** ** The alias tables *)

Lemma get_Some_In {V : Type} (o : JS.object V) (k : string) (v : V) :
  JS.get o k = Some v -> In (k, v) o.
Proof.
  induction o as [| [k' v'] o IH]; [discriminate |].
  cbn [JS.get]. destruct (String.eqb_spec k' k) as [-> | _].
  - intros H. injection H as ->. left. reflexivity.
  - intros H. right. exact (IH H).
Qed.

(** X17: every alias of the text table is encoded under its version 2.3
    identifier, which is a text frame identifier; but convertNameToAlias maps
    that identifier back to the alias only when the alias has no version 2.2
    identifier, and to nothing otherwise.  Every version 2.2 identifier is
    mapped to its alias, and no alias is encoded under one. *)
Theorem alias_tables (alias name : string) :
  (JS.get FrameDefinitions.textFrames alias = Some name ->
   FrameDefinitions.convertAliasToName alias = Some name /\
   FrameDefinitions.isTextFrame name = true /\
   FrameDefinitions.convertNameToAlias name
   = match JS.get FrameDefinitions.textFramesV220 alias with
     | Some _ => None
     | None => Some alias
     end) /\
  (JS.get FrameDefinitions.textFramesV220 alias = Some name ->
   FrameDefinitions.convertNameToAlias name = Some alias /\
   FrameDefinitions.isTextFrame name = true /\
   FrameDefinitions.convertAliasToName alias <> Some name).
Proof.
  split; intros Hget; apply get_Some_In in Hget; cbn in Hget;
    repeat (destruct Hget as [Heq | Hget];
            [ injection Heq as <- <-; repeat split; vm_compute; (reflexivity || discriminate) | ]);
    contradiction.
Qed.

Lemma alias_tables_witness :
  (FrameDefinitions.convertAliasToName "title" = Some "TIT2" /\
   FrameDefinitions.isTextFrame "TIT2" = true /\
   FrameDefinitions.convertNameToAlias "TIT2"
   = match JS.get FrameDefinitions.textFramesV220 "title" with
     | Some _ => None
     | None => Some "title"
     end) /\
  (FrameDefinitions.convertNameToAlias "TT2" = Some "title" /\
   FrameDefinitions.isTextFrame "TT2" = true /\
   FrameDefinitions.convertAliasToName "title" <> Some "TT2").
Proof.
  split.
  - apply (proj1 (alias_tables "title" "TIT2")). reflexivity.
  - apply (proj2 (alias_tables "title" "TT2")). reflexivity.
Defined.

(** ** Where read can fail to return *)



(** ** The first marker *)

Lemma indexOf_at_first (needle buf : list Z) (k : nat) (pos : Z) :
  (k < length buf)%nat ->
  NodeBuffer.starts_with needle (skipn k buf) = true ->
  (forall j, (j < k)%nat -> NodeBuffer.starts_with needle (skipn j buf) = false) ->
  NodeBuffer.indexOf_at needle buf pos = pos + Z.of_nat k.
Proof.
  revert buf pos. induction k as [| k IH]; intros buf pos Hlen Hat Hbefore.
  - destruct buf as [| b rest]; [cbn in Hlen; lia |].
    cbn [skipn] in Hat. cbn [NodeBuffer.indexOf_at]. rewrite Hat. lia.
  - destruct buf as [| b rest]; [cbn in Hlen; lia |].
    cbn [NodeBuffer.indexOf_at].
    pose proof (Hbefore 0%nat ltac:(lia)) as H0. cbn [skipn] in H0. rewrite H0.
    rewrite (IH rest (pos + 1)); [lia | cbn [length] in Hlen; lia | exact Hat |].
    intros j Hj. exact (Hbefore (S j) ltac:(lia)).
Qed.

Lemma markerAt_inside (buf : Buffer) (k : nat) : markerAt buf k -> (k < length buf)%nat.
Proof.
  unfold markerAt, markerAtb. intros H.
  destruct (Nat.lt_ge_cases k (length buf)) as [| Hge]; [assumption |].
  rewrite skipn_all2 in H by exact Hge. discriminate.
Qed.

Lemma first_marker_at (buf : Buffer) (k : nat) :
  markerAt buf k -> (forall j, (j < k)%nat -> ~ markerAt buf j) ->
  NodeID3.getFramePosition buf = if (k <=? 20)%nat then Z.of_nat k else -1.
Proof.
  intros Hat Hbefore. unfold NodeID3.getFramePosition, NodeBuffer.indexOf.
  rewrite (indexOf_at_first (ascii_bytes "ID3") buf k 0 (markerAt_inside buf k Hat) Hat).
  - rewrite Z.add_0_l.
    destruct (Z.eqb_spec (Z.of_nat k) (-1)); [lia |].
    destruct (Nat.leb_spec k 20), (Z.ltb_spec 20 (Z.of_nat k)); cbn [orb]; (reflexivity || lia).
  - intros j Hj. specialize (Hbefore j Hj). unfold markerAt, markerAtb, marker in Hbefore.
    destruct (NodeBuffer.starts_with (ascii_bytes "ID3") (skipn j buf)); [| reflexivity].
    exfalso. apply Hbefore. reflexivity.
Qed.


(** X19: the tag that is located is the one at the first marker of the
    buffer, provided that marker starts at an offset of at most 20; a first
    marker further on means that no tag is located, whatever follows it. *)
Theorem first_marker_is_located (buf : Buffer) (k : nat) :
  markerAt buf k -> (forall j, (j < k)%nat -> ~ markerAt buf j) ->
  NodeID3.getFramePosition buf = if (k <=? 20)%nat then Z.of_nat k else -1.
Proof. apply first_marker_at. Qed.

Lemma first_marker_is_located_witness :
  NodeID3.getFramePosition [7; 73; 68; 51; 3] = if (1 <=? 20)%nat then Z.of_nat 1 else -1.
Proof.
  apply (first_marker_is_located [7; 73; 68; 51; 3] 1).
  - reflexivity.
  - intros j Hj. assert (j = 0)%nat as -> by lia. vm_compute. discriminate.
Defined.

(** ** Tags that read takes no frame from *)

(** X20: on a located tag whose header declares fewer than nine bytes, read
    raises a RangeError, and so does update, which reads before it writes. *)
Theorem read_and_update_raise_on_short_tag (checked : bool) (frames : IFrames)
  (fileBuffer : Buffer) :
  NodeID3.getFramePosition fileBuffer <> -1 ->
  declaredSize fileBuffer (NodeID3.getFramePosition fileBuffer) < 9 ->
  NodeID3.read checked fileBuffer = Throw RangeError /\
  NodeID3.update checked frames fileBuffer = Throw RangeError.
Proof.
  intros Hpos Hsize.
  assert (Hr : NodeID3.read checked fileBuffer = Throw RangeError).
  { apply (read_raises_on_short_tag checked fileBuffer _ eq_refl Hpos). exact Hsize. }
  split; [exact Hr |]. unfold NodeID3.update. rewrite Hr. reflexivity.
Qed.

Lemma read_and_update_raise_on_short_tag_witness :
  NodeID3.read true (emptyTag ++ [1; 2; 3]) = Throw RangeError /\
  NodeID3.update true titleHello (emptyTag ++ [1; 2; 3]) = Throw RangeError.
Proof.
  apply (read_and_update_raise_on_short_tag true titleHello (emptyTag ++ [1; 2; 3])).
  - vm_compute. discriminate.
  - vm_compute. reflexivity.
Defined.

Lemma readLoop_stops (checked : bool) (fuel : nat) (ID3FrameBody : Buffer)
  (frameSize ID3Version currentPosition : Z) (frames : list IDecodedFrame) :
  (currentPosition <? frameSize - 10)
  && negb (match NodeBuffer.get ID3FrameBody currentPosition with
           | Some 0 => true
           | _ => false
           end) = false ->
  NodeID3.readLoop checked fuel ID3FrameBody frameSize ID3Version currentPosition frames
  = Return frames.
Proof.
  intros H. destruct fuel; cbn [NodeID3.readLoop]; cbv zeta; rewrite H; reflexivity.
Qed.

(** X21: on a located tag that declares at least nine bytes and whose ten
    header bytes are all in the buffer, read returns the empty mapping when
    the tag declares at most ten bytes, or when the byte after the header is
    a zero byte or is missing: the frame loop takes no frame. *)
Theorem read_padding_is_empty (checked : bool) (fileBuffer : Buffer) (off : Z) :
  NodeID3.getFramePosition fileBuffer = off -> off <> -1 ->
  off + 10 <= Z.of_nat (length fileBuffer) ->
  9 <= declaredSize fileBuffer off ->
  (declaredSize fileBuffer off <= 10
   \/ forall b, NodeBuffer.get fileBuffer (off + 10) = Some b -> b = 0) ->
  NodeID3.read checked fileBuffer = Return [].
Proof.
  intros Hoff Hne Hlen Hsize Hpad.
  destruct (getFramePosition_found fileBuffer off Hoff Hne) as (Hrange & _ & _).
  unfold NodeID3.read. rewrite Hoff.
  destruct (Z.eqb_spec off (-1)) as [| _]; [contradiction |].
  cbv zeta. fold (declaredSize fileBuffer off).
  set (frameSize := declaredSize fileBuffer off) in *.
  unfold NodeBuffer.alloc.
  destruct (Z.ltb_spec (frameSize + 1) 0); [lia |].
  destruct (Z.ltb_spec (frameSize - 10 + 1) 0); [lia |]. cbn [bind].
  unfold NodeBuffer.copy.
  destruct (Z.ltb_spec (Z.of_nat (length fileBuffer)) off); [lia |].
  destruct (Z.ltb_spec (Z.of_nat (length fileBuffer)) (off + 10)); [lia |].
  rewrite !andb_false_r. cbn [bind].
  rewrite readLoop_stops; [reflexivity |].
  destruct Hpad as [Hsmall | Hzero].
  - destruct (Z.ltb_spec 0 (frameSize - 10)); [lia | reflexivity].
  - destruct (Z.ltb_spec 0 (frameSize - 10)) as [Hbig |]; [| reflexivity].
    cbn [andb]. change (Z.to_nat 0) with 0%nat.
    destruct (Z.to_nat (frameSize - 10 + 1)) as [| n] eqn:Hn; [lia |].
    cbn [repeat NodeBuffer.overwrite].
    destruct (skipn (Z.to_nat (off + 10)) fileBuffer) as [| x xs] eqn:Hskip.
    + reflexivity.
    + assert (Hx : NodeBuffer.get fileBuffer (off + 10) = Some x).
      { unfold NodeBuffer.get. destruct (Z.ltb_spec (off + 10) 0); [lia |].
        rewrite <- (Nat.add_0_r (Z.to_nat (off + 10))), <- nth_error_skipn, Hskip.
        reflexivity. }
      rewrite (Hzero x Hx). reflexivity.
Qed.

Lemma read_padding_is_empty_witness :
  NodeID3.read true ([73; 68; 51; 3; 0; 0; 0; 0; 0; 20] ++ repeat 0 20) = Return [].
Proof.
  apply (read_padding_is_empty true ([73; 68; 51; 3; 0; 0; 0; 0; 0; 20] ++ repeat 0 20) 0).
  - reflexivity.
  - lia.
  - vm_compute. discriminate.
  - vm_compute. discriminate.
  - right. intros b Hb. vm_compute in Hb. congruence.
Defined.

(** ** The frame loop on a well-formed body *)

Lemma overwrite_zeros (m : nat) (src : Buffer) :
  NodeBuffer.overwrite (repeat 0 m) 0 src = firstn m src ++ repeat 0 (m - length src).
Proof.
  revert src. induction m as [| m IH]; intros src.
  - cbn. reflexivity.
  - destruct src as [| x xs]; cbn [repeat NodeBuffer.overwrite firstn length app Nat.sub].
    + reflexivity.
    + rewrite IH. reflexivity.
Qed.

Lemma overwrite_zeros_exact (payload rest : Buffer) :
  NodeBuffer.overwrite (repeat 0 (length payload)) 0 (payload ++ rest) = payload.
Proof.
  rewrite overwrite_zeros, firstn_app, firstn_all, Nat.sub_diag, length_app.
  replace (length payload - (length payload + length rest))%nat with 0%nat by lia.
  cbn [firstn repeat]. rewrite !app_nil_r. reflexivity.
Qed.

Lemma copy_inside (checked : bool) (source target : Buffer) (s : nat) :
  (s <= length source)%nat ->
  NodeBuffer.copy checked source target 0 (Z.of_nat s)
  = Return (NodeBuffer.overwrite target 0 (skipn s source)).
Proof.
  intros Hs. unfold NodeBuffer.copy.
  destruct (Z.ltb_spec (Z.of_nat (length source)) (Z.of_nat s)); [lia |].
  rewrite andb_false_r, Nat2Z.id. reflexivity.
Qed.

Lemma skipn_past (pre rest : Buffer) : skipn (length pre) (pre ++ rest) = rest.
Proof. rewrite skipn_app, skipn_all, Nat.sub_diag. reflexivity. Qed.

Lemma not_zero_test (b : Z) :
  b <> 0 -> match Some b with Some 0 => true | _ => false end = false.
Proof. intros Hb. destruct b; [contradiction | reflexivity | reflexivity]. Qed.

Lemma be_bytes_4_entries (L : Z) :
  exists s0 s1 s2 s3,
    NodeBuffer.be_bytes 4 L = [s0; s1; s2; s3] /\
    is_byte s0 /\ is_byte s1 /\ is_byte s2 /\ is_byte s3.
Proof.
  cbn [NodeBuffer.be_bytes]. do 4 eexists. split; [reflexivity |].
  unfold is_byte. repeat split; apply Z.mod_pos_bound; lia.
Qed.

(** One turn of the loop on a well-formed frame that lies inside the body. *)
Lemma readLoop_turn (checked : bool) (fuel : nat) (pre rest : Buffer) (f : RawFrame)
  (frameSize : Z) (acc : list IDecodedFrame) :
  wellFormedFrame f ->
  Z.of_nat (length pre + length (rawFrameBytes f)) + 9 <= frameSize ->
  NodeID3.readLoop checked (S fuel) (pre ++ rawFrameBytes f ++ rest) frameSize 3
    (Z.of_nat (length pre)) acc
  = NodeID3.readLoop checked fuel (pre ++ rawFrameBytes f ++ rest) frameSize 3
      (Z.of_nat (length (pre ++ rawFrameBytes f))) (acc ++ [cutFrame f]).
Proof.
  intros (Hname & Hfirst & Hflags & Hsize) Hfit.
  destruct f as [name flags payload]. cbn [rawName rawFlags rawPayload] in *.
  unfold rawFrameBytes, cutFrame in *. cbn [rawName rawFlags rawPayload] in *.
  destruct (length_4 name Hname) as (a & b & c & d & ->).
  destruct flags as [| f1 [| f2 [| ? ?]]]; try discriminate.
  cbn [nth] in Hfirst.
  set (L := Z.of_nat (length payload)) in *.
  destruct (be_bytes_4_entries L) as (s0 & s1 & s2 & s3 & Hbe & H0 & H1 & H2 & H3).
  pose proof (readUIntBE_be_bytes_4 L ltac:(lia)) as Hread. rewrite Hbe in *.
  cbn [app] in *.
  set (frame := a :: b :: c :: d :: s0 :: s1 :: s2 :: s3 :: f1 :: f2 :: payload) in *.
  set (B := pre ++ frame ++ rest).
  change (pre ++ a :: b :: c :: d :: s0 :: s1 :: s2 :: s3 :: f1 :: f2 :: payload ++ rest)
    with B.
  assert (HlenF : length frame = (10 + length payload)%nat) by reflexivity.
  assert (HlenB : length B = (length pre + (10 + length payload) + length rest)%nat).
  { unfold B. rewrite !length_app, HlenF. lia. }
  cbn [NodeID3.readLoop]. cbv zeta.
  change (3 =? 2) with false. change (2 <? 3) with true. change (3 =? 4) with false.
  cbv iota.
  assert (Hget : NodeBuffer.get B (Z.of_nat (length pre)) = Some a).
  { rewrite get_nat. unfold B. rewrite nth_error_app2, Nat.sub_diag by lia. reflexivity. }
  rewrite Hget, (not_zero_test a Hfirst).
  destruct (Z.ltb_spec (Z.of_nat (length pre)) (frameSize - 10)) as [_ |]; [| lia].
  cbn [andb negb].
  change (NodeBuffer.alloc 10 0) with (Return (repeat 0 10)). cbn [bind].
  rewrite copy_inside by lia. cbn [bind].
  assert (Hsk : skipn (length pre) B = frame ++ rest) by apply skipn_past.
  rewrite Hsk.
  change (NodeBuffer.overwrite (repeat 0 10) 0 (frame ++ rest))
    with [a; b; c; d; s0; s1; s2; s3; f1; f2].
  change (NodeBuffer.get [a; b; c; d; s0; s1; s2; s3; f1; f2] 4) with (Some s0).
  change (NodeBuffer.get [a; b; c; d; s0; s1; s2; s3; f1; f2] 5) with (Some s1).
  change (NodeBuffer.get [a; b; c; d; s0; s1; s2; s3; f1; f2] 6) with (Some s2).
  change (NodeBuffer.get [a; b; c; d; s0; s1; s2; s3; f1; f2] 7) with (Some s3).
  rewrite !entry_of_byte by assumption. rewrite Hread.
  destruct (Z.ltb_spec (frameSize - Z.of_nat (length pre)) L) as [| _]; [lia |].
  unfold NodeBuffer.alloc. destruct (Z.ltb_spec L 0) as [| _]; [lia |]. cbn [bind].
  replace (Z.of_nat (length pre) + 10) with (Z.of_nat (length pre + 10)) by lia.
  rewrite copy_inside by lia. cbn [bind].
  assert (Hskip : skipn (length pre + 10) B = payload ++ rest).
  { unfold B. replace (pre ++ frame ++ rest)
      with ((pre ++ [a; b; c; d; s0; s1; s2; s3; f1; f2]) ++ payload ++ rest)
      by (rewrite <- app_assoc; reflexivity).
    replace (length pre + 10)%nat with (length (pre ++ [a; b; c; d; s0; s1; s2; s3; f1; f2]))
      by (rewrite length_app; reflexivity).
    apply skipn_past. }
  rewrite Hskip. unfold L. rewrite Nat2Z.id, overwrite_zeros_exact.
  change (NodeBuffer.slice [a; b; c; d; s0; s1; s2; s3; f1; f2] 0 4) with [a; b; c; d].
  replace (Z.of_nat (length pre) + (Z.of_nat (length payload) + 10))
    with (Z.of_nat (length (pre ++ frame))) by (rewrite length_app, HlenF; lia).
  reflexivity.
Qed.

Lemma readLoop_cuts (checked : bool) (todo : list RawFrame) :
  forall (fuel : nat) (pre tail : Buffer) (frameSize : Z) (acc : list IDecodedFrame),
    Forall wellFormedFrame todo -> (length todo <= fuel)%nat ->
    Z.of_nat (length pre + length (flat_map rawFrameBytes todo)) + 9 <= frameSize ->
    (frameSize - 10 <= Z.of_nat (length pre + length (flat_map rawFrameBytes todo))
     \/ nth_error tail 0 = Some 0) ->
    NodeID3.readLoop checked fuel (pre ++ flat_map rawFrameBytes todo ++ tail) frameSize 3
      (Z.of_nat (length pre)) acc
    = Return (acc ++ map cutFrame todo).
Proof.
  induction todo as [| f todo IH]; intros fuel pre tail frameSize acc Hwf Hfuel Hfit Hstop.
  - cbn [flat_map map app length] in *. rewrite app_nil_r.
    apply readLoop_stops.
    destruct (Z.ltb_spec (Z.of_nat (length pre)) (frameSize - 10)) as [Hlt |]; [| reflexivity].
    destruct Hstop as [Hend | Hzero]; [lia |].
    cbn [andb]. rewrite get_nat, nth_error_app2, Nat.sub_diag, Hzero by lia. reflexivity.
  - inversion Hwf as [| ? ? Hf Hrest]; subst.
    destruct fuel as [| fuel]; [cbn [length] in Hfuel; lia |].
    cbn [flat_map map] in *. rewrite length_app in Hfit, Hstop.
    rewrite <- app_assoc.
    rewrite readLoop_turn; [| exact Hf | lia].
    rewrite (app_assoc pre (rawFrameBytes f)).
    rewrite IH; [rewrite <- app_assoc; reflexivity | exact Hrest | cbn [length] in Hfuel; lia | |].
    + rewrite length_app. lia.
    + rewrite length_app. destruct Hstop as [Hend | Hzero]; [left; lia | right; exact Hzero].
Qed.

Lemma frames_count (frames : list RawFrame) :
  Forall wellFormedFrame frames ->
  (length frames <= length (flat_map rawFrameBytes frames))%nat.
Proof.
  induction 1 as [| f frames (Hname & _) _ IH]; [reflexivity |].
  cbn [flat_map length]. rewrite length_app. unfold rawFrameBytes at 1.
  rewrite length_app, Hname. lia.
Qed.

Lemma firstn_repeat_zeros (k p : nat) (rest : Buffer) :
  (k <= p)%nat -> firstn k (repeat 0 p ++ rest) = repeat 0 k.
Proof.
  revert p. induction k as [| k IH]; intros p Hk; [reflexivity |].
  destruct p as [| p]; [lia |]. cbn [repeat app firstn]. rewrite IH by lia. reflexivity.
Qed.

Lemma slice_first_10 (x0 x1 x2 x3 x4 x5 x6 x7 x8 x9 : Z) (rest : Buffer) :
  NodeBuffer.slice (x0 :: x1 :: x2 :: x3 :: x4 :: x5 :: x6 :: x7 :: x8 :: x9 :: rest) 0 (0 + 10)
  = [x0; x1; x2; x3; x4; x5; x6; x7; x8; x9].
Proof.
  unfold NodeBuffer.slice, JS.clamp. cbn [length].
  replace (Z.to_nat (_ - _)) with 10%nat by lia.
  replace (Z.to_nat _) with 0%nat by lia. reflexivity.
Qed.

Lemma read_cuts_padded_tag (checked : bool) (revision flags : Z) (frames : list RawFrame)
  (padding : nat) (audio : Buffer) :
  Forall wellFormedFrame frames -> (9 <= padding)%nat ->
  Z.of_nat (length (flat_map rawFrameBytes frames) + padding) < 2 ^ 28 ->
  NodeID3.read checked (tagV23 revision flags frames padding ++ audio)
  = FrameDecoder.decodeFrames (map cutFrame frames) 3.
Proof.
  intros Hwf Hpad Hsmall. unfold tagV23.
  set (FB := flat_map rawFrameBytes frames) in *.
  set (n := Z.of_nat (length FB + padding)) in *.
  rewrite (encodeSize_digits n) by lia.
  pose proof (Z.mod_pos_bound (n / 2 ^ 21) 128 ltac:(lia)) as H0.
  pose proof (Z.mod_pos_bound (n / 2 ^ 14) 128 ltac:(lia)) as H1.
  pose proof (Z.mod_pos_bound (n / 2 ^ 7) 128 ltac:(lia)) as H2.
  pose proof (Z.mod_pos_bound n 128 ltac:(lia)) as H3.
  set (d0 := (n / 2 ^ 21) mod 128) in *. set (d1 := (n / 2 ^ 14) mod 128) in *.
  set (d2 := (n / 2 ^ 7) mod 128) in *. set (d3 := n mod 128) in *.
  set (body := FB ++ repeat 0 padding ++ audio).
  assert (Hbuf : ([73; 68; 51; 3; revision; flags] ++ [d0; d1; d2; d3] ++ FB ++ repeat 0 padding)
                 ++ audio
                 = 73 :: 68 :: 51 :: 3 :: revision :: flags :: d0 :: d1 :: d2 :: d3 :: body).
  { unfold body. cbn [app]. rewrite <- !app_assoc. reflexivity. }
  rewrite Hbuf. set (buf := 73 :: 68 :: 51 :: 3 :: revision :: flags :: d0 :: d1 :: d2 :: d3 :: body).
  unfold NodeID3.read. change (NodeID3.getFramePosition buf) with 0.
  change (0 =? -1) with false. cbv iota zeta.
  assert (Hslice : NodeBuffer.slice buf 0 (0 + 10)
                   = [73; 68; 51; 3; revision; flags; d0; d1; d2; d3])
    by apply slice_first_10.
  rewrite Hslice.
  change (NodeBuffer.get [73; 68; 51; 3; revision; flags; d0; d1; d2; d3] 6) with (Some d0).
  change (NodeBuffer.get [73; 68; 51; 3; revision; flags; d0; d1; d2; d3] 7) with (Some d1).
  change (NodeBuffer.get [73; 68; 51; 3; revision; flags; d0; d1; d2; d3] 8) with (Some d2).
  change (NodeBuffer.get [73; 68; 51; 3; revision; flags; d0; d1; d2; d3] 9) with (Some d3).
  rewrite !entry_of_byte by (unfold is_byte; lia).
  unfold d0, d1, d2, d3. rewrite (decodeSize_of_digits n) by lia.
  unfold NodeBuffer.alloc.
  destruct (Z.ltb_spec (n + 1) 0); [lia |].
  destruct (Z.ltb_spec (n - 10 + 1) 0); [lia |]. cbn [bind].
  rewrite (copy_inside checked buf _ 0) by lia. cbn [bind skipn].
  change (0 + 10) with (Z.of_nat 10).
  rewrite (copy_inside checked buf _ 10) by (unfold buf; cbn [length]; lia). cbn [bind].
  assert (Hversion : nth 3 (NodeBuffer.overwrite (repeat 0 (Z.to_nat (n + 1))) 0 buf) 0 = 3).
  { rewrite overwrite_zeros.
    destruct (Z.to_nat (n + 1)) as [| [| [| [| m]]]] eqn:Hm; try lia. reflexivity. }
  rewrite Hversion.
  assert (Hbody : NodeBuffer.overwrite (repeat 0 (Z.to_nat (n - 10 + 1))) 0 (skipn 10 buf)
                  = [] ++ FB ++ repeat 0 (padding - 9)).
  { change (skipn 10 buf) with body. rewrite overwrite_zeros. unfold body.
    replace (Z.to_nat (n - 10 + 1)) with (length FB + (padding - 9))%nat by lia.
    rewrite firstn_app_2, firstn_repeat_zeros by lia.
    rewrite !length_app, repeat_length.
    replace (length FB + (padding - 9) - (length FB + (padding + length audio)))%nat
      with 0%nat by lia.
    cbn [repeat app]. rewrite app_nil_r. reflexivity. }
  rewrite Hbody.
  pose proof (frames_count frames Hwf) as Hcount.
  change (flat_map rawFrameBytes frames) with FB in Hcount.
  assert (Hloop := readLoop_cuts checked frames (Z.to_nat n) [] (repeat 0 (padding - 9)) n []
                     Hwf).
  change (flat_map rawFrameBytes frames) with FB in Hloop.
  change (Z.of_nat (length (@nil Z))) with 0 in Hloop.
  rewrite Hloop.
  - cbn [bind app]. reflexivity.
  - lia.
  - cbn [length]. lia.
  - cbn [length].
    destruct (Nat.le_gt_cases padding 10) as [Hle | Hgt]; [left; lia | right].
    destruct (padding - 9)%nat as [| k] eqn:Hk; [lia | reflexivity].
Qed.

(** X22: read cuts a version 2.3 tag into its frames: on a tag at the start of
    the buffer whose body is a sequence of well-formed frames followed by at
    least nine zero bytes of padding (the body being shorter than 2^28 bytes),
    read returns what decodeFrames makes of those frames, identifier and
    payload of each, in order.  Revision and flags bytes of the header, the
    flag bytes of the frames and what follows the tag play no part. *)
Theorem read_padded_tag (checked : bool) (revision flags : Z) (frames : list RawFrame)
  (padding : nat) (audio : Buffer) :
  Forall wellFormedFrame frames -> (9 <= padding)%nat ->
  Z.of_nat (length (flat_map rawFrameBytes frames) + padding) < 2 ^ 28 ->
  NodeID3.read checked (tagV23 revision flags frames padding ++ audio)
  = FrameDecoder.decodeFrames (map cutFrame frames) 3.
Proof. apply read_cuts_padded_tag. Qed.

Lemma read_padded_tag_witness :
  NodeID3.read true
    (tagV23 0 0 [mkRawFrame [84; 79; 87; 78] [0; 0] [0; 65; 66]] 9 ++ [1; 2; 3])
  = FrameDecoder.decodeFrames (map cutFrame [mkRawFrame [84; 79; 87; 78] [0; 0] [0; 65; 66]]) 3.
Proof.
  apply (read_padded_tag true 0 0 [mkRawFrame [84; 79; 87; 78] [0; 0] [0; 65; 66]] 9 [1; 2; 3]).
  - repeat constructor. cbn. discriminate.
  - lia.
  - vm_compute. reflexivity.
Defined.

(** ** A text frame in a padded tag *)

Lemma identifier_ascii_bytes (name : string) : NodeBuffer.identifier (ascii_bytes name) = name.
Proof.
  unfold NodeBuffer.identifier, ascii_bytes, JS.of_ascii. rewrite map_map.
  induction name as [| c rest IH]; [reflexivity |].
  cbn [list_ascii_of_string map string_of_list_ascii].
  rewrite Nat2Z.id, ascii_nat_embedding, IH. reflexivity.
Qed.

Lemma text_frame_bytes (name : string) (s : JSString) :
  String.length name = 4%nat -> 3 + 2 * Z.of_nat (length s) < 2 ^ 32 ->
  FrameEncoder.createTextFrame name s
  = Return (rawFrameBytes (mkRawFrame (ascii_bytes name) [0; 0] (1 :: 255 :: 254 :: utf16le s))).
Proof.
  intros Hname Hfit.
  destruct name as [| a [| b [| c [| d [| ? ?]]]]]; try discriminate.
  unfold FrameEncoder.createTextFrame, rawFrameBytes.
  cbn [rawName rawFlags rawPayload].
  change (NodeBuffer.alloc 10 0) with (Return (repeat 0 10)).
  change (NodeBuffer.alloc 1 1) with (Return [1]).
  cbn [bind]. rewrite encode_utf16_bytes.
  set (na := Z.of_nat (nat_of_ascii a)). set (nb := Z.of_nat (nat_of_ascii b)).
  set (nc := Z.of_nat (nat_of_ascii c)). set (nd := Z.of_nat (nat_of_ascii d)).
  change (ascii_bytes (String a (String b (String c (String d ""))))) with [na; nb; nc; nd].
  change (NodeBuffer.write (repeat 0 10) (String a (String b (String c (String d "")))) 0)
    with [na; nb; nc; nd; 0; 0; 0; 0; 0; 0].
  replace (Z.of_nat (length (255 :: 254 :: utf16le s)) + 1)
    with (Z.of_nat (length (1 :: 255 :: 254 :: utf16le s))) by (cbn [length]; lia).
  set (L := Z.of_nat (length (1 :: 255 :: 254 :: utf16le s))).
  assert (HL : 0 <= L < 2 ^ 32).
  { unfold L. cbn [length]. rewrite utf16le_length. lia. }
  unfold NodeBuffer.writeUInt32BE, NodeBuffer.writeUIntBE.
  change (256 ^ Z.of_nat 4) with (2 ^ 32).
  destruct (Z.ltb_spec L 0); [lia |]. destruct (Z.leb_spec (2 ^ 32) L); [lia |].
  cbn [orb length Z.of_nat]. change (Z.to_nat 4) with 4%nat.
  destruct (be_bytes_4_entries L) as (s0 & s1 & s2 & s3 & Hbe & _).
  rewrite Hbe.
  match goal with |- context [if ?c then Throw RangeError else _] => change c with false end.
  cbn [bind NodeBuffer.overwrite]. rewrite concat_three. reflexivity.
Qed.

Lemma decode_text_payload (name : string) (s : JSString) (version : Z) :
  FrameDefinitions.isTextFrame name = true -> Forall (fun c => c <> 0) s ->
  FrameDecoder.decodeFrames [mkDecodedFrame name (1 :: 255 :: 254 :: utf16le s)] version
  = Return [(FrameDecoder.propertyKey (FrameDefinitions.convertNameToAlias name), VString s)].
Proof.
  intros Htext Hs.
  unfold FrameDecoder.decodeFrames. cbn [FrameDecoder.decodeFramesFrom frameName body].
  unfold FrameDefinitions.isTextFrame in Htext. rewrite Htext.
  change (NodeBuffer.get (1 :: 255 :: 254 :: utf16le s) 0) with (Some 1).
  cbv iota. rewrite slice_from_1.
  change (JS.strip_nul (Iconv.decode_utf16 (255 :: 254 :: utf16le s)))
    with (FrameDecoder.decodeUtf16 (255 :: 254 :: utf16le s)).
  rewrite (decodeUtf16_encoded s Hs). reflexivity.
Qed.

(** X23: a text property does read back when the tag has room to spare: put
    the frame that createTextFrame builds for a four-letter text identifier
    and a text without NUL characters in a version 2.3 tag, followed by at
    least nine zero bytes of padding that the size of the tag counts; read
    returns the text, under the alias that convertNameToAlias gives the
    identifier. *)
Theorem text_frame_in_padded_tag (checked : bool) (name : string) (s : JSString)
  (padding : nat) (audio : Buffer) :
  FrameDefinitions.isTextFrame name = true -> String.length name = 4%nat ->
  Forall (fun c => c <> 0) s -> (9 <= padding)%nat ->
  13 + 2 * Z.of_nat (length s) + Z.of_nat padding < 2 ^ 28 ->
  exists frame,
    FrameEncoder.createTextFrame name s = Return frame /\
    NodeID3.read checked
      ([73; 68; 51; 3; 0; 0]
       ++ NodeID3.encodeSize (Z.of_nat (length frame + padding))
       ++ frame ++ repeat 0 padding ++ audio)
    = Return [(FrameDecoder.propertyKey (FrameDefinitions.convertNameToAlias name), VString s)].
Proof.
  intros Htext Hname Hs Hpad Hsmall.
  set (f := mkRawFrame (ascii_bytes name) [0; 0] (1 :: 255 :: 254 :: utf16le s)).
  exists (rawFrameBytes f). split; [apply text_frame_bytes; [exact Hname | lia] |].
  assert (Hlenf : length (rawFrameBytes f) = (13 + 2 * length s)%nat).
  { unfold rawFrameBytes, f. cbn [rawName rawFlags rawPayload].
    assert (Hbe : forall v, length (NodeBuffer.be_bytes 4 v) = 4%nat) by reflexivity.
    rewrite !length_app, Hbe. cbn [length]. rewrite utf16le_length.
    unfold ascii_bytes, JS.of_ascii. rewrite length_map.
    assert (Hl : length (list_ascii_of_string name) = String.length name).
    { clear. induction name as [| c rest IH]; [reflexivity |]. cbn. rewrite IH. reflexivity. }
    rewrite Hl, Hname. lia. }
  assert (Hwf : wellFormedFrame f).
  { unfold wellFormedFrame, f. cbn [rawName rawFlags rawPayload]. repeat split.
    - unfold ascii_bytes, JS.of_ascii. rewrite length_map.
      assert (Hl : length (list_ascii_of_string name) = String.length name).
      { clear. induction name as [| c rest IH]; [reflexivity |]. cbn. rewrite IH. reflexivity. }
      rewrite Hl. exact Hname.
    - unfold FrameDefinitions.isTextFrame, FrameDefinitions.starts_with_T in Htext.
      destruct name as [| c rest]; [discriminate |].
      apply andb_prop in Htext. destruct Htext as [HT _].
      apply Ascii.eqb_eq in HT. subst c. cbn. discriminate.
    - cbn [length]. rewrite utf16le_length. lia. }
  pose proof (read_cuts_padded_tag checked 0 0 [f] padding audio) as Hread.
  unfold tagV23 in Hread. cbn [flat_map map] in Hread. rewrite app_nil_r in Hread.
  rewrite <- !app_assoc in Hread. cbn [app] in *.
  rewrite Hread.
  - unfold cutFrame, f. cbn [rawName rawPayload]. rewrite identifier_ascii_bytes.
    apply decode_text_payload; assumption.
  - repeat constructor; apply Hwf.
  - exact Hpad.
  - rewrite Hlenf. lia.
Qed.

Lemma text_frame_in_padded_tag_witness :
  exists frame,
    FrameEncoder.createTextFrame "TOWN" (JS.of_ascii "Hello") = Return frame /\
    NodeID3.read true
      ([73; 68; 51; 3; 0; 0]
       ++ NodeID3.encodeSize (Z.of_nat (length frame + 9))
       ++ frame ++ repeat 0 9 ++ [1; 2; 3])
    = Return [(FrameDecoder.propertyKey (FrameDefinitions.convertNameToAlias "TOWN"),
               VString (JS.of_ascii "Hello"))].
Proof.
  apply (text_frame_in_padded_tag true "TOWN" (JS.of_ascii "Hello") 9 [1; 2; 3]).
  - reflexivity.
  - reflexivity.
  - repeat constructor; discriminate.
  - lia.
  - vm_compute. reflexivity.
Defined.

(** ** Encoding a mapping piece by piece *)

(** X24: encodeFrames works property by property: the frames of a mapping put
    together from two parts are the frames of the first part followed by the
    frames of the second, and the encoding raises what the first failing part
    raises. *)
Theorem encodeFrames_app (a b : IFrames) :
  FrameEncoder.encodeFrames (a ++ b)
  = (x <- FrameEncoder.encodeFrames a ;;
     y <- FrameEncoder.encodeFrames b ;;
     Return (x ++ y)).
Proof.
  induction a as [| [alias v] a IH].
  - cbn [app FrameEncoder.encodeFrames bind].
    destruct (FrameEncoder.encodeFrames b); reflexivity.
  - cbn [app FrameEncoder.encodeFrames].
    destruct (FrameDefinitions.convertAliasToName alias) as [name |]; [| reflexivity].
    match goal with |- bind ?c _ = _ => destruct c as [pushed | e | |] end;
      cbn [bind]; try reflexivity.
    rewrite IH.
    destruct (FrameEncoder.encodeFrames a) as [x | e | |]; cbn [bind]; try reflexivity.
    destruct (FrameEncoder.encodeFrames b) as [y | e | |]; cbn [bind]; try reflexivity.
    rewrite app_assoc. reflexivity.
Qed.

(** ** Bytes in front of the tag *)

Lemma remove_at_offset (data : Buffer) (off d0 d1 d2 d3 : Z) :
  NodeID3.getFramePosition data = off -> off <> -1 ->
  NodeBuffer.get data (off + 6) = Some d0 -> NodeBuffer.get data (off + 7) = Some d1 ->
  NodeBuffer.get data (off + 8) = Some d2 -> NodeBuffer.get data (off + 9) = Some d3 ->
  0 <= d0 < 128 -> 0 <= d1 < 128 -> 0 <= d2 < 128 -> 0 <= d3 < 128 ->
  NodeID3.remove data
  = NodeID3.IsBuffer
      (NodeBuffer.slice_from data (off + NodeID3.decodeSize [d0; d1; d2; d3] + 10)).
Proof.
  intros Hoff Hne G0 G1 G2 G3 H0 H1 H2 H3. unfold NodeID3.remove. rewrite Hoff.
  destruct (Z.eqb_spec off (-1)) as [| _]; [contradiction |].
  cbv zeta. rewrite G0, G1, G2, G3.
  rewrite !entry_of_byte by (unfold is_byte; lia).
  cbn [nth]. rewrite size_test by (unfold is_byte; lia).
  rewrite !testbit7_below_128 by lia. reflexivity.
Qed.

Lemma get_after (pre rest : Buffer) (i : nat) :
  NodeBuffer.get (pre ++ rest) (Z.of_nat (length pre) + Z.of_nat i) = nth_error rest i.
Proof.
  replace (Z.of_nat (length pre) + Z.of_nat i) with (Z.of_nat (length pre + i)) by lia.
  rewrite get_nat, nth_error_app2 by lia. f_equal. lia.
Qed.

(** X25: remove also drops what stands in front of the tag: when a tag that
    create returned (its body shorter than 2^28 bytes) stands behind at most
    twenty bytes in which no marker starts, remove returns what follows the
    tag, without those bytes. *)
Theorem remove_drops_leading_bytes (frames : IFrames) (junk tag audio : Buffer) :
  NodeID3.create frames = Return tag ->
  Z.of_nat (length tag) - 10 < 2 ^ 28 ->
  (length junk <= 20)%nat ->
  (forall j, (j < length junk)%nat -> ~ markerAt (junk ++ tag ++ audio) j) ->
  NodeID3.getFramePosition (junk ++ tag ++ audio) = Z.of_nat (length junk) /\
  NodeID3.remove (junk ++ tag ++ audio) = NodeID3.IsBuffer audio.
Proof.
  intros Hc Hsmall Hjunk Hfree.
  destruct (create_layout frames tag Hc) as (encoded & _ & Htag).
  set (body := List.concat encoded) in *.
  assert (Hn : 0 <= Z.of_nat (length body) < 2 ^ 28).
  { rewrite Htag in Hsmall. rewrite !length_app in Hsmall.
    change (length (NodeID3.encodeSize (Z.of_nat (length body)))) with 4%nat in Hsmall.
    cbn [length] in Hsmall. lia. }
  assert (Hlen : Z.of_nat (length tag) = Z.of_nat (length body) + 10).
  { rewrite Htag, !length_app.
    change (length (NodeID3.encodeSize (Z.of_nat (length body)))) with 4%nat.
    cbn [length]. lia. }
  rewrite (encodeSize_digits _ Hn) in Htag.
  pose proof (Z.mod_pos_bound (Z.of_nat (length body) / 2 ^ 21) 128 ltac:(lia)) as H0.
  pose proof (Z.mod_pos_bound (Z.of_nat (length body) / 2 ^ 14) 128 ltac:(lia)) as H1.
  pose proof (Z.mod_pos_bound (Z.of_nat (length body) / 2 ^ 7) 128 ltac:(lia)) as H2.
  pose proof (Z.mod_pos_bound (Z.of_nat (length body)) 128 ltac:(lia)) as H3.
  set (d0 := (Z.of_nat (length body) / 2 ^ 21) mod 128) in *.
  set (d1 := (Z.of_nat (length body) / 2 ^ 14) mod 128) in *.
  set (d2 := (Z.of_nat (length body) / 2 ^ 7) mod 128) in *.
  set (d3 := Z.of_nat (length body) mod 128) in *.
  assert (Hshape : tag ++ audio
                   = 73 :: 68 :: 51 :: 3 :: 0 :: 0 :: d0 :: d1 :: d2 :: d3 :: (body ++ audio)).
  { rewrite Htag. reflexivity. }
  assert (Hpos : NodeID3.getFramePosition (junk ++ tag ++ audio) = Z.of_nat (length junk)).
  { rewrite (first_marker_at (junk ++ tag ++ audio) (length junk)).
    - destruct (Nat.leb_spec (length junk) 20); [reflexivity | lia].
    - unfold markerAt, markerAtb. rewrite skipn_past, Hshape. reflexivity.
    - exact Hfree. }
  split; [exact Hpos |].
  rewrite (remove_at_offset (junk ++ tag ++ audio) (Z.of_nat (length junk)) d0 d1 d2 d3);
    try assumption; try lia.
  - unfold d0, d1, d2, d3. rewrite (decodeSize_of_digits _ Hn).
    replace (junk ++ tag ++ audio) with ((junk ++ tag) ++ audio) by (rewrite app_assoc; reflexivity).
    replace (Z.of_nat (length junk) + Z.of_nat (length body) + 10)
      with (Z.of_nat (length (junk ++ tag))) by (rewrite length_app; lia).
    rewrite slice_from_app. reflexivity.
  - change 6 with (Z.of_nat 6). rewrite get_after, Hshape. reflexivity.
  - change 7 with (Z.of_nat 7). rewrite get_after, Hshape. reflexivity.
  - change 8 with (Z.of_nat 8). rewrite get_after, Hshape. reflexivity.
  - change 9 with (Z.of_nat 9). rewrite get_after, Hshape. reflexivity.
Qed.

Lemma remove_drops_leading_bytes_witness :
  NodeID3.getFramePosition ([7; 8] ++ emptyTag ++ [1; 2; 3]) = Z.of_nat (length [7; 8]) /\
  NodeID3.remove ([7; 8] ++ emptyTag ++ [1; 2; 3]) = NodeID3.IsBuffer [1; 2; 3].
Proof.
  apply (remove_drops_leading_bytes [] [7; 8] emptyTag [1; 2; 3]).
  - reflexivity.
  - vm_compute. reflexivity.
  - cbn. lia.
  - intros j Hj. cbn [length] in Hj.
    destruct j as [| [| j]]; [vm_compute; discriminate | vm_compute; discriminate | lia].
Defined.
